(** * HPOBenchExperimentUtils: the validation script and the FABOLAS optimizers

    A shallow embedding of

    - [HPOlibExperimentUtils/validate_benchmark.py]: [validate_benchmark]
      and the script's [__main__] block;
    - [HPOBenchExperimentUtils/optimizer/fabolas_optimizer.py]:
      [FabolasOptimizer] and [FabolasWithMUMBO].

    Python dictionaries are finite maps ([gmap]) keyed by strings, Python
    exceptions are values of [Py.exn] carried by [Py.result], numbers that
    are floats in the program are rationals ([Q]: the arithmetic is exact,
    rounding is not modelled), and calls into collaborators whose code lives
    elsewhere (trajectory loading, the benchmark, emukit) are fields of an
    interface that every statement quantifies over. *)

From Stdlib Require Import ZArith QArith Qround Qminmax Lia Ascii.
From stdpp Require Import base list strings gmap.

Open Scope Z_scope.

(** ** Python preliminaries *)

Module Py.

(** The exception classes the two files can raise or let through. *)
Inductive exn : Type :=
| AssertionError (msg : string)
| RuntimeError (msg : string)
| AttributeError (attr : string)
| KeyError (key : string)
| IndexError
| ValueError
| ZeroDivisionError
| TypeError
| SystemExit (code : Z).

Inductive result (A : Type) : Type :=
| Ok (a : A)
| Raise (e : exn).
Arguments Ok {A} a.
Arguments Raise {A} e.

Definition rbind {A B} (r : result A) (k : A -> result B) : result B :=
  match r with
  | Ok a => k a
  | Raise e => Raise e
  end.

#[global] Instance result_ret : MRet result := fun A a => Ok a.
#[global] Instance result_bind : MBind result := fun A B k r => rbind r k.
#[global] Instance result_fmap : FMap result :=
  fun A B f r => rbind r (fun a => Ok (f a)).

(** [d[k]] on a dict: a missing key raises [KeyError]. *)
Definition getitem {V} (d : gmap string V) (k : string) : result V :=
  match d !! k with
  | Some v => Ok v
  | None => Raise (KeyError k)
  end.

(** [d.update(other)]: the entries of [other] win. *)
Definition dict_update {V} (d other : gmap string V) : gmap string V :=
  other ∪ d.

(** [int(x)] on a float: truncation towards zero. *)
Definition int_of_float (x : Q) : Z :=
  if Qle_bool 0 x then Qfloor x else Qceiling x.

(** [assert b, msg]. *)
Definition py_assert (b : bool) (msg : string) : result unit :=
  if b then Ok tt else Raise (AssertionError msg).

(** [l[i]] on a list or a one-dimensional array: a negative index counts from
    the end, and an index outside [-len, len) raises [IndexError]. *)
Definition index {A} (l : list A) (i : Z) : result A :=
  let n := Z.of_nat (length l) in
  let j := if i <? 0 then n + i else i in
  if (j <? 0) || (n <=? j) then Raise IndexError
  else match l !! Z.to_nat j with
       | Some a => Ok a
       | None => Raise IndexError
       end.

(** [l[:n]]: the first [n] items, or all but the last [-n] for a negative [n]. *)
Definition slice_to {A} (l : list A) (n : Z) : list A :=
  if n <? 0 then take (Z.to_nat (Z.of_nat (length l) + n)) l
  else take (Z.to_nat n) l.

(** [a // b] on integers. *)
Definition floordiv (a b : Z) : result Z :=
  if b =? 0 then Raise ZeroDivisionError else Ok (a / b).

End Py.

Import Py.

(** Steps through a chain of binds over [result] in hypothesis [H]: the next
    computation either returned, or [H] is absurd. *)
Ltac step_result H :=
  match type of H with
  | context [mbind _ ?r] =>
      let E := fresh "E" in
      destruct r eqn:E; cbn [mbind result_bind rbind] in H; [|discriminate H]
  end.

(** What a benchmark's objective function returns: the result dictionary
    with its two mandatory entries. *)
Record result_dict : Type := { function_value : Q; cost : Q }.

(** ** The validation script: [validate_benchmark.py] *)

Module Validate.

Definition Path := string.

(** The entries of [benchmark_settings] the script reads. *)
Record benchmark_settings : Type := {
  import_benchmark : string;
  import_from : string;
  cutoff_in_s : Q;
  is_surrogate : bool
}.

(** The collaborators of the script.  [validation_utils], [runner_utils],
    the [Bookkeeper] and the benchmark itself are imported by
    [validate_benchmark.py] and defined elsewhere; each is a field here.
    A collaborator may raise; the benchmark carries a state of its own
    (the bookkeeper's files and clocks), threaded through
    [objective_function_test]. *)
Class Collaborators : Type := {
  Configuration : Type;
  str : Configuration -> string;
  Trajectory : Type;
  ParamValue : Type;
  BenchmarkClass : Type;
  RawBenchmark : Type;
  Benchmark : Type;
  is_dir : Path -> bool;
  rglob : Path -> string -> list Path;
  load_trajectories : list Path -> result (list Trajectory);
  get_unvalidated_configurations : list Trajectory -> list Configuration;
  load_validated_configurations : Path -> result (gmap string Q);
  get_benchmark_settings : string -> result benchmark_settings;
  load_benchmark : string -> string -> option bool -> result BenchmarkClass;
  container_source : ParamValue;
  benchmark_obj : BenchmarkClass -> Z -> gmap string ParamValue -> result RawBenchmark;
  Bookkeeper : RawBenchmark -> Path -> Q -> bool -> result Benchmark;
  objective_function_test :
    Benchmark -> Configuration -> Z -> Benchmark * result result_dict
}.

(** [not use_local] for [use_local : Union[bool, None]]. *)
Definition not_truthy (use_local : option bool) : bool :=
  match use_local with
  | Some true => false
  | _ => true
  end.

(** The message of the assertion on line 80; the source spells the
    apostrophe as a double quote (character 34). *)
Definition missing_folder (output_dir : Path) : string :=
  "Result folder doesn" +:+ String (ascii_of_nat 34) ("t exist: " +:+ output_dir).

(** The value marking a configuration as not yet validated (line 85,
    tested on line 126). *)
Definition sentinel : Q := (-1234)%Z # 1.

Section Script.
Context `{Collaborators}.

(** What the script does to the outside world, in order. *)
Inductive event : Type :=
| EvRglob (dir : Path)
| EvLoadTrajectories (paths : list Path)
| EvLoadValidated (dir : Path)
| EvGetSettings (benchmark : string)
| EvLoadBenchmark (name from : string)
| EvInstantiate (rng : Z) (params : gmap string ParamValue)
| EvBookkeeper (dir : Path)
| EvEvaluate (configuration : Configuration) (rng : Z)
| EvDel
| EvWriteValidated (traj : Trajectory) (results : gmap string Q) (path : Path).

(** Computations that extend the trace of events and may raise; the
    trace survives an exception. *)
Definition M (A : Type) : Type := list event -> list event * result A.

Definition ret {A} (a : A) : M A := fun t => (t, Ok a).
Definition raise {A} (e : exn) : M A := fun t => (t, Raise e).
Definition bind {A B} (m : M A) (k : A -> M B) : M B :=
  fun t =>
    match m t with
    | (t', Ok a) => k a t'
    | (t', Raise e) => (t', Raise e)
    end.
Definition call {A} (e : event) (r : result A) : M A :=
  fun t => (t ++ [e], r).
Definition lift {A} (r : result A) : M A := fun t => (t, r).

Notation "x <~ m ;; k" := (bind m (fun x => k))
  (at level 100, m at next level, right associativity).
Notation "m ;;; k" := (bind m (fun _ => k))
  (at level 100, right associativity).

(** Line 85: [{str(configuration): -1234 for configuration in ...}]. *)
Definition initial_validation_results
    (unvalidated_configurations : list Configuration) : gmap string Q :=
  foldl (fun d configuration => <[str configuration := sentinel]> d)
        ∅ unvalidated_configurations.

(** Lines 121-133: the validation loop. *)
Fixpoint validate_loop (rng : Z) (configurations : list Configuration)
    (validation_results : gmap string Q) (benchmark : Benchmark)
    : M (gmap string Q * Benchmark) :=
  match configurations with
  | [] => ret (validation_results, benchmark)
  | configuration :: rest =>
      let config_str := str configuration in
      match getitem validation_results config_str with
      | Raise e => raise e
      | Ok v =>
          if negb (Qeq_bool v sentinel)
          then validate_loop rng rest validation_results benchmark
          else
            let (benchmark', r) :=
              objective_function_test benchmark configuration rng in
            result_dict <~ call (EvEvaluate configuration rng) r ;;
            validate_loop rng rest
              (<[config_str := function_value result_dict]> validation_results)
              benchmark'
      end
  end.

(** The call on line 138 as an event. *)
Definition write_event (vr : gmap string Q) (p : Trajectory * Path) : event :=
  EvWriteValidated (fst p) vr (snd p).

(** Lines 137-139: one rewrite per trajectory file. *)
Fixpoint write_all (pairs : list (Trajectory * Path))
    (validation_results : gmap string Q) : M unit :=
  match pairs with
  | [] => ret tt
  | (traj, path) :: rest =>
      call (write_event validation_results (traj, path)) (Ok tt) ;;;
      write_all rest validation_results
  end.

(** Lines 82-94: the trajectories, their configurations, and the mapping
    from string representation to validated value. *)
Definition load_phase (output_dir : Path) (recompute_all : bool)
    : M (list Path * list Trajectory * list Configuration * gmap string Q) :=
  unvalidated_trajectories_paths <~
    call (EvRglob output_dir) (Ok (rglob output_dir "hpolib_trajectory.txt")) ;;
  unvalidated_trajectories <~
    call (EvLoadTrajectories unvalidated_trajectories_paths)
         (load_trajectories unvalidated_trajectories_paths) ;;
  let unvalidated_configurations :=
    get_unvalidated_configurations unvalidated_trajectories in
  let validation_results :=
    initial_validation_results unvalidated_configurations in
  already_evaluated_configs <~
    call (EvLoadValidated output_dir)
         (load_validated_configurations output_dir) ;;
  let validation_results :=
    if negb recompute_all
    then dict_update validation_results already_evaluated_configs
    else validation_results in
  ret (unvalidated_trajectories_paths, unvalidated_trajectories,
       unvalidated_configurations, validation_results).

(** Lines 97-116: the benchmark, wrapped in the bookkeeper. *)
Definition instantiate_phase (benchmark : string) (output_dir : Path)
    (rng : Z) (use_local : option bool)
    (benchmark_params : gmap string ParamValue) : M Benchmark :=
  settings <~ call (EvGetSettings benchmark)
                   (get_benchmark_settings benchmark) ;;
  cls <~ call (EvLoadBenchmark (import_benchmark settings) (import_from settings))
              (load_benchmark (import_benchmark settings)
                              (import_from settings) use_local) ;;
  let benchmark_params :=
    if not_truthy use_local
    then <["container_source" := container_source]> benchmark_params
    else benchmark_params in
  raw <~ call (EvInstantiate rng benchmark_params)
              (benchmark_obj cls rng benchmark_params) ;;
  call (EvBookkeeper output_dir)
       (Bookkeeper raw output_dir (cutoff_in_s settings) (is_surrogate settings)).

(** Lines 135-141. *)
Definition finish_phase (unvalidated_trajectories : list Trajectory)
    (unvalidated_trajectories_paths : list Path)
    (validation_results : gmap string Q) : M Z :=
  call EvDel (Ok tt) ;;;
  write_all (zip unvalidated_trajectories unvalidated_trajectories_paths)
            validation_results ;;;
  ret 1.

Definition validate_benchmark (benchmark : string) (output_dir : Path)
    (rng : Z) (recompute_all : bool) (use_local : option bool)
    (benchmark_params : gmap string ParamValue) : M Z :=
  lift (py_assert (is_dir output_dir) (missing_folder output_dir)) ;;;
  loaded <~ load_phase output_dir recompute_all ;;
  let '(unvalidated_trajectories_paths, unvalidated_trajectories,
        unvalidated_configurations, validation_results) := loaded in
  bk <~ instantiate_phase benchmark output_dir rng use_local benchmark_params ;;
  final <~ validate_loop rng unvalidated_configurations validation_results bk ;;
  finish_phase unvalidated_trajectories unvalidated_trajectories_paths (fst final).

(** A whole run of the script, from the empty trace. *)
Definition run {A} (m : M A) : list event * result A := m [].

(** How often a configuration with string representation [k] was handed
    to [objective_function_test]. *)
Definition is_evaluation_of (k : string) (e : event) : bool :=
  match e with
  | EvEvaluate c _ => bool_decide (str c = k)
  | _ => false
  end.

Definition evaluations (k : string) (t : list event) : nat :=
  length (filter (fun e => is_evaluation_of k e = true) t).

(** The events of lines 82-116: everything before the loop. *)
Definition setup_event (e : event) : bool :=
  match e with
  | EvRglob _ | EvLoadTrajectories _ | EvLoadValidated _ | EvGetSettings _
  | EvLoadBenchmark _ _ | EvInstantiate _ _ | EvBookkeeper _ => true
  | EvEvaluate _ _ | EvDel | EvWriteValidated _ _ _ => false
  end.

(** The benchmark never answers with the sentinel itself. *)
Definition never_returns_sentinel : Prop :=
  forall b c rng b' rd,
    objective_function_test b c rng = (b', Ok rd) ->
    ~ (function_value rd == sentinel)%Q.

(** The configurations handed to [objective_function_test], in the order of
    the calls. *)
Definition evaluated (t : list event) : list Configuration :=
  omap (fun e => match e with EvEvaluate c _ => Some c | _ => None end) t.

(** The events of lines 135-139: the bookkeeper's [__del__] and the rewrites
    of the trajectory files. *)
Definition finish_event (e : event) : bool :=
  match e with
  | EvDel | EvWriteValidated _ _ _ => true
  | _ => false
  end.

(** Lines 82-116 when nothing raises: each collaborator is called once, in
    this order, the benchmark class with the keyword arguments [kwargs]. *)
Definition setup_calls (benchmark : string) (output_dir : Path) (rng : Z)
    (settings : benchmark_settings) (kwargs : gmap string ParamValue)
    : list event :=
  [EvRglob output_dir;
   EvLoadTrajectories (rglob output_dir "hpolib_trajectory.txt");
   EvLoadValidated output_dir;
   EvGetSettings benchmark;
   EvLoadBenchmark (import_benchmark settings) (import_from settings);
   EvInstantiate rng kwargs;
   EvBookkeeper output_dir].


End Script.

(** Closes a goal that says a trace grown by set-up events holds only set-up
    events. *)
Ltac setup_trace :=
  repeat (apply Forall_app_2; [|repeat constructor]); try assumption.

(** A small concrete world to run the script in: a configuration is its own
    string, a trajectory file is the list of its configurations, the only
    directory is [results], the run history is [history], and the benchmark
    counts its calls and answers every evaluation with [answer]. *)
Definition example_files : list (Path * list string) :=
  [("results/run-1/hpolib_trajectory.txt", ["a"; "b"]);
   ("results/run-2/hpolib_trajectory.txt", ["a"])].

Definition example_load (paths : list Path) : result (list (list string)) :=
  Ok (map (fun p => default [] (snd <$> find (fun f => String.eqb (fst f) p) example_files))
          paths).

Definition example_world (history : gmap string Q) (answer : Q) : Collaborators :=
  {| Configuration := string;
     str := fun c => c;
     Trajectory := list string;
     ParamValue := string;
     BenchmarkClass := unit;
     RawBenchmark := unit;
     Benchmark := nat;
     is_dir := fun p => String.eqb p "results";
     rglob := fun _ _ => map fst example_files;
     load_trajectories := example_load;
     get_unvalidated_configurations := fun trajs => concat trajs;
     load_validated_configurations := fun _ => Ok history;
     get_benchmark_settings := fun name =>
       Ok {| import_benchmark := name; import_from := "hpolib";
             cutoff_in_s := 1800 # 1; is_surrogate := false |};
     load_benchmark := fun _ _ _ => Ok tt;
     container_source := "library://keggensperger/automl";
     benchmark_obj := fun _ _ _ => Ok tt;
     Bookkeeper := fun _ _ _ _ => Ok 0%nat;
     objective_function_test := fun b _ _ =>
       (S b, Ok {| function_value := answer; cost := 1 |}) |}.

(** Four such worlds: an empty history and a benchmark answering [1/2]; a
    history that holds the sentinel for ["a"]; a history that holds [1/4] for
    ["a"]; and a benchmark that answers with the sentinel itself. *)
Definition quiet : Collaborators := example_world ∅ (1 # 2).
Definition stale : Collaborators := example_world {[ "a" := sentinel ]} (1 # 2).
Definition settled : Collaborators := example_world {[ "a" := 1 # 4 ]} (1 # 2).

(** The script's call of the examples: benchmark [xgboost], seed 0, no
    further parameters. *)
Definition example_run (w : Collaborators) (output_dir : Path)
    (recompute_all : bool) : list (@event w) * result Z :=
  run (validate_benchmark (H := w) "xgboost" output_dir 0 recompute_all None ∅).

(** A world whose benchmark gives up at its second evaluation, and a run in
    it that names a container source of its own. *)
Definition flaky : Collaborators :=
  {| Configuration := string;
     str := fun c => c;
     Trajectory := list string;
     ParamValue := string;
     BenchmarkClass := unit;
     RawBenchmark := unit;
     Benchmark := nat;
     is_dir := fun p => String.eqb p "results";
     rglob := fun _ _ => map fst example_files;
     load_trajectories := example_load;
     get_unvalidated_configurations := fun trajs => concat trajs;
     load_validated_configurations := fun _ => Ok ∅;
     get_benchmark_settings := fun name =>
       Ok {| import_benchmark := name; import_from := "hpolib";
             cutoff_in_s := 1800 # 1; is_surrogate := false |};
     load_benchmark := fun _ _ _ => Ok tt;
     container_source := "library://keggensperger/automl";
     benchmark_obj := fun _ _ _ => Ok tt;
     Bookkeeper := fun _ _ _ _ => Ok 0%nat;
     objective_function_test := fun b _ _ =>
       (S b, if Nat.eqb b 1 then Raise (RuntimeError "cutoff reached")
             else Ok {| function_value := 1 # 2; cost := 1 |}) |}.

Definition example_run_with (w : Collaborators) (use_local : option bool)
    (params : gmap string (@ParamValue w)) : list (@event w) * result Z :=
  run (validate_benchmark (H := w) "xgboost" "results" 0 false use_local params).

End Validate.

(** ** The optimizers: [fabolas_optimizer.py] *)

Module Fabolas.

(** Python numbers, and the values that settings and hyperparameters hold. *)
Inductive number : Type :=
| Int (z : Z)
| Float (q : Q).

Definition value (n : number) : Q :=
  match n with
  | Int z => inject_Z z
  | Float q => q
  end.

(** [max(a, b)] on two numbers: [b] when it is strictly larger, else [a]. *)
Definition py_max (a b : number) : number :=
  if Qlt_le_dec (value a) (value b) then b else a.

Definition py_mul (a b : number) : number :=
  match a, b with
  | Int x, Int y => Int (x * y)
  | _, _ => Float (value a * value b)
  end.

Definition py_add (a b : number) : number :=
  match a, b with
  | Int x, Int y => Int (x + y)
  | _, _ => Float (value a + value b)
  end.

(** [int(n)]. *)
Definition py_int (n : number) : Z :=
  match n with
  | Int z => z
  | Float q => int_of_float q
  end.

Inductive PyVal : Type :=
| Num (n : number)
| Bool (b : bool)
| Str (s : string).

(** A value used where a number is needed. *)
Definition as_number (v : PyVal) : result number :=
  match v with
  | Num n => Ok n
  | Bool b => Ok (Int (if b then 1 else 0))
  | Str _ => Raise TypeError
  end.

(** A value used where an integer is needed ([operator.index]). *)
Definition as_index (v : PyVal) : result Z :=
  match v with
  | Num (Int z) => Ok z
  | Bool b => Ok (if b then 1 else 0)
  | _ => Raise TypeError
  end.

(** The hyperparameter classes of ConfigSpace.  None of the four classes the
    optimizers test for is a subclass of another. *)
Inductive Hyperparameter : Type :=
| UniformIntegerHyperparameter (name : string) (lower upper : Z)
| UniformFloatHyperparameter (name : string) (lower upper : Q)
| NormalIntegerHyperparameter (name : string) (mu sigma : Q)
| NormalFloatHyperparameter (name : string) (mu sigma : Q)
| CategoricalHyperparameter (name : string) (choices : list PyVal)
| OrdinalHyperparameter (name : string) (sequence : list PyVal)
| Constant (name : string) (v : PyVal).

Definition hp_name (h : Hyperparameter) : string :=
  match h with
  | UniformIntegerHyperparameter name _ _
  | UniformFloatHyperparameter name _ _
  | NormalIntegerHyperparameter name _ _
  | NormalFloatHyperparameter name _ _
  | CategoricalHyperparameter name _
  | OrdinalHyperparameter name _
  | Constant name _ => name
  end.

(** [type(h)], as the error message of line 53 prints it. *)
Definition type_name (h : Hyperparameter) : string :=
  match h with
  | UniformIntegerHyperparameter _ _ _ => "UniformIntegerHyperparameter"
  | UniformFloatHyperparameter _ _ _ => "UniformFloatHyperparameter"
  | NormalIntegerHyperparameter _ _ _ => "NormalIntegerHyperparameter"
  | NormalFloatHyperparameter _ _ _ => "NormalFloatHyperparameter"
  | CategoricalHyperparameter _ _ => "CategoricalHyperparameter"
  | OrdinalHyperparameter _ _ => "OrdinalHyperparameter"
  | Constant _ _ => "Constant"
  end.

(** The fidelity types each optimizer has a branch for. *)
Definition fabolas_supported (h : Hyperparameter) : bool :=
  match h with
  | UniformIntegerHyperparameter _ _ _ | UniformFloatHyperparameter _ _ _ => true
  | _ => false
  end.

Definition mumbo_supported (h : Hyperparameter) : bool :=
  match h with
  | UniformFloatHyperparameter _ _ _ | OrdinalHyperparameter _ _
  | CategoricalHyperparameter _ _ | UniformIntegerHyperparameter _ _ _ => true
  | _ => false
  end.

(** ** numpy *)

(** [np.linspace(start, stop, num)] with the default [endpoint=True], as
    numpy computes it: [arange(num) * step + start] with
    [step = (stop - start) / (num - 1)], the last sample then set to [stop]. *)
Definition set_last (l : list Q) (x : Q) : list Q :=
  match l with
  | [] => []
  | _ => take (pred (length l)) l ++ [x]
  end.

Definition linspace (start stop : Q) (num : Z) : result (list Q) :=
  if num <? 0 then Raise ValueError
  else
    let div := num - 1 in
    let delta := (stop - start)%Q in
    let y := inject_Z <$> seqZ 0 num in
    let y := if 0 <? div
             then (fun yi => yi * (delta / inject_Z div) + start)%Q <$> y
             else (fun yi => yi * delta + start)%Q <$> y in
    Ok (if 1 <? num then set_last y stop else y).

(** [np.arange(start, stop)] with step 1. *)
Definition arange (start stop : number) : list number :=
  match start, stop with
  | Int a, Int b => Int <$> seqZ a (b - a)
  | _, _ =>
      (fun i => Float (value start + inject_Z i)%Q)
        <$> seqZ 0 (Qceiling (value stop - value start))
  end.

(** [np.tile(row, reps)] on a one-dimensional array. *)
Definition tile {A} (row : list A) (reps : Z) : result (list A) :=
  if reps <? 0 then Raise ValueError
  else Ok (concat (replicate (Z.to_nat reps) row)).

(** [np.concatenate((a, b), axis=1)] on two-dimensional arrays: the row counts
    must agree. *)
Definition concatenate_axis1 {A} (a b : list (list A)) : result (list (list A)) :=
  if Nat.eqb (length a) (length b)
  then Ok (zip_with (fun x y => x ++ y) a b)
  else Raise ValueError.

(** An array handed to the benchmark wrapper: one- or two-dimensional. *)
Inductive ndarray : Type :=
| Arr1 (row : list Q)
| Arr2 (rows : list (list Q)).

(** [np.expand_dims(inp, axis=0)] when [inp.ndim == 1] (lines 125-126). *)
Definition promote (inp : ndarray) : list (list Q) :=
  match inp with
  | Arr1 row => [row]
  | Arr2 rows => rows
  end.

(** [np.asarray(l).reshape(-1, 1)]. *)
Definition reshape_column (l : list Q) : list (list Q) := (fun y => [y]) <$> l.

(** ** emukit *)

(** emukit's [DiscreteParameter]; [bounds] is the one pair
    [(min(domain), max(domain))]. *)
Record DiscreteParameter : Type := { domain : list Z }.

Definition bounds0 (p : DiscreteParameter) : result (Z * Z) :=
  match domain p with
  | [] => Raise ValueError
  | d :: ds => Ok (foldr Z.min d ds, foldr Z.max d ds)
  end.

(** Modelled from the spec: [emukit_utils.SmarterInformationSourceParameter]
    is not among the sources.  The comment on lines 111-114 describes it as
    emukit's [InformationSourceParameter] (a [DiscreteParameter] over the
    source indices) that begins at [start_ind] instead of 0: its domain is
    [start_ind, ..., start_ind + n_sources - 1]. *)
Definition SmarterInformationSourceParameter (n_sources start_ind : Z)
    : DiscreteParameter :=
  {| domain := seqZ start_ind n_sources |}.

(** [sys.maxsize] on a 64-bit interpreter. *)
Definition sys_maxsize : Z := 2 ^ 63 - 1.

(** The arguments of one call of [fmin_fabolas] (lines 72-74). *)
Record fmin_fabolas_call : Type := {
  arg_s_min : number;
  arg_s_max : number;
  arg_n_iters : Z;
  arg_n_init : Z;
  arg_marginalize_hypers : PyVal
}.

(** The benchmark object behind the bookkeeper ([benchmark.benchmark]):
    the two attributes FABOLAS asks for may be missing. *)
Record InnerBenchmark : Type := {
  X_train : option (list (list Q));
  y_train : option (list Q)
}.

(** The collaborators of the optimizers: [emukit_utils], the settings
    helper, ConfigSpace's [Configuration], emukit's [LatinDesign] and the
    benchmark's objective function, which carries a state of its own.
    [get_samples_shape] is emukit's contract for [get_samples]: one row per
    requested point. *)
Class Collaborators : Type := {
  ConfigurationSpace : Type;
  ParameterSpace : Type;
  Configuration : Type;
  BenchState : Type;
  generate_space_mappings :
    ConfigurationSpace ->
    result (ParameterSpace * list (string * (PyVal -> Q)) * list (string * (Q -> PyVal)));
  dimensionality : ParameterSpace -> Z;
  get_mandatory_optimizer_setting : gmap string PyVal -> string -> result PyVal;
  get_seq_order : list PyVal -> list PyVal;
  mk_configuration : ConfigurationSpace -> gmap string PyVal -> result Configuration;
  objective_function :
    BenchState -> Configuration -> gmap string PyVal -> BenchState * result result_dict;
  get_samples : ParameterSpace -> Z -> result (list (list Q));
  get_samples_shape :
    forall sp n grid, get_samples sp n = Ok grid -> Z.of_nat (length grid) = n
}.

Section Optimizers.
Context `{Collaborators}.

(** What [SingleFidelityOptimizer.__init__] (line 32 and line 85) leaves in
    [self]. *)
Record SingleFidelityOptimizer : Type := {
  benchmark : InnerBenchmark;
  configuration_space : ConfigurationSpace;
  settings : gmap string PyVal;
  output_dir : string;
  main_fidelity : Hyperparameter;
  min_budget : number;
  max_budget : number
}.

(** *** [FabolasOptimizer] *)

(** [fo_float_fidelity] tells which of the two [subsample_to_cs_fidel]
    lambdas (line 40 or line 51) the constructor chose. *)
Record FabolasOptimizer : Type := {
  fo_base : SingleFidelityOptimizer;
  fo_emukit_space : ParameterSpace;
  fo_to_cs : list (string * (Q -> PyVal));
  s_min : number;
  s_max : number;
  fo_float_fidelity : bool;
  fo_n_init : Z
}.

(** Lines 35-54: the subsampling range, by the type of the main fidelity. *)
Definition subsampling_range (base : SingleFidelityOptimizer)
    : result (number * number * bool) :=
  match main_fidelity base with
  | UniformIntegerHyperparameter _ lower upper =>
      Ok (py_max (Int lower) (Int 1), Int upper, false)
  | UniformFloatHyperparameter _ lower upper =>
      py_assert (bool_decide (is_Some (X_train (benchmark base))))
                "The benchmark object is expected to have an attribute 'X_train' in order to be compatible with FABOLAS." ;;
      labels ← match y_train (benchmark base) with
               | Some labels => Ok labels
               | None =>
                   Raise (AssertionError
                            "The benchmark object is expected to have an attribute 'y_train' in order to be compatible with FABOLAS.")
               end;
      py_assert (Qle_bool 0 lower && Qle_bool upper 1) "" ;;
      let rows := Int (Z.of_nat (length (labels : list Q))) in
      Ok (py_max (py_mul (Float lower) rows) (Int 1),
          py_mul (Float upper) rows, true)
  | h =>
      Raise (RuntimeError
               ("The benchmark's main fidelity parameter must be either a float or int, found type "
                  ++ type_name h))
  end.

(** Lines 64-65 and 144-145. *)
Definition initial_design_size (base : SingleFidelityOptimizer)
    (emukit_space : ParameterSpace) : result Z :=
  v ← get_mandatory_optimizer_setting (settings base) "init_samples_per_dim";
  n ← as_number v;
  Ok (py_int (py_mul n (Int (dimensionality emukit_space)))).

Definition FabolasOptimizer_init (base : SingleFidelityOptimizer)
    : result FabolasOptimizer :=
  maps ← generate_space_mappings (configuration_space base);
  range ← subsampling_range base;
  n_init ← initial_design_size base (fst (fst maps));
  Ok {| fo_base := base;
        fo_emukit_space := fst (fst maps);
        fo_to_cs := snd maps;
        s_min := fst (fst range);
        s_max := snd (fst range);
        fo_float_fidelity := snd range;
        fo_n_init := n_init |}.

(** Lines 40 and 51: [subsample_to_cs_fidel]. *)
Definition subsample_to_cs_fidel (self : FabolasOptimizer) (x : Q) : result Q :=
  if fo_float_fidelity self
  then if Qeq_bool (value (s_max self)) 0 then Raise ZeroDivisionError
       else Ok (x / value (s_max self))%Q
  else Ok x.

(** Lines 70-76: [run] hands the range to [fmin_fabolas]. *)
Definition FabolasOptimizer_run (self : FabolasOptimizer) : result fmin_fabolas_call :=
  marginalize_hypers ← getitem (settings (fo_base self)) "marginalize_hypers";
  Ok {| arg_s_min := s_min self;
        arg_s_max := s_max self;
        arg_n_iters := sys_maxsize;
        arg_n_init := fo_n_init self;
        arg_marginalize_hypers := marginalize_hypers |}.

(** *** [FabolasWithMUMBO] *)

Record FabolasWithMUMBO : Type := {
  mb_base : SingleFidelityOptimizer;
  mb_emukit_space : ParameterSpace;
  mb_to_cs : list (string * (Q -> PyVal));
  info_sources : list PyVal;
  emukit_fidelity : DiscreteParameter;
  mb_n_init : Z;
  optimizer_settings : gmap string PyVal;
  mumbo_settings : gmap string PyVal
}.

(** Lines 95-109: the attribute [info_sources] after the chain of tests;
    [None] when no branch assigned it. *)
Definition discretize (base : SingleFidelityOptimizer) : result (option (list PyVal)) :=
  match main_fidelity base with
  | UniformFloatHyperparameter _ _ _ =>
      v ← get_mandatory_optimizer_setting (settings base) "num_fidelity_values";
      num_fidelity_values ← as_index v;
      levels ← linspace (value (min_budget base)) (value (max_budget base))
                        num_fidelity_values;
      Ok (Some ((fun q => Num (Float q)) <$> (levels : list Q)))
  | OrdinalHyperparameter _ sequence => Ok (Some (get_seq_order sequence))
  | CategoricalHyperparameter _ choices => Ok (Some choices)
  | UniformIntegerHyperparameter _ _ _ =>
      Ok (Some (Num <$> arange (min_budget base) (py_add (max_budget base) (Int 1))))
  | _ => Ok None
  end.

(** Reading [self.info_sources] (line 115). *)
Definition get_info_sources (attr : option (list PyVal)) : result (list PyVal) :=
  match attr with
  | Some a => Ok a
  | None => Raise (AttributeError "info_sources")
  end.

Definition FabolasWithMUMBO_init (base : SingleFidelityOptimizer)
    : result FabolasWithMUMBO :=
  maps ← generate_space_mappings (configuration_space base);
  attr ← discretize base;
  sources ← get_info_sources attr;
  n_init ← initial_design_size base (fst (fst maps));
  update_interval ← get_mandatory_optimizer_setting (settings base) "update_interval";
  marginalize_hypers ← get_mandatory_optimizer_setting (settings base) "marginalize_hypers";
  num_mc_samples ← get_mandatory_optimizer_setting (settings base) "num_mc_samples";
  grid_size ← get_mandatory_optimizer_setting (settings base) "grid_size";
  Ok {| mb_base := base;
        mb_emukit_space := fst (fst maps);
        mb_to_cs := snd maps;
        info_sources := sources;
        emukit_fidelity :=
          SmarterInformationSourceParameter (Z.of_nat (length sources)) 1;
        mb_n_init := n_init;
        optimizer_settings :=
          {[ "update_interval" := update_interval;
             "marginalize_hypers" := marginalize_hypers ]};
        mumbo_settings :=
          {[ "num_mc_samples" := num_mc_samples; "grid_size" := grid_size ]} |}.

(** Line 116: [lambda s: {self.main_fidelity.name: self.info_sources[int(s)-1]}]. *)
Definition fidelity_emukit_to_cs (self : FabolasWithMUMBO) (s : Q)
    : result (gmap string PyVal) :=
  v ← index (info_sources self) (int_of_float s - 1);
  Ok {[ hp_name (main_fidelity (mb_base self)) := v ]}.

(** Line 133: [{name: func(i) for (name, func), i in zip(self.to_cs, x)}]. *)
Definition config_values (to_cs : list (string * (Q -> PyVal))) (x : list Q)
    : gmap string PyVal :=
  foldl (fun d p => <[fst (fst p) := snd (fst p) (snd p)]> d) ∅ (zip to_cs x).

(** One call of the objective function, as the wrapper's log keeps it: the
    configuration, the fidelity, and what the benchmark answered. *)
Definition objective_call : Type :=
  Configuration * gmap string PyVal * result result_dict.

(** Lines 130-135, the first half of the loop body: the configuration and the
    fidelity of a call.  It reads [inp[0, :-1]] and [inp[0, -1]] whatever the
    loop index is. *)
Definition wrapper_inputs (self : FabolasWithMUMBO) (inp : list (list Q))
    : result (Configuration * gmap string PyVal) :=
  match inp with
  | [] => Raise IndexError
  | row0 :: _ =>
      match last row0 with
      | None => Raise IndexError
      | Some s =>
          let x := removelast row0 in
          config ← mk_configuration (configuration_space (mb_base self))
                                    (config_values (mb_to_cs self) x);
          fidelity ← fidelity_emukit_to_cs self s;
          Ok (config, fidelity)
      end
  end.

(** Lines 130-137: the whole loop body. *)
Definition evaluate_body (self : FabolasWithMUMBO) (inp : list (list Q))
    (b : BenchState) (log : list objective_call)
    : BenchState * list objective_call * result (Q * Q) :=
  match wrapper_inputs self inp with
  | Raise e => (b, log, Raise e)
  | Ok (config, fidelity) =>
      let (b', r) := objective_function b config fidelity in
      (b', log ++ [(config, fidelity, r)],
       (fun res => (function_value res, cost res)) <$> r)
  end.

(** Lines 128-139: [for i in range(inp.shape[0])]. *)
Fixpoint wrapper_loop (self : FabolasWithMUMBO) (inp : list (list Q)) (n : nat)
    (b : BenchState) (log : list objective_call) (yvals costs : list Q)
    : BenchState * list objective_call * result (list Q * list Q) :=
  match n with
  | O => (b, log, Ok (yvals, costs))
  | S n' =>
      match evaluate_body self inp b log with
      | (b', log', Ok (y, c)) =>
          wrapper_loop self inp n' b' log' (yvals ++ [y]) (costs ++ [c])
      | (b', log', Raise e) => (b', log', Raise e)
      end
  end.

(** Lines 118-141: the benchmark wrapper. *)
Definition wrapper (self : FabolasWithMUMBO) (inp : ndarray) (b : BenchState)
    : BenchState * list objective_call * result (list (list Q) * list (list Q)) :=
  let inp := promote inp in
  let '(b', log, r) := wrapper_loop self inp (length inp) b [] [] [] in
  (b', log, (fun yc => (reshape_column (fst yc), reshape_column (snd yc))) <$> r).

(** Lines 172-182 of [_setup_model]: the warm-start design [X_init]. *)
Definition warm_start (self : FabolasWithMUMBO) : result (list (list Q)) :=
  grid ← get_samples (mb_emukit_space self) (mb_n_init self);
  q ← floordiv (mb_n_init self) (Z.of_nat (length (info_sources self)));
  let n_reps := q + 1 in
  bnds ← bounds0 (emukit_fidelity self);
  tiled ← tile (arange (Int (fst bnds)) (Int (snd bnds + 1))) n_reps;
  let sample_fidelities :=
    (fun s => [value s]) <$> slice_to tiled (mb_n_init self) in
  concatenate_axis1 grid sample_fidelities.

(** Whether a constructor ended in Python's [TypeError]. *)
Definition raised_type_error {A} (r : result A) : bool :=
  match r with
  | Raise TypeError => true
  | _ => false
  end.

(** *** [FabolasOptimizer]'s benchmark wrapper *)

(** Lines 56-61: the configuration is built first, then the fidelity, and the
    objective function is called once; the call is logged as for the wrapper
    of [FabolasWithMUMBO]. *)
Definition FabolasOptimizer_wrapper (self : FabolasOptimizer) (x : list Q) (s : Q)
    (b : BenchState) : BenchState * list objective_call * result (Q * Q) :=
  match mk_configuration (configuration_space (fo_base self))
                         (config_values (fo_to_cs self) x) with
  | Raise e => (b, [], Raise e)
  | Ok config =>
      match subsample_to_cs_fidel self s with
      | Raise e => (b, [], Raise e)
      | Ok fraction =>
          let fidelity : gmap string PyVal :=
            {[ hp_name (main_fidelity (fo_base self)) := Num (Float fraction) ]} in
          let (b', r) := objective_function b config fidelity in
          (b', [(config, fidelity, r)],
           (fun res => (function_value res, cost res)) <$> r)
      end
  end.

(** *** [FabolasWithMUMBO._setup_model] *)

(** [bool(v)], for the test on line 204. *)
Definition truthy (v : PyVal) : bool :=
  match v with
  | Num n => negb (Qeq_bool (value n) 0)
  | Bool b => b
  | Str s => negb (String.eqb s EmptyString)
  end.

(** Line 183, [list(map(self.benchmark_caller, X_init))]: iterating over the
    two-dimensional [X_init] hands the wrapper one row at a time, as a
    one-dimensional array; the calls are logged in order. *)
Fixpoint evaluate_rows (self : FabolasWithMUMBO) (rows : list (list Q))
    (b : BenchState) (log : list objective_call)
    : BenchState * list objective_call
      * result (list (list (list Q) * list (list Q))) :=
  match rows with
  | [] => (b, log, Ok [])
  | row :: rest =>
      match wrapper self (Arr1 row) b with
      | (b', calls, Ok yc) =>
          match evaluate_rows self rest b' (log ++ calls) with
          | (b'', log', Ok ycs) => (b'', log', Ok (yc :: ycs))
          | (b'', log', Raise e) => (b'', log', Raise e)
          end
      | (b', calls, Raise e) => (b', log ++ calls, Raise e)
      end
  end.

(** [np.array(outputs)] read in row-major order: for every call its values,
    then its costs. *)
Definition flatten_outputs (outputs : list (list (list Q) * list (list Q)))
    : list Q :=
  outputs ≫= (fun yc => concat (fst yc) ++ concat (snd yc)).

(** [.reshape((-1, 2))]: two items to a row. *)
Fixpoint reshape_pairs (flat : list Q) : result (list (Q * Q)) :=
  match flat with
  | [] => Ok []
  | [_] => Raise ValueError
  | y :: c :: rest => rows ← reshape_pairs rest; Ok ((y, c) :: rows)
  end.

(** What [_setup_model] hands to emukit: the arguments of [FabolasModel]
    (lines 197-198), of [MUMBO] (lines 205-207 and 211-213), and of the loop
    (lines 228-230).  [extended_space] is the parameter space with the
    fidelity parameter appended (line 194). *)
Record FabolasModel : Type := {
  X_init : list (list Q);
  Y_init : list (list Q);
  model_s_min : Z;
  model_s_max : Z
}.

Record MUMBO : Type := {
  mumbo_model : FabolasModel;
  mumbo_space : ParameterSpace * DiscreteParameter;
  target_information_source_index : Z;
  num_samples : PyVal;
  grid_size : PyVal
}.

(** [entropy_search]: the acquisition integrated over the hyperparameters of
    the model (line 209), or the acquisition itself (line 211). *)
Inductive entropy_search : Type :=
| IntegratedHyperParameterAcquisition (generated : MUMBO)
| Plain (acquisition : MUMBO).

Definition acquisition_of (e : entropy_search) : MUMBO :=
  match e with
  | IntegratedHyperParameterAcquisition a | Plain a => a
  end.

Record CostSensitiveBayesianOptimizationLoop : Type := {
  loop_space : ParameterSpace * DiscreteParameter;
  model_objective : FabolasModel;
  model_cost : FabolasModel;
  acquisition : entropy_search;
  update_interval : PyVal
}.

(** Lines 172-230.  The warm-start design is evaluated row by row before any
    model is built; the hooks of lines 235-236 come from [emukit_utils] and
    are left out. *)
Definition setup_model (self : FabolasWithMUMBO) (b : BenchState)
    : BenchState * list objective_call
      * result CostSensitiveBayesianOptimizationLoop :=
  match warm_start self, bounds0 (emukit_fidelity self) with
  | Raise e, _ | Ok _, Raise e => (b, [], Raise e)
  | Ok X, Ok (lo, hi) =>
      let '(b', log, outputs) := evaluate_rows self X b [] in
      (b', log,
       outputs ← outputs;
       res ← reshape_pairs (flatten_outputs outputs);
       let extended_space := (mb_emukit_space self, emukit_fidelity self) in
       let objective :=
         {| X_init := X; Y_init := (fun r => [fst r]) <$> res;
            model_s_min := lo; model_s_max := hi |} in
       let cost_model :=
         {| X_init := X; Y_init := (fun r => [snd r]) <$> res;
            model_s_min := lo; model_s_max := hi |} in
       marginalize_hypers ← getitem (optimizer_settings self) "marginalize_hypers";
       num_mc_samples ← getitem (mumbo_settings self) "num_mc_samples";
       grid ← getitem (mumbo_settings self) "grid_size";
       let mumbo :=
         {| mumbo_model := objective; mumbo_space := extended_space;
            target_information_source_index := hi;
            num_samples := num_mc_samples; grid_size := grid |} in
       interval ← getitem (optimizer_settings self) "update_interval";
       Ok {| loop_space := extended_space;
             model_objective := objective;
             model_cost := cost_model;
             acquisition :=
               if truthy marginalize_hypers
               then IntegratedHyperParameterAcquisition mumbo
               else Plain mumbo;
             update_interval := interval |})
  end.

End Optimizers.

(** A small concrete setting to run the optimizers in: a configuration space
    is the list of its hyperparameters, every one of them mapped to one
    emukit dimension; settings are looked up as they are; a configuration is
    its dictionary of values; the benchmark counts its calls and answers the
    [k]-th call with value [k] and cost [1]; the initial design is the origin,
    repeated. *)
Definition example_samples (dim : nat) (n : Z) : result (list (list Q)) :=
  if n <? 0 then Raise ValueError
  else Ok (replicate (Z.to_nat n) (replicate dim (0 : Q))).

Definition example_collaborators : Collaborators :=
  {| ConfigurationSpace := list Hyperparameter;
     ParameterSpace := nat;
     Configuration := gmap string PyVal;
     BenchState := nat;
     generate_space_mappings := fun space =>
       Ok (length space,
           (fun h => (hp_name h, fun _ : PyVal => 0%Q)) <$> space,
           (fun h => (hp_name h, fun q : Q => Num (Float q))) <$> space);
     dimensionality := Z.of_nat;
     get_mandatory_optimizer_setting := fun settings key => getitem settings key;
     get_seq_order := fun sequence =>
       (fun i => Num (Int i)) <$> seqZ 0 (Z.of_nat (length sequence));
     mk_configuration := fun _ values => Ok values;
     objective_function := fun b _ _ =>
       (S b, Ok {| function_value := inject_Z (Z.of_nat b); cost := 1 |});
     get_samples := example_samples;
     get_samples_shape := ltac:(
       unfold example_samples; intros sp n grid E;
       destruct (Z.ltb_spec n 0); [discriminate E|];
       injection E as <-; rewrite length_replicate; lia) |}.

Definition example_settings : gmap string PyVal :=
  {[ "init_samples_per_dim" := Num (Float (5 # 2));
     "num_fidelity_values" := Num (Int 4);
     "update_interval" := Num (Int 1);
     "marginalize_hypers" := Bool false;
     "num_mc_samples" := Num (Int 10);
     "grid_size" := Num (Int 100) ]}.

Definition example_space : list Hyperparameter :=
  [UniformFloatHyperparameter "eta" (1 # 100) 1;
   UniformIntegerHyperparameter "depth" 1 15].

(** The state after [super().__init__] for a main fidelity [fidelity] with
    budgets from [lo] to [hi], over a benchmark with four training rows. *)
Definition example_base (fidelity : Hyperparameter) (lo hi : number)
    : SingleFidelityOptimizer (H := example_collaborators) :=
  {| benchmark := {| X_train := Some [[0]; [1]; [2]; [3]]%Q;
                     y_train := Some [0; 1; 0; 1]%Q |};
     configuration_space := (example_space : @ConfigurationSpace example_collaborators);
     settings := example_settings;
     output_dir := "results";
     main_fidelity := fidelity;
     min_budget := lo;
     max_budget := hi |}.

Definition example_categorical : SingleFidelityOptimizer (H := example_collaborators) :=
  example_base (CategoricalHyperparameter "budget" [Str "low"; Str "high"])
               (Int 0) (Int 1).

Definition example_constant : SingleFidelityOptimizer (H := example_collaborators) :=
  example_base (Constant "budget" (Num (Int 7))) (Int 7) (Int 7).

Definition example_subsample : SingleFidelityOptimizer (H := example_collaborators) :=
  example_base (UniformFloatHyperparameter "subsample" 0 1) (Float 0) (Float 1).

Definition example_fraction : SingleFidelityOptimizer (H := example_collaborators) :=
  example_base (UniformFloatHyperparameter "fraction" (1 # 10) 1)
               (Float (1 # 10)) (Float 1).

(** The [FabolasWithMUMBO] that the constructor builds from
    [example_fraction]: four fidelity levels between [1/10] and [1], and
    [int(2.5 * 2) = 5] initial points. *)
Definition example_levels : list Q :=
  match linspace (1 # 10) 1 4 with
  | Ok levels => levels
  | Raise _ => []
  end.

Definition example_mumbo : FabolasWithMUMBO (H := example_collaborators) :=
  {| mb_base := example_fraction;
     mb_emukit_space := 2%nat;
     mb_to_cs := (fun h => (hp_name h, fun q : Q => Num (Float q))) <$> example_space;
     info_sources := (fun q => Num (Float q)) <$> example_levels;
     emukit_fidelity := SmarterInformationSourceParameter 4 1;
     mb_n_init := 5;
     optimizer_settings :=
       {[ "update_interval" := Num (Int 1); "marginalize_hypers" := Bool false ]};
     mumbo_settings :=
       {[ "num_mc_samples" := Num (Int 10); "grid_size" := Num (Int 100) ]} |}.

(** Three rows for the wrapper: two configuration components and a fidelity
    index each. *)
Definition example_row0 : list Q := [3 # 10; 7; 2]%Q.

Definition example_input : ndarray :=
  Arr2 [example_row0; [9 # 10; 1; 4]%Q; [1 # 2; 3; 1]%Q].

(** Whether a computation returned. *)
Definition returned {A} (r : result A) : bool :=
  match r with
  | Ok _ => true
  | Raise _ => false
  end.

(** More optimizers over the same benchmark: a fidelity that counts epochs
    from 1 to 4, with the [FabolasWithMUMBO] the constructor builds for it;
    the [FabolasOptimizer] of [example_subsample]; and the one of a fraction
    that stays below a tenth of the four training rows. *)
Definition example_epochs : SingleFidelityOptimizer (H := example_collaborators) :=
  example_base (UniformIntegerHyperparameter "epochs" 1 4) (Int 1) (Int 4).

Definition example_mumbo_epochs : FabolasWithMUMBO (H := example_collaborators) :=
  {| mb_base := example_epochs;
     mb_emukit_space := 2%nat;
     mb_to_cs := (fun h => (hp_name h, fun q : Q => Num (Float q))) <$> example_space;
     info_sources := (fun z => Num (Int z)) <$> seqZ 1 4;
     emukit_fidelity := SmarterInformationSourceParameter 4 1;
     mb_n_init := 5;
     optimizer_settings :=
       {[ "update_interval" := Num (Int 1); "marginalize_hypers" := Bool false ]};
     mumbo_settings :=
       {[ "num_mc_samples" := Num (Int 10); "grid_size" := Num (Int 100) ]} |}.

Definition example_fabolas : FabolasOptimizer (H := example_collaborators) :=
  {| fo_base := example_subsample;
     fo_emukit_space := 2%nat;
     fo_to_cs := (fun h => (hp_name h, fun q : Q => Num (Float q))) <$> example_space;
     s_min := Int 1;
     s_max := Float (1 * inject_Z 4);
     fo_float_fidelity := true;
     fo_n_init := 5 |}.

Definition example_tenth : SingleFidelityOptimizer (H := example_collaborators) :=
  example_base (UniformFloatHyperparameter "subsample" 0 (1 # 10))
               (Float 0) (Float (1 # 10)).

Definition example_fabolas_tenth : FabolasOptimizer (H := example_collaborators) :=
  {| fo_base := example_tenth;
     fo_emukit_space := 2%nat;
     fo_to_cs := (fun h => (hp_name h, fun q : Q => Num (Float q))) <$> example_space;
     s_min := Int 1;
     s_max := Float ((1 # 10) * inject_Z 4);
     fo_float_fidelity := true;
     fo_n_init := 5 |}.

End Fabolas.
(** ** The script's command line: the [__main__] block of [validate_benchmark.py] *)

Module Cli.

(** Values on the command line's way to [validate_benchmark]: attributes of
    the namespace and keyword arguments. *)
Inductive CliVal : Type :=
| VNone
| VStr (s : string)
| VInt (z : Z)
| VBool (b : bool).

(** *** String helpers *)

(** [s.startswith(p)]. *)
Fixpoint starts_with (s p : string) {struct p} : bool :=
  match p, s with
  | EmptyString, _ => true
  | String c p', String d s' => if Ascii.eqb c d then starts_with s' p' else false
  | String _ _, EmptyString => false
  end.

(** [s.split('=', 1)] when ['=' in s]. *)
Fixpoint split_eq (s : string) : option (string * string) :=
  match s with
  | EmptyString => None
  | String c s' =>
      if Ascii.eqb c "="%char then Some (EmptyString, s')
      else match split_eq s' with
           | Some (l, r) => Some (String c l, r)
           | None => None
           end
  end.

Fixpoint contains_space (s : string) : bool :=
  match s with
  | EmptyString => false
  | String c s' => Ascii.eqb c " "%char || contains_space s'
  end.

Definition is_digit (c : ascii) : bool :=
  let n := nat_of_ascii c in (48 <=? n)%nat && (n <=? 57)%nat.

Fixpoint all_digits (s : string) : bool :=
  match s with
  | EmptyString => true
  | String c s' => is_digit c && all_digits s'
  end.

(** Digits, then optionally a dot followed by at least one digit; [seen]
    tells whether a digit came before. *)
Fixpoint number_tail (seen : bool) (s : string) : bool :=
  match s with
  | EmptyString => seen
  | String c s' =>
      if is_digit c then number_tail true s'
      else if Ascii.eqb c "."%char
           then match s' with
                | EmptyString => false
                | _ => all_digits s'
                end
           else false
  end.

(** argparse's [_negative_number_matcher], ['^-\d+$|^-\d*\.\d+$'], on ASCII. *)
Definition looks_like_negative_number (s : string) : bool :=
  match s with
  | String c s' => Ascii.eqb c "-" && number_tail false s'
  | EmptyString => false
  end.

Fixpoint all_h (s : string) : bool :=
  match s with
  | EmptyString => true
  | String c s' => Ascii.eqb c "h"%char && all_h s'
  end.

(** *** The parser the script declares *)

Inductive action_kind : Type := Store | StoreTrue | Help.

(** One [add_argument] call (or the help action [ArgumentParser] adds by
    itself).  [type_int] is [type=int]; otherwise the string is kept. *)
Record Action : Type := {
  option_strings : list string;
  dest : string;
  kind : action_kind;
  required : bool;
  default_value : CliVal;
  type_int : bool;
  choices : option (list string)
}.

(** What the script's command line needs from elsewhere:
    [runner_utils.get_benchmark_names] and
    [runner_utils.transform_unknown_params_to_dict], imported on lines 13-14
    and not among the sources, and Python's [int] on strings ([type=int]). *)
Class Collaborators : Type := {
  get_benchmark_names : list string;
  transform_unknown_params_to_dict : list string -> result (gmap string CliVal);
  int_of_string : string -> option Z
}.

Section Main.
Context `{Collaborators}.

(** Lines 145-153.  The help action comes first: [ArgumentParser] adds it on
    construction, with no attribute in the namespace. *)
Definition help_action : Action :=
  {| option_strings := ["-h"; "--help"]; dest := "help"; kind := Help;
     required := false; default_value := VNone; type_int := false; choices := None |}.

Definition output_dir_action : Action :=
  {| option_strings := ["--output_dir"]; dest := "output_dir"; kind := Store;
     required := true; default_value := VNone; type_int := false; choices := None |}.

Definition benchmark_action : Action :=
  {| option_strings := ["--benchmark"]; dest := "benchmark"; kind := Store;
     required := true; default_value := VNone; type_int := false;
     choices := Some get_benchmark_names |}.

Definition rng_action : Action :=
  {| option_strings := ["--rng"]; dest := "rng"; kind := Store;
     required := false; default_value := VInt 0; type_int := true; choices := None |}.

Definition recompute_all_action : Action :=
  {| option_strings := ["--recompute_all"]; dest := "recompute_all";
     kind := StoreTrue; required := false; default_value := VBool false;
     type_int := false; choices := None |}.

Definition parser : list Action :=
  [help_action; output_dir_action; benchmark_action; rng_action;
   recompute_all_action].

(** *** argparse, as far as this parser uses it

    The standard library's [ArgumentParser.parse_known_args], as CPython 3.6
    to 3.11 runs it for a parser with optional arguments only, prefix
    character [-] and abbreviations allowed.  It first classifies every
    argument string ([_parse_optional]), then walks through them
    ([consume_optional], and the collection of the extras); an error is a
    [SystemExit] with status 2, the help action one with status 0. *)

Definition usage_error {A} : result A := Raise (SystemExit 2).

(** An argument string after classification: a plain argument, the [--]
    separator, an option of the parser (with the option string it stands for
    and the explicit argument of the [--opt=arg] form), or something that
    looks like an option and is none. *)
Inductive token : Type :=
| TArg (s : string)
| TDash
| TOpt (a : Action) (option_string : string) (explicit : option string)
| TUnknown (s : string).

(** The parser's [_option_string_actions]. *)
Definition option_table : list (string * Action) :=
  a ← parser; (fun o => (o, a)) <$> option_strings a.

Definition lookup_option (o : string) : option Action :=
  snd <$> find (fun p => String.eqb (fst p) o) option_table.

(** [_get_option_tuples]: the options an abbreviation may stand for. *)
Definition option_tuples (arg : string) : list token :=
  match arg with
  | String c1 (String c2 rest) =>
      if negb (Ascii.eqb c1 "-") then []
      else if Ascii.eqb c2 "-"
      then
        let (option_prefix, explicit) :=
          match split_eq arg with
          | Some (l, r) => (l, Some r)
          | None => (arg, None)
          end in
        p ← option_table;
        if starts_with (fst p) option_prefix
        then [TOpt (snd p) (fst p) explicit] else []
      else
        p ← option_table;
        if String.eqb (fst p) (String c1 (String c2 EmptyString))
        then [TOpt (snd p) (fst p) (Some rest)]
        else if starts_with (fst p) arg then [TOpt (snd p) (fst p) None] else []
  | _ => []
  end.

(** [_parse_optional]. *)
Definition parse_optional (arg : string) : result token :=
  if negb (starts_with arg "-") then Ok (TArg arg)
  else
    match lookup_option arg with
    | Some a => Ok (TOpt a arg None)
    | None =>
        if (String.length arg =? 1)%nat then Ok (TArg arg)
        else
          let exact :=
            match split_eq arg with
            | Some (l, r) => (fun a => TOpt a l (Some r)) <$> lookup_option l
            | None => None
            end in
          match exact with
          | Some t => Ok t
          | None =>
              match option_tuples arg with
              | _ :: _ :: _ => usage_error
              | [t] => Ok t
              | [] =>
                  if looks_like_negative_number arg then Ok (TArg arg)
                  else if contains_space arg then Ok (TArg arg)
                  else Ok (TUnknown arg)
              end
          end
    end.

(** The first pass: everything after [--] is a plain argument. *)
Fixpoint classify (args : list string) : result (list token) :=
  match args with
  | [] => Ok []
  | arg :: rest =>
      if String.eqb arg "--" then Ok (TDash :: (TArg <$> rest))
      else
        t ← parse_optional arg;
        ts ← classify rest;
        Ok (t :: ts)
  end.

(** The text a token was. *)
Definition token_string (t : token) : string :=
  match t with
  | TArg s | TUnknown s => s
  | TDash => "--"
  | TOpt _ o None => o
  | TOpt _ o (Some e) => o +:+ "=" +:+ e
  end.

(** [_get_values] for one argument string: conversion, then the choices. *)
Definition get_value (a : Action) (s : string) : result CliVal :=
  v ← (if type_int a
       then match int_of_string s with
            | Some z => Ok (VInt z)
            | None => usage_error
            end
       else Ok (VStr s));
  match choices a with
  | Some cs => if bool_decide (s ∈ cs) then Ok v else usage_error
  | None => Ok v
  end.

(** The state of the second pass: the namespace, the destinations of the
    actions seen, the extras, and what the walk is in the middle of. *)
Inductive mode : Type :=
| Idle
| Expecting (a : Action)
| AfterArgument.

Record walk : Type := {
  namespace : gmap string CliVal;
  seen : list string;
  extras : list string;
  pending : mode
}.

Definition take_store (w : walk) (a : Action) (s : string) (next : mode)
    : result walk :=
  v ← get_value a s;
  Ok {| namespace := <[dest a := v]> (namespace w);
        seen := dest a :: seen w;
        extras := extras w;
        pending := next |}.

Definition add_extra (w : walk) (s : string) : walk :=
  {| namespace := namespace w; seen := seen w;
     extras := extras w ++ [s]; pending := Idle |}.

(** An option met when none is pending.  An explicit argument ([--opt=arg])
    is all the option takes; otherwise what follows the option is matched
    against [-*A-*] when it stores an argument and against [-*] when it takes
    none, and a separator so matched is dropped. *)
Definition start_option (w : walk) (a : Action) (option_string : string)
    (explicit : option string) : result walk :=
  match kind a, explicit with
  | Store, Some e => take_store w a e Idle
  | Store, None =>
      Ok {| namespace := namespace w; seen := seen w; extras := extras w;
            pending := Expecting a |}
  | StoreTrue, None =>
      Ok {| namespace := <[dest a := VBool true]> (namespace w);
            seen := dest a :: seen w;
            extras := extras w;
            pending := AfterArgument |}
  | StoreTrue, Some _ => usage_error
  | Help, None => Raise (SystemExit 0)
  | Help, Some e =>
      (* [-h] followed by more short options in one string: only [-h]
         itself is one; [--help=...] is an error. *)
      if starts_with option_string "--" then usage_error
      else if all_h e then Raise (SystemExit 0) else usage_error
  end.

(** One step of [consume_optional] and of the collection of extras. *)
Definition step (w : walk) (t : token) : result walk :=
  match pending w, t with
  | Expecting a, TDash => Ok w
  | Expecting a, TArg s => take_store w a s AfterArgument
  | Expecting a, (TOpt _ _ _ | TUnknown _) => usage_error
  | AfterArgument, TDash =>
      Ok {| namespace := namespace w; seen := seen w; extras := extras w;
            pending := Idle |}
  | (Idle | AfterArgument), TOpt a o e => start_option w a o e
  | Idle, (TArg _ | TDash | TUnknown _)
  | AfterArgument, (TArg _ | TUnknown _) =>
      Ok (add_extra w (token_string t))
  end.

Fixpoint consume (w : walk) (ts : list token) : result walk :=
  match ts with
  | [] => Ok w
  | t :: rest => w' ← step w t; consume w' rest
  end.

(** The namespace before parsing: every default of an action that has an
    attribute. *)
Definition initial_namespace : gmap string CliVal :=
  foldl (fun ns a =>
           match kind a with
           | Help => ns
           | _ => <[dest a := default_value a]> ns
           end) ∅ parser.

(** [parse_known_args]: the namespace and the arguments it did not
    recognize. *)
Definition parse_known_args (argv : list string)
    : result (gmap string CliVal * list string) :=
  ts ← classify argv;
  w ← consume {| namespace := initial_namespace; seen := [];
                  extras := []; pending := Idle |} ts;
  match pending w with
  | Expecting _ => usage_error
  | _ =>
      if forallb (fun a => negb (required a) || bool_decide (dest a ∈ seen w)) parser
      then Ok (namespace w, extras w)
      else usage_error
  end.

(** Every option token stands for an action of the parser. *)
Definition known_token (t : token) : Prop :=
  match t with
  | TOpt a _ _ => a ∈ parser
  | _ => True
  end.

(** A namespace with the four attributes of the script's options, and no
    other. *)
Definition namespace_of (output_dir benchmark rng recompute_all : CliVal)
    : gmap string CliVal :=
  <["output_dir" := output_dir]>
    (<["benchmark" := benchmark]>
       (<["rng" := rng]> (<["recompute_all" := recompute_all]> ∅))).




(** *** The call on line 158 *)

(** The arguments [validate_benchmark] is entered with. *)
Record validate_benchmark_call : Type := {
  arg_benchmark : CliVal;
  arg_output_dir : CliVal;
  arg_rng : CliVal;
  arg_recompute_all : CliVal;
  arg_use_local : CliVal;
  arg_benchmark_params : gmap string CliVal
}.

(** A call that unpacks two dictionaries into keywords: a keyword given twice
    is a [TypeError]. *)
Definition merge_keywords (a b : gmap string CliVal) : result (gmap string CliVal) :=
  if bool_decide (a ##ₘ b) then Ok (a ∪ b) else Raise TypeError.

(** Binding keywords to the signature on lines 22-27: three parameters
    without default, two with, and the catch-all [benchmark_params] for all
    the rest. *)
Definition bind_signature (kw : gmap string CliVal) : result validate_benchmark_call :=
  match kw !! "benchmark", kw !! "output_dir", kw !! "rng" with
  | Some benchmark, Some output_dir, Some rng =>
      Ok {| arg_benchmark := benchmark;
            arg_output_dir := output_dir;
            arg_rng := rng;
            arg_recompute_all := default (VBool false) (kw !! "recompute_all");
            arg_use_local := default (VBool false) (kw !! "use_local");
            arg_benchmark_params :=
              delete "benchmark"
                (delete "output_dir"
                   (delete "rng"
                      (delete "recompute_all" (delete "use_local" kw)))) |}
  | _, _, _ => Raise TypeError
  end.

(** Lines 155-158. *)
Definition main (argv : list string) : result validate_benchmark_call :=
  parsed ← parse_known_args argv;
  benchmark_params ← transform_unknown_params_to_dict (snd parsed);
  kw ← merge_keywords (fst parsed) benchmark_params;
  bind_signature kw.

(** A token that stands for an option of the action with destination [d],
    and a walk that waits for the argument of such an option. *)
Definition names_dest (d : string) (t : token) : Prop :=
  match t with
  | TOpt a _ _ => dest a = d
  | _ => False
  end.

Definition waits_for (d : string) (w : walk) : Prop :=
  exists a, pending w = Expecting a /\ dest a = d.



End Main.

(** Decides an equation between a namespace built by updates and
    [namespace_of]. *)
Ltac namespace_eq :=
  apply map_eq; intros k; unfold namespace_of;
  repeat (rewrite lookup_insert; case_decide; subst; try congruence; try done).

(** A concrete command line to run [main] on: three benchmark names, decimal
    integers, and unknown arguments read in pairs, the first string of a pair
    (its two leading characters dropped) naming the second. *)
Fixpoint decimal (acc : Z) (s : string) : option Z :=
  match s with
  | EmptyString => Some acc
  | String c s' =>
      if is_digit c
      then decimal (10 * acc + Z.of_nat (nat_of_ascii c - 48)) s'
      else None
  end.

Definition example_int (s : string) : option Z :=
  match s with
  | EmptyString => None
  | String c s' =>
      if Ascii.eqb c "-"
      then match s' with
           | EmptyString => None
           | _ => Z.opp <$> decimal 0 s'
           end
      else decimal 0 s
  end.

Fixpoint example_transform (unknown : list string) : result (gmap string CliVal) :=
  match unknown with
  | [] => Ok ∅
  | [_] => Raise IndexError
  | name :: v :: rest =>
      d ← example_transform rest;
      Ok (<[String.substring 2 (String.length name - 2) name := VStr v]> d)
  end.

Definition example_cli : Collaborators :=
  {| get_benchmark_names := ["xgboost"; "cartpolereduced"; "learna"];
     transform_unknown_params_to_dict := example_transform;
     int_of_string := example_int |}.

End Cli.
(** ** Facts about the validation script *)

Module ValidateFacts.
Import Validate.

Section Facts.
Context `{Collaborators}.

Lemma evaluations_app (k : string) (t1 t2 : list event) :
  evaluations k (t1 ++ t2) = (evaluations k t1 + evaluations k t2)%nat.
Proof. unfold evaluations. now rewrite filter_app, length_app. Qed.

Lemma evaluations_evaluate (k : string) (c : Configuration) (rng : Z) :
  evaluations k [EvEvaluate c rng] = if bool_decide (str c = k) then 1%nat else 0%nat.
Proof.
  unfold evaluations. cbn [is_evaluation_of].
  destruct (bool_decide (str c = k)) eqn:E.
  - rewrite filter_cons_True by (cbn; now rewrite E). reflexivity.
  - rewrite filter_cons_False by (cbn; rewrite E; discriminate). reflexivity.
Qed.

Lemma evaluations_other (k : string) (t : list event) (e : event) :
  is_evaluation_of k e = false ->
  evaluations k (t ++ [e]) = evaluations k t.
Proof.
  intros He. rewrite evaluations_app. unfold evaluations at 2.
  rewrite filter_cons_False by (rewrite He; discriminate). cbn. lia.
Qed.

(** One turn of the loop, spelled out. *)
Lemma validate_loop_cons (rng : Z) (c : Configuration) (rest : list Configuration)
    (vr : gmap string Q) (b : Benchmark) (t : list event) :
  validate_loop rng (c :: rest) vr b t =
  match vr !! str c with
  | None => (t, Raise (KeyError (str c)))
  | Some v =>
      if Qeq_bool v sentinel
      then match objective_function_test b c rng with
           | (b', Ok rd) =>
               validate_loop rng rest (<[str c := function_value rd]> vr) b'
                             (t ++ [EvEvaluate c rng])
           | (_, Raise e) => (t ++ [EvEvaluate c rng], Raise e)
           end
      else validate_loop rng rest vr b t
  end.
Proof.
  cbn [validate_loop]. unfold getitem.
  destruct (vr !! str c) as [v|]; [|reflexivity].
  destruct (Qeq_bool v sentinel); cbn [negb]; [|reflexivity].
  destruct (objective_function_test b c rng) as [b' [rd|e]]; reflexivity.
Qed.

(** The loop only ever appends evaluations to the trace. *)
Lemma validate_loop_extends (rng : Z) (cfgs : list Configuration) :
  forall vr b t t' r,
    validate_loop rng cfgs vr b t = (t', r) ->
    exists ev, t' = t ++ ev /\
               Forall (fun e => exists c, e = EvEvaluate c rng) ev.
Proof.
  induction cfgs as [|c rest IH]; intros vr b t t' r E.
  - cbn in E. injection E as <- <-. exists []. split; [now rewrite app_nil_r | constructor].
  - rewrite validate_loop_cons in E.
    destruct (vr !! str c) as [v|].
    2:{ injection E as <- <-. exists []. split; [now rewrite app_nil_r | constructor]. }
    destruct (Qeq_bool v sentinel).
    + destruct (objective_function_test b c rng) as [b' [rd|e]].
      * apply IH in E as (ev & -> & Hev). exists (EvEvaluate c rng :: ev).
        split; [now rewrite <- app_assoc | constructor; eauto].
      * injection E as <- <-. exists [EvEvaluate c rng]. split; [reflexivity|].
        constructor; eauto.
    + eauto.
Qed.

Lemma validate_loop_monotone (rng : Z) (cfgs : list Configuration) vr b t t' r k :
  validate_loop rng cfgs vr b t = (t', r) ->
  (evaluations k t <= evaluations k t')%nat.
Proof.
  intros E. apply validate_loop_extends in E as (ev & -> & _).
  rewrite evaluations_app. lia.
Qed.

(** A key whose entry differs from the sentinel is never evaluated. *)
Lemma validate_loop_skips (rng : Z) (k : string) (cfgs : list Configuration) :
  forall vr b t t' r v,
    vr !! k = Some v -> ~ (v == sentinel)%Q ->
    validate_loop rng cfgs vr b t = (t', r) ->
    evaluations k t' = evaluations k t.
Proof.
  induction cfgs as [|c rest IH]; intros vr b t t' r v Hk Hv E.
  - cbn in E. now injection E as <- <-.
  - rewrite validate_loop_cons in E.
    destruct (vr !! str c) as [v0|] eqn:Hc; [|now injection E as <- <-].
    destruct (Qeq_bool v0 sentinel) eqn:Hs; [|eauto].
    assert (str c <> k) as Hne.
    { intros Heq. rewrite Heq, Hk in Hc. injection Hc as ->.
      apply Hv. now apply Qeq_bool_iff. }
    assert (evaluations k (t ++ [EvEvaluate c rng]) = evaluations k t) as Hstep.
    { rewrite evaluations_app, evaluations_evaluate.
      rewrite bool_decide_eq_false_2 by done. lia. }
    destruct (objective_function_test b c rng) as [b' [rd|e]].
    + rewrite <- Hstep. eapply IH; [|exact Hv|exact E].
      now rewrite lookup_insert_ne.
    + now injection E as <- <-.
Qed.


(** A configuration whose entry is the sentinel when the loop starts is
    evaluated, if the loop runs to its end. *)
Lemma validate_loop_evaluates (rng : Z) (c : Configuration)
    (cfgs : list Configuration) :
  forall vr b t t' out v,
    In c cfgs ->
    vr !! str c = Some v -> (v == sentinel)%Q ->
    validate_loop rng cfgs vr b t = (t', Ok out) ->
    (evaluations (str c) t + 1 <= evaluations (str c) t')%nat.
Proof.
  induction cfgs as [|c0 rest IH]; intros vr b t t' out v Hin Hk Hv E; [easy|].
  rewrite validate_loop_cons in E.
  destruct (vr !! str c0) as [v0|] eqn:Hc; [|discriminate].
  destruct (decide (str c0 = str c)) as [Heq|Hne].
  - rewrite Heq, Hk in Hc. injection Hc as <-.
    apply Qeq_bool_iff in Hv. rewrite Hv in E.
    destruct (objective_function_test b c0 rng) as [b' [rd|e]]; [|discriminate].
    apply (validate_loop_monotone _ _ _ _ _ _ _ (str c)) in E.
    rewrite evaluations_app, evaluations_evaluate in E.
    rewrite bool_decide_eq_true_2 in E by done. lia.
  - assert (In c rest) as Hin' by (destruct Hin as [->|]; [done|assumption]).
    destruct (Qeq_bool v0 sentinel).
    + destruct (objective_function_test b c0 rng) as [b' [rd|e]]; [|discriminate].
      eapply IH in E; [| exact Hin' | | exact Hv].
      * rewrite evaluations_app, evaluations_evaluate in E.
        rewrite bool_decide_eq_false_2 in E by done. lia.
      * now rewrite lookup_insert_ne.
    + eauto.
Qed.

(** Line 85 gives every configuration's string the sentinel, and nothing else
    an entry. *)
Lemma initial_validation_results_lookup (cfgs : list Configuration) (k : string) :
  initial_validation_results cfgs !! k =
  if decide (k ∈ map str cfgs) then Some sentinel else None.
Proof.
  unfold initial_validation_results.
  enough (forall d : gmap string Q,
    foldl (fun d c => <[str c := sentinel]> d) d cfgs !! k =
    if decide (k ∈ map str cfgs) then Some sentinel else d !! k) as G.
  { rewrite G. destruct (decide _); [reflexivity | apply lookup_empty]. }
  induction cfgs as [|c rest IH]; intros d; cbn [foldl map].
  - destruct (decide _) as [Hin|]; [inversion Hin | reflexivity].
  - rewrite IH. destruct (decide (k ∈ map str rest)) as [Hin|Hnin].
    + rewrite decide_True by (now right). reflexivity.
    + destruct (decide (k = str c)) as [->|Hne].
      * rewrite decide_True by left. apply lookup_insert_eq.
      * rewrite decide_False.
        -- now rewrite lookup_insert_ne.
        -- intros Hin. apply elem_of_cons in Hin as [?|?]; done.
Qed.

Lemma initial_validation_results_In (cfgs : list Configuration) (c : Configuration) :
  In c cfgs -> initial_validation_results cfgs !! str c = Some sentinel.
Proof.
  intros Hin. rewrite initial_validation_results_lookup.
  rewrite decide_True; [reflexivity|].
  apply list_elem_of_In, in_map, Hin.
Qed.


Lemma write_all_trace (pairs : list (Trajectory * Path)) (vr : gmap string Q) :
  forall t, write_all pairs vr t = (t ++ map (write_event vr) pairs, Ok tt).
Proof.
  induction pairs as [|[traj path] rest IH]; intros t; cbn [write_all map].
  - unfold ret. now rewrite app_nil_r.
  - unfold bind, call. rewrite IH. now rewrite <- app_assoc.
Qed.

Lemma evaluations_writes (k : string) (vr : gmap string Q)
    (pairs : list (Trajectory * Path)) :
  evaluations k (map (write_event vr) pairs) = 0%nat.
Proof.
  unfold evaluations. induction pairs as [|p rest IH]; [reflexivity|].
  cbn [map]. rewrite filter_cons_False by (cbn; discriminate). exact IH.
Qed.

Lemma finish_phase_trace (trajs : list Trajectory) (paths : list Path)
    (vr : gmap string Q) (t : list event) :
  finish_phase trajs paths vr t =
  (t ++ EvDel :: map (write_event vr) (zip trajs paths), Ok 1).
Proof.
  unfold finish_phase, bind, call, ret. rewrite write_all_trace.
  now rewrite <- app_assoc.
Qed.

Lemma evaluations_setup (k : string) (t : list event) :
  Forall (fun e => setup_event e = true) t -> evaluations k t = 0%nat.
Proof.
  unfold evaluations. induction 1 as [|e t He _ IH]; [reflexivity|].
  rewrite filter_cons_False; [exact IH|].
  destruct e; cbn in *; discriminate.
Qed.

Lemma evaluations_finish (k : string) (t : list event) (vr : gmap string Q)
    (pairs : list (Trajectory * Path)) :
  evaluations k (t ++ EvDel :: map (write_event vr) pairs) = evaluations k t.
Proof.
  rewrite evaluations_app.
  change (EvDel :: ?l) with ([EvDel] ++ l). rewrite evaluations_app.
  rewrite evaluations_writes.
  change (evaluations k [EvDel]) with 0%nat. lia.
Qed.

(** What the two phases before the loop leave behind. *)
Lemma load_phase_inv (output_dir : Path) (recompute_all : bool) (t t' : list event) r :
  Forall (fun e => setup_event e = true) t ->
  load_phase output_dir recompute_all t = (t', r) ->
  Forall (fun e => setup_event e = true) t' /\
  match r with
  | Raise _ => True
  | Ok (paths, trajs, cfgs, vr) =>
      paths = rglob output_dir "hpolib_trajectory.txt" /\
      load_trajectories paths = Ok trajs /\
      cfgs = get_unvalidated_configurations trajs /\
      exists already,
        load_validated_configurations output_dir = Ok already /\
        vr = if negb recompute_all
             then dict_update (initial_validation_results cfgs) already
             else initial_validation_results cfgs
  end.
Proof.
  unfold load_phase, bind, call, ret. intros Ht E.
  destruct (load_trajectories _) as [trajs|e] eqn:Htr.
  2:{ injection E as <- <-. split; [setup_trace | exact I]. }
  destruct (load_validated_configurations _) as [already|e] eqn:Ha.
  2:{ injection E as <- <-. split; [setup_trace | exact I]. }
  injection E as <- <-. split; [setup_trace|].
  repeat split; eauto.
Qed.

Lemma instantiate_phase_inv benchmark output_dir rng use_local params
    (t t' : list event) r :
  Forall (fun e => setup_event e = true) t ->
  instantiate_phase benchmark output_dir rng use_local params t = (t', r) ->
  Forall (fun e => setup_event e = true) t'.
Proof.
  unfold instantiate_phase, bind, call, ret. intros Ht E.
  destruct (get_benchmark_settings _) as [settings|e];
    [|injection E as <- <-; setup_trace].
  destruct (load_benchmark _ _ _) as [cls|e];
    [|injection E as <- <-; setup_trace].
  destruct (benchmark_obj _ _ _) as [raw|e]; injection E as <- <-; setup_trace.
Qed.

(** Without the directory the run stops at the assertion. *)
Lemma run_without_directory benchmark output_dir rng recompute_all use_local params :
  is_dir output_dir = false ->
  run (validate_benchmark benchmark output_dir rng recompute_all use_local params)
  = ([], Raise (AssertionError (missing_folder output_dir))).
Proof.
  intros Hdir. unfold run, validate_benchmark, bind, lift. now rewrite Hdir.
Qed.

(** Every run over an existing directory either stops before the loop, or is
    the loop followed by the rewrites. *)
Lemma validate_benchmark_run benchmark output_dir rng recompute_all use_local
    params (t : list event) (r : result Z) :
  is_dir output_dir = true ->
  run (validate_benchmark benchmark output_dir rng recompute_all use_local params)
    = (t, r) ->
  (Forall (fun e => setup_event e = true) t /\ exists e, r = Raise e) \/
  exists trajs already bk t0 t1 rl,
    load_trajectories (rglob output_dir "hpolib_trajectory.txt") = Ok trajs /\
    load_validated_configurations output_dir = Ok already /\
    Forall (fun e => setup_event e = true) t0 /\
    validate_loop rng (get_unvalidated_configurations trajs)
      (if negb recompute_all
       then dict_update
              (initial_validation_results (get_unvalidated_configurations trajs))
              already
       else initial_validation_results (get_unvalidated_configurations trajs))
      bk t0 = (t1, rl) /\
    match rl with
    | Raise e => r = Raise e /\ t = t1
    | Ok final =>
        r = Ok 1 /\
        t = t1 ++ EvDel :: map (write_event (fst final))
                               (zip trajs (rglob output_dir "hpolib_trajectory.txt"))
    end.
Proof.
  intros Hdir. unfold run, validate_benchmark. unfold bind at 1.
  unfold lift at 1. rewrite Hdir. cbn [py_assert]. unfold bind at 1.
  destruct (load_phase output_dir recompute_all []) as [tl [loaded|e]] eqn:Hl.
  2:{ intros E. injection E as <- <-. left.
      apply load_phase_inv in Hl as [Hev _]; [eauto | constructor]. }
  destruct loaded as [[[paths trajs] cfgs] vr].
  apply load_phase_inv in Hl as (Hev & -> & Htr & -> & already & Hal & ->);
    [|constructor].
  unfold bind at 1.
  destruct (instantiate_phase _ _ _ _ _ tl) as [ti [bk|e]] eqn:Hi;
    apply instantiate_phase_inv in Hi; try exact Hev.
  2:{ intros E. injection E as <- <-. left. eauto. }
  unfold bind at 1.
  destruct (validate_loop _ _ _ bk ti) as [t1 [final|e]] eqn:Hloop.
  - rewrite finish_phase_trace. intros E. injection E as <- <-. right.
    exists trajs, already, bk, ti, t1, (Ok final). repeat split; assumption.
  - intros E. injection E as <- <-. right.
    exists trajs, already, bk, ti, t1, (Raise e). repeat split; assumption.
Qed.

(** The same, read for the number of evaluations. *)
Lemma validate_benchmark_run_evaluations benchmark output_dir rng recompute_all
    use_local params (t : list event) (r : result Z) :
  is_dir output_dir = true ->
  run (validate_benchmark benchmark output_dir rng recompute_all use_local params)
    = (t, r) ->
  ((forall k, evaluations k t = 0%nat) /\ exists e, r = Raise e) \/
  exists trajs already bk t0 t1 rl,
    load_trajectories (rglob output_dir "hpolib_trajectory.txt") = Ok trajs /\
    load_validated_configurations output_dir = Ok already /\
    (forall k, evaluations k t0 = 0%nat) /\
    validate_loop rng (get_unvalidated_configurations trajs)
      (if negb recompute_all
       then dict_update
              (initial_validation_results (get_unvalidated_configurations trajs))
              already
       else initial_validation_results (get_unvalidated_configurations trajs))
      bk t0 = (t1, rl) /\
    (forall k, evaluations k t = evaluations k t1) /\
    match rl with Raise e => r = Raise e | Ok _ => r = Ok 1 end.
Proof.
  intros Hdir Hrun.
  apply validate_benchmark_run in Hrun as [[H0 He]|Hrun]; [left| |exact Hdir].
  { split; [|exact He]. intros k. now apply evaluations_setup. }
  destruct Hrun as (trajs & already & bk & t0 & t1 & rl & Htr & Hal & H0 & Hloop & Hrl).
  right. exists trajs, already, bk, t0, t1, rl. repeat split; try assumption.
  - intros k. now apply evaluations_setup.
  - intros k. destruct rl as [final|e]; destruct Hrl as [_ ->];
      [apply evaluations_finish | reflexivity].
  - destruct rl; now destruct Hrl.
Qed.

(** C7.  When [output_dir] is not an existing directory the assertion on
    line 80 fails first: the run ends in an [AssertionError] with an empty
    trace, so no trajectory was searched or loaded, no benchmark was
    instantiated, no configuration evaluated and no file written. *)
Theorem validate_benchmark_missing_directory benchmark output_dir rng
    recompute_all use_local params :
  is_dir output_dir = false ->
  run (validate_benchmark benchmark output_dir rng recompute_all use_local params)
  = ([], Raise (AssertionError (missing_folder output_dir))).
Proof. apply run_without_directory. Qed.

(** C8.  The sentinel is the literal [-1234]: with [recompute_all] false, a
    configuration of the trajectories whose entry in the validated run
    history equals [-1234] is evaluated again by every run that reaches its
    end. *)
Theorem validate_benchmark_sentinel_in_history benchmark output_dir rng use_local
    params trajs already (c : Configuration) (v : Q) t out :
  is_dir output_dir = true ->
  load_trajectories (rglob output_dir "hpolib_trajectory.txt") = Ok trajs ->
  In c (get_unvalidated_configurations trajs) ->
  load_validated_configurations output_dir = Ok already ->
  already !! str c = Some v ->
  (v == sentinel)%Q ->
  run (validate_benchmark benchmark output_dir rng false use_local params)
    = (t, Ok out) ->
  sentinel = (-1234)%Z # 1 /\ (1 <= evaluations (str c) t)%nat.
Proof.
  intros Hdir Htr Hin Hal Hv Hs Hrun. split; [reflexivity|].
  apply validate_benchmark_run_evaluations in Hrun as [[_ [e He]]|Hrun];
    [discriminate| |exact Hdir].
  destruct Hrun as (trajs' & already' & bk & t0 & t1 & rl & Htr' & Hal' & H0 & Hloop & Ht & Hrl).
  rewrite Htr in Htr'. injection Htr' as <-.
  rewrite Hal in Hal'. injection Hal' as <-.
  destruct rl as [final|e]; [|discriminate Hrl].
  rewrite Ht. cbn [negb] in Hloop.
  eapply validate_loop_evaluates in Hloop; [| exact Hin | | exact Hs].
  - rewrite H0 in Hloop. exact Hloop.
  - unfold dict_update. now apply lookup_union_Some_l.
Qed.

(** C3, as the code has it.  With [recompute_all] false, a configuration whose
    entry in the validated run history differs from the sentinel [-1234] is
    never evaluated; with [recompute_all] true, the history is not merged and
    every configuration of the trajectories is evaluated by a run that
    reaches its end. *)
Theorem validate_benchmark_recompute_all benchmark output_dir rng use_local params
    trajs already :
  is_dir output_dir = true ->
  load_trajectories (rglob output_dir "hpolib_trajectory.txt") = Ok trajs ->
  load_validated_configurations output_dir = Ok already ->
  (forall k v t r,
      already !! k = Some v -> ~ (v == sentinel)%Q ->
      run (validate_benchmark benchmark output_dir rng false use_local params)
        = (t, r) ->
      evaluations k t = 0%nat) /\
  (forall c t out,
      In c (get_unvalidated_configurations trajs) ->
      run (validate_benchmark benchmark output_dir rng true use_local params)
        = (t, Ok out) ->
      (1 <= evaluations (str c) t)%nat).
Proof.
  intros Hdir Htr Hal. split.
  - intros k v t r Hk Hv Hrun.
    apply validate_benchmark_run_evaluations in Hrun as [[H0 _]|Hrun];
      [apply H0| |exact Hdir].
    destruct Hrun as (trajs' & already' & bk & t0 & t1 & rl & _ & Hal' & H0 & Hloop & Ht & _).
    rewrite Hal in Hal'. injection Hal' as <-.
    rewrite Ht, <- (H0 k). cbn [negb] in Hloop.
    eapply validate_loop_skips; [|exact Hv|exact Hloop].
    unfold dict_update. now apply lookup_union_Some_l.
  - intros c t out Hin Hrun.
    apply validate_benchmark_run_evaluations in Hrun as [[_ [e He]]|Hrun];
      [discriminate| |exact Hdir].
    destruct Hrun as (trajs' & already' & bk & t0 & t1 & rl & Htr' & _ & H0 & Hloop & Ht & Hrl).
    rewrite Htr in Htr'. injection Htr' as <-.
    destruct rl as [final|e]; [|discriminate Hrl].
    rewrite Ht. cbn [negb] in Hloop.
    eapply validate_loop_evaluates in Hloop; [| exact Hin | | reflexivity].
    + rewrite H0 in Hloop. exact Hloop.
    + now apply initial_validation_results_In.
Qed.

(** The rewrites of a run all carry the mapping the loop ended with. *)
Lemma validate_benchmark_writes benchmark output_dir rng recompute_all use_local
    params (t : list event) (r : result Z) :
  run (validate_benchmark benchmark output_dir rng recompute_all use_local params)
    = (t, r) ->
  (forall traj vr path, ~ In (EvWriteValidated traj vr path) t) \/
  exists trajs already bk t0 t1 final,
    load_trajectories (rglob output_dir "hpolib_trajectory.txt") = Ok trajs /\
    load_validated_configurations output_dir = Ok already /\
    validate_loop rng (get_unvalidated_configurations trajs)
      (if negb recompute_all
       then dict_update
              (initial_validation_results (get_unvalidated_configurations trajs))
              already
       else initial_validation_results (get_unvalidated_configurations trajs))
      bk t0 = (t1, Ok final) /\
    forall traj vr path, In (EvWriteValidated traj vr path) t -> vr = fst final.
Proof.
  intros Hrun.
  destruct (is_dir output_dir) eqn:Hdir.
  2:{ rewrite run_without_directory in Hrun by exact Hdir.
      injection Hrun as <- <-. left. intros ? ? ? []. }
  apply validate_benchmark_run in Hrun as [[H0 _]|Hrun]; [| |exact Hdir].
  { left. intros traj vr path Hin.
    rewrite Forall_forall in H0. apply list_elem_of_In, H0 in Hin. discriminate. }
  destruct Hrun as (trajs & already & bk & t0 & t1 & rl & Htr & Hal & H0 & Hloop & Hrl).
  pose proof Hloop as Hext.
  apply validate_loop_extends in Hext as (ev & -> & Hev).
  assert (forall traj vr path, ~ In (EvWriteValidated traj vr path) (t0 ++ ev)) as Hnot.
  { intros traj vr path Hin. apply in_app_or in Hin as [Hin|Hin].
    - rewrite Forall_forall in H0. apply list_elem_of_In, H0 in Hin. discriminate.
    - rewrite Forall_forall in Hev. apply list_elem_of_In, Hev in Hin as [? ?].
      discriminate. }
  destruct rl as [final|e]; destruct Hrl as [_ ->]; [right | now left].
  exists trajs, already, bk, t0, (t0 ++ ev), final. repeat split; try assumption.
  intros traj vr path Hin.
  apply in_app_or in Hin as [Hin|Hin]; [now apply Hnot in Hin|].
  destruct Hin as [Hin|Hin]; [discriminate|].
  apply in_map_iff in Hin as (p & Hp & _). now injection Hp as _ <- _.
Qed.


End Facts.
End ValidateFacts.

(** ** The validation script on the example world *)

Module ValidateExamples.
Import Validate ValidateFacts.

Lemma validate_benchmark_missing_directory_witness :
  example_run quiet "nowhere" false
  = ([], Raise (AssertionError (missing_folder "nowhere"))).
Proof.
  apply (validate_benchmark_missing_directory (H := quiet)). reflexivity.
Defined.

Lemma validate_benchmark_sentinel_in_history_witness :
  sentinel = (-1234)%Z # 1 /\
  (1 <= evaluations (H := stale) "a" (fst (example_run stale "results" false)))%nat.
Proof.
  apply (validate_benchmark_sentinel_in_history (H := stale)
           "xgboost" "results" 0 None ∅ [["a"; "b"]; ["a"]] {[ "a" := sentinel ]}
           ("a" : @Configuration stale) sentinel _ 1).
  - reflexivity.
  - reflexivity.
  - cbn. auto.
  - reflexivity.
  - reflexivity.
  - reflexivity.
  - vm_compute. reflexivity.
Defined.

(** C3, against the claim as written: the history of [stale] holds a result
    for ["a"], [recompute_all] is false, and ["a"] is evaluated all the same. *)
Lemma validate_benchmark_history_not_skipped :
  load_validated_configurations (Collaborators := stale) "results"
    = Ok {[ "a" := sentinel ]} /\
  evaluations (H := stale) "a" (fst (example_run stale "results" false)) = 1%nat.
Proof. split; [reflexivity | vm_compute; reflexivity]. Qed.

Lemma validate_benchmark_recompute_all_witness :
  evaluations (H := settled) "a" (fst (example_run settled "results" false)) = 0%nat /\
  (1 <= evaluations (H := settled) "a" (fst (example_run settled "results" true)))%nat.
Proof.
  destruct (validate_benchmark_recompute_all (H := settled)
              "xgboost" "results" 0 None ∅ [["a"; "b"]; ["a"]] {[ "a" := 1 # 4 ]}
              eq_refl eq_refl eq_refl) as [Hskip Hall].
  split.
  - apply (Hskip "a" (1 # 4) _ (snd (example_run settled "results" false))).
    + reflexivity.
    + cbn. discriminate.
    + vm_compute. reflexivity.
  - apply (Hall ("a" : @Configuration settled) _ 1).
    + cbn. auto.
    + vm_compute. reflexivity.
Defined.



End ValidateExamples.

(** ** Facts about the optimizers *)

Module FabolasFacts.
Import Fabolas.

Lemma py_max_at_least (a b : number) : (value b <= value (py_max a b))%Q.
Proof.
  unfold py_max. destruct (Qlt_le_dec (value a) (value b)); [apply Qle_refl | assumption].
Qed.

Lemma py_max_Int (x y : Z) : py_max (Int x) (Int y) = Int (Z.max x y).
Proof.
  unfold py_max. cbn [value].
  destruct (Qlt_le_dec (inject_Z x) (inject_Z y)) as [Hlt|Hle].
  - rewrite <- Zlt_Qlt in Hlt. f_equal. lia.
  - rewrite <- Zle_Qle in Hle. f_equal. lia.
Qed.

Lemma py_max_value (a b : number) : (value (py_max a b) == Qmax (value a) (value b))%Q.
Proof.
  unfold py_max. destruct (Qlt_le_dec (value a) (value b)) as [Hlt|Hle].
  - symmetry. apply Q.max_r. now apply Qlt_le_weak.
  - symmetry. now apply Q.max_l.
Qed.

(** *** numpy and list indexing *)

Lemma int_of_float_inject_Z (z : Z) : int_of_float (inject_Z z) = z.
Proof.
  unfold int_of_float. destruct (Qle_bool 0 (inject_Z z));
    [apply Qfloor_Z | apply Qceiling_Z].
Qed.

Lemma index_lookup {A} (l : list A) (j : Z) (x : A) :
  0 <= j -> l !! Z.to_nat j = Some x -> index l j = Ok x.
Proof.
  intros Hj Hx.
  assert (Z.to_nat j < length l)%nat as Hlt by (eapply lookup_lt_Some; eauto).
  assert ((j <? 0) = false) as Hneg by lia.
  assert ((Z.of_nat (length l) <=? j) = false) as Hhi by lia.
  unfold index. cbn zeta. rewrite Hneg. rewrite Hneg, Hhi. cbn [orb].
  now rewrite Hx.
Qed.

Lemma set_last_length (l : list Q) (x : Q) : length (set_last l x) = length l.
Proof.
  destruct l as [|a l]; [reflexivity|]. unfold set_last.
  rewrite length_app, length_take. cbn [length]. lia.
Qed.

Lemma set_last_lookup (l : list Q) (x : Q) (i : nat) :
  (S i < length l)%nat -> set_last l x !! i = l !! i.
Proof.
  intros Hi. destruct l as [|a l]; [reflexivity|]. unfold set_last.
  rewrite lookup_app_l by (rewrite length_take; cbn [length] in *; lia).
  apply lookup_take_lt. cbn [length] in *. lia.
Qed.

Lemma set_last_last (l : list Q) (x : Q) : l <> [] -> last (set_last l x) = Some x.
Proof.
  intros Hl. destruct l as [|a l]; [done|]. unfold set_last. apply last_snoc.
Qed.

Lemma set_last_lookup_last (l : list Q) (x : Q) (i : nat) :
  S i = length l -> set_last l x !! i = Some x.
Proof.
  intros Hi. destruct l as [|a l]; [discriminate|]. unfold set_last.
  rewrite lookup_app_r by (rewrite length_take; cbn [length] in *; lia).
  rewrite length_take. cbn [length] in *.
  replace (i - Nat.min (Nat.pred (S (length l))) (S (length l)))%nat with 0%nat by lia.
  reflexivity.
Qed.

(** [np.linspace] gives [num] samples, the [i]-th at
    [start + i * (stop - start) / (num - 1)], the last one [stop] itself. *)
Lemma linspace_spec (start stop : Q) (num : Z) :
  0 <= num ->
  exists levels,
    linspace start stop num = Ok levels /\
    Z.of_nat (length levels) = num /\
    (forall (i : nat) q,
        levels !! i = Some q ->
        (q == start + inject_Z (Z.of_nat i) * (stop - start) / inject_Z (num - 1))%Q) /\
    (2 <= num -> last levels = Some stop).
Proof.
  intros Hnum. unfold linspace.
  destruct (Z.ltb_spec num 0) as [|_]; [lia|].
  destruct (Z.ltb_spec 0 (num - 1)) as [Hdiv|Hdiv].
  - (* at least two samples *)
    destruct (Z.ltb_spec 1 num) as [_|]; [|lia].
    eexists. split; [reflexivity|].
    set (f := (fun yi : Q => yi * ((stop - start) / inject_Z (num - 1)) + start)%Q).
    assert (length (f <$> (inject_Z <$> seqZ 0 num)) = Z.to_nat num) as Hlen.
    { now rewrite !length_fmap, length_seqZ. }
    split; [rewrite set_last_length, Hlen; lia|]. split.
    + intros i q Hq.
      assert (i < Z.to_nat num)%nat as Hi.
      { apply lookup_lt_Some in Hq. now rewrite set_last_length, Hlen in Hq. }
      assert (~ (inject_Z (num - 1) == 0)%Q) as Hnz.
      { change 0%Q with (inject_Z 0). rewrite inject_Z_injective. lia. }
      destruct (decide (S i = Z.to_nat num)) as [Hlast|Hnot].
      * rewrite set_last_lookup_last in Hq by (now rewrite Hlen).
        injection Hq as <-.
        replace (Z.of_nat i) with (num - 1) by lia. field. exact Hnz.
      * rewrite set_last_lookup in Hq by (rewrite Hlen; lia).
        rewrite !list_lookup_fmap, lookup_seqZ_lt in Hq by lia.
        injection Hq as <-. unfold f. rewrite Z.add_0_l. field. exact Hnz.
    + intros _. apply set_last_last. intros Hnil.
      apply (f_equal length) in Hnil. rewrite Hlen in Hnil. cbn in Hnil. lia.
  - (* no sample, or one *)
    destruct (Z.ltb_spec 1 num) as [|_]; [lia|].
    eexists. split; [reflexivity|].
    split; [rewrite !length_fmap, length_seqZ; lia|]. split; [|lia].
    intros i q Hq.
    rewrite !list_lookup_fmap in Hq.
    destruct (seqZ 0 num !! i) as [z|] eqn:Hz; [|discriminate Hq].
    apply lookup_seqZ in Hz as [-> Hi]. injection Hq as <-.
    assert (num = 1) as -> by lia. assert (i = 0%nat) as -> by lia.
    cbn. unfold Qdiv.
    change (inject_Z (0 + Z.of_nat 0)) with 0%Q.
    change (inject_Z (Z.of_nat 0)) with 0%Q.
    change (/ inject_Z (1 - 1))%Q with 0%Q. ring.
Qed.

(** *** The information-source parameter and the tiling of its range *)

Lemma foldr_min_seqZ (init m : Z) (k : nat) :
  foldr Z.min init (seqZ m (Z.of_nat k)) =
  match k with O => init | S _ => Z.min init m end.
Proof.
  revert m. induction k as [|k IH]; intros m; [reflexivity|].
  rewrite seqZ_cons by lia. cbn [foldr].
  replace (Z.pred (Z.of_nat (S k))) with (Z.of_nat k) by lia.
  rewrite IH. destruct k; lia.
Qed.

Lemma foldr_max_seqZ (init m : Z) (k : nat) :
  foldr Z.max init (seqZ m (Z.of_nat k)) =
  match k with O => init | S _ => Z.max init (m + Z.of_nat k - 1) end.
Proof.
  revert m. induction k as [|k IH]; intros m; [reflexivity|].
  rewrite seqZ_cons by lia. cbn [foldr].
  replace (Z.pred (Z.of_nat (S k))) with (Z.of_nat k) by lia.
  rewrite IH. destruct k; lia.
Qed.

Lemma bounds0_smarter (n start : Z) :
  1 <= n ->
  bounds0 (SmarterInformationSourceParameter n start) = Ok (start, start + n - 1).
Proof.
  intros Hn. unfold bounds0, SmarterInformationSourceParameter. cbn [domain].
  rewrite seqZ_cons by lia.
  replace (Z.pred n) with (Z.of_nat (Z.to_nat (n - 1))) by lia.
  rewrite foldr_min_seqZ, foldr_max_seqZ.
  destruct (Z.to_nat (n - 1)) eqn:E; do 2 f_equal; lia.
Qed.

Lemma length_concat_replicate {A} (r : nat) (l : list A) :
  length (concat (replicate r l)) = (r * length l)%nat.
Proof.
  induction r as [|r IH]; [reflexivity|].
  cbn [replicate concat]. rewrite length_app, IH. lia.
Qed.

Lemma lookup_concat_replicate {A} (r : nat) (l : list A) (i : nat) :
  (i < r * length l)%nat ->
  concat (replicate r l) !! i = l !! (i mod length l)%nat.
Proof.
  revert i. induction r as [|r IH]; intros i Hi; [lia|].
  cbn [replicate concat].
  destruct (decide (i < length l)%nat) as [Hlt|Hge].
  - rewrite lookup_app_l by exact Hlt. now rewrite Nat.mod_small.
  - rewrite lookup_app_r by lia. rewrite IH by lia.
    f_equal. replace i with ((i - length l) + 1 * length l)%nat at 2 by lia.
    rewrite Nat.Div0.mod_add. reflexivity.
Qed.

Section Facts.
Context `{Collaborators}.

Lemma FabolasOptimizer_init_inv (base : SingleFidelityOptimizer) (self : FabolasOptimizer) :
  FabolasOptimizer_init base = Ok self ->
  fo_base self = base /\
  exists fl, subsampling_range base = Ok (s_min self, s_max self, fl).
Proof.
  unfold FabolasOptimizer_init. intros E.
  step_result E. step_result E. step_result E.
  injection E as <-. cbn. split; [reflexivity|].
  destruct a0 as [[lo hi] fl]. eauto.
Qed.

Lemma subsampling_range_at_least_one (base : SingleFidelityOptimizer) lo hi fl :
  subsampling_range base = Ok (lo, hi, fl) -> (1 <= value lo)%Q.
Proof.
  unfold subsampling_range. intros E.
  destruct (main_fidelity base); try discriminate E.
  - injection E as <- _ _. apply (py_max_at_least _ (Int 1)).
  - step_result E.
    destruct (y_train (benchmark base));
      cbn [mbind result_bind rbind] in E; [|discriminate E].
    step_result E. injection E as <- _ _. apply (py_max_at_least _ (Int 1)).
Qed.

Lemma subsampling_range_float (base : SingleFidelityOptimizer) name lower upper lo hi fl :
  main_fidelity base = UniformFloatHyperparameter name lower upper ->
  subsampling_range base = Ok (lo, hi, fl) ->
  (0 <= lower)%Q /\ (upper <= 1)%Q /\
  exists labels,
    y_train (benchmark base) = Some labels /\
    lo = py_max (py_mul (Float lower) (Int (Z.of_nat (length labels)))) (Int 1).
Proof.
  intros Hmf E. unfold subsampling_range in E. rewrite Hmf in E.
  step_result E.
  destruct (y_train (benchmark base)) as [labels|];
    cbn [mbind result_bind rbind] in E; [|discriminate E].
  unfold py_assert in E.
  destruct (Qle_bool 0 lower && Qle_bool upper 1) eqn:Hb;
    cbn [mbind result_bind rbind] in E; [|discriminate E].
  injection E as <- _ _.
  apply andb_prop in Hb as [Hlo Hhi].
  apply Qle_bool_iff in Hlo. apply Qle_bool_iff in Hhi. eauto.
Qed.

(** C10.  Once [FabolasOptimizer]'s constructor has succeeded, [s_min] is at
    least 1: [max(lower, 1)] for a uniform integer fidelity, and
    [max(lower * rows, 1)] for a uniform float fidelity, whose bounds then
    lie in [0, 1] and whose benchmark has [rows] training labels; and [run]
    hands exactly this [s_min] to [fmin_fabolas]. *)
Theorem fabolas_s_min_at_least_one (base : SingleFidelityOptimizer)
    (self : FabolasOptimizer) :
  FabolasOptimizer_init base = Ok self ->
  (1 <= value (s_min self))%Q /\
  (forall name lower upper,
      main_fidelity base = UniformIntegerHyperparameter name lower upper ->
      s_min self = Int (Z.max lower 1)) /\
  (forall name lower upper,
      main_fidelity base = UniformFloatHyperparameter name lower upper ->
      (0 <= lower)%Q /\ (upper <= 1)%Q /\
      exists labels,
        y_train (benchmark base) = Some labels /\
        (value (s_min self)
         == Qmax (lower * inject_Z (Z.of_nat (length labels))) 1)%Q) /\
  (forall call,
      FabolasOptimizer_run self = Ok call ->
      arg_s_min call = s_min self /\ (1 <= value (arg_s_min call))%Q).
Proof.
  intros Hinit.
  destruct (FabolasOptimizer_init_inv _ _ Hinit) as (Hbase & fl & Hrange).
  pose proof (subsampling_range_at_least_one _ _ _ _ Hrange) as Hone.
  split; [exact Hone|]. split; [|split].
  - intros name lower upper Hmf. unfold subsampling_range in Hrange.
    rewrite Hmf in Hrange. injection Hrange as <- _ _. apply py_max_Int.
  - intros name lower upper Hmf.
    destruct (subsampling_range_float _ _ _ _ _ _ _ Hmf Hrange)
      as (Hlo & Hhi & labels & Hy & ->).
    split; [exact Hlo|]. split; [exact Hhi|].
    exists labels. split; [exact Hy|]. rewrite py_max_value. reflexivity.
  - intros call Hrun. unfold FabolasOptimizer_run in Hrun. step_result Hrun.
    injection Hrun as <-. split; [reflexivity | exact Hone].
Qed.

(** C2, as the code has it.  For a main fidelity that is neither a uniform
    integer nor a uniform float, [FabolasOptimizer]'s constructor never
    returns an optimizer; once the space mappings are built the exception is
    the [RuntimeError] of line 53, which names the type, and nothing catches
    it. *)
Theorem fabolas_unsupported_fidelity (base : SingleFidelityOptimizer) :
  fabolas_supported (main_fidelity base) = false ->
  (exists e, FabolasOptimizer_init base = Raise e) /\
  (forall maps,
      generate_space_mappings (configuration_space base) = Ok maps ->
      FabolasOptimizer_init base =
      Raise (RuntimeError
               ("The benchmark's main fidelity parameter must be either a float or int, found type "
                  ++ type_name (main_fidelity base)))).
Proof.
  intros Hun.
  assert (subsampling_range base =
          Raise (RuntimeError
                   ("The benchmark's main fidelity parameter must be either a float or int, found type "
                      ++ type_name (main_fidelity base)))) as Hrange.
  { unfold subsampling_range. destruct (main_fidelity base); try discriminate Hun; reflexivity. }
  unfold FabolasOptimizer_init. rewrite Hrange. split.
  - destruct (generate_space_mappings _); cbn; eauto.
  - intros maps ->. reflexivity.
Qed.

(** [FabolasWithMUMBO] has no such branch: for a main fidelity outside its
    four types nothing assigns [info_sources], and reading it on line 115
    raises [AttributeError]. *)
Lemma mumbo_unsupported_fidelity (base : SingleFidelityOptimizer) :
  mumbo_supported (main_fidelity base) = false ->
  (exists e, FabolasWithMUMBO_init base = Raise e) /\
  (forall maps,
      generate_space_mappings (configuration_space base) = Ok maps ->
      FabolasWithMUMBO_init base = Raise (AttributeError "info_sources")).
Proof.
  intros Hun.
  assert (discretize base = Ok None) as Hd.
  { unfold discretize. destruct (main_fidelity base); try discriminate Hun; reflexivity. }
  unfold FabolasWithMUMBO_init. rewrite Hd. split.
  - destruct (generate_space_mappings _); cbn; eauto.
  - intros maps ->. reflexivity.
Qed.

Lemma FabolasWithMUMBO_init_inv (base : SingleFidelityOptimizer)
    (self : FabolasWithMUMBO) :
  FabolasWithMUMBO_init base = Ok self ->
  mb_base self = base /\
  discretize base = Ok (Some (info_sources self)) /\
  emukit_fidelity self =
    SmarterInformationSourceParameter (Z.of_nat (length (info_sources self))) 1 /\
  initial_design_size base (mb_emukit_space self) = Ok (mb_n_init self).
Proof.
  unfold FabolasWithMUMBO_init. intros E.
  step_result E. step_result E.
  destruct a0 as [sources|]; [|discriminate E]. cbn in E.
  repeat step_result E. injection E as <-. cbn. auto.
Qed.

(** C4.  With a uniform float main fidelity and [num_fidelity_values = n],
    the information sources of a constructed [FabolasWithMUMBO] are [n]
    floats, the [i]-th (from 0) at
    [min_budget + i * (max_budget - min_budget) / (n - 1)], so evenly spaced
    from [min_budget], with [max_budget] itself as the last one when there
    are at least two; and [fidelity_emukit_to_cs] sends a fidelity index [s]
    with [int(s) >= 1] to the [int(s)]-th of them, under the name of the main
    fidelity. *)
Theorem mumbo_float_fidelity_levels (base : SingleFidelityOptimizer)
    (self : FabolasWithMUMBO) (name : string) (lower upper : Q) (n : Z) :
  FabolasWithMUMBO_init base = Ok self ->
  main_fidelity base = UniformFloatHyperparameter name lower upper ->
  get_mandatory_optimizer_setting (settings base) "num_fidelity_values"
    = Ok (Num (Int n)) ->
  exists levels : list Q,
    info_sources self = (fun q => Num (Float q)) <$> levels /\
    Z.of_nat (length levels) = n /\
    (forall (i : nat) q,
        levels !! i = Some q ->
        (q == value (min_budget base)
              + inject_Z (Z.of_nat i)
                * (value (max_budget base) - value (min_budget base))
                / inject_Z (n - 1))%Q) /\
    (2 <= n -> last levels = Some (value (max_budget base))) /\
    (forall (s q : Q),
        1 <= int_of_float s ->
        levels !! Z.to_nat (int_of_float s - 1) = Some q ->
        fidelity_emukit_to_cs self s = Ok {[ name := Num (Float q) ]}).
Proof.
  intros Hinit Hmf Hnum.
  apply FabolasWithMUMBO_init_inv in Hinit as (Hbase & Hd & _ & _).
  unfold discretize in Hd. rewrite Hmf, Hnum in Hd. cbn in Hd.
  destruct (Z.ltb_spec n 0) as [Hneg|Hpos].
  { unfold linspace in Hd. destruct (Z.ltb_spec n 0); [discriminate Hd | lia]. }
  destruct (linspace_spec (value (min_budget base)) (value (max_budget base)) n Hpos)
    as (levels & Hl & Hlen & Hnth & Hlast).
  rewrite Hl in Hd. cbn in Hd. injection Hd as Hsrc.
  exists levels. repeat split; try assumption; [now symmetry|].
  intros s q Hs Hq. unfold fidelity_emukit_to_cs.
  rewrite (index_lookup _ _ (Num (Float q))).
  - cbn. now rewrite Hbase, Hmf.
  - lia.
  - rewrite <- Hsrc, list_lookup_fmap, Hq. reflexivity.
Qed.


(** *** The benchmark wrapper *)





End Facts.

(** C2, against the claim as written: with a categorical main fidelity
    [FabolasOptimizer] raises a [RuntimeError], and with a constant main
    fidelity [FabolasWithMUMBO] raises an [AttributeError]; neither is a
    [TypeError]. *)
Lemma unsupported_fidelity_is_no_type_error :
  fabolas_supported (main_fidelity example_categorical) = false /\
  FabolasOptimizer_init example_categorical =
    Raise (RuntimeError "The benchmark's main fidelity parameter must be either a float or int, found type CategoricalHyperparameter") /\
  raised_type_error (FabolasOptimizer_init example_categorical) = false /\
  mumbo_supported (main_fidelity example_constant) = false /\
  FabolasWithMUMBO_init example_constant = Raise (AttributeError "info_sources") /\
  raised_type_error (FabolasWithMUMBO_init example_constant) = false.
Proof. repeat split; vm_compute; reflexivity. Qed.

Lemma fabolas_unsupported_fidelity_witness :
  FabolasOptimizer_init example_categorical =
  Raise (RuntimeError
           ("The benchmark's main fidelity parameter must be either a float or int, found type "
              ++ type_name (main_fidelity example_categorical))).
Proof.
  apply (fabolas_unsupported_fidelity example_categorical eq_refl) with
    (maps := (2%nat,
              (fun h => (hp_name h, fun _ : PyVal => 0%Q)) <$> example_space,
              (fun h => (hp_name h, fun q : Q => Num (Float q))) <$> example_space)).
  reflexivity.
Defined.

Lemma fabolas_s_min_at_least_one_witness :
  (1 <= value (Int 1))%Q /\
  FabolasOptimizer_init example_subsample =
    Ok {| fo_base := example_subsample;
          fo_emukit_space := 2%nat;
          fo_to_cs := (fun h => (hp_name h, fun q : Q => Num (Float q))) <$> example_space;
          s_min := Int 1;
          s_max := Float (1 * inject_Z 4);
          fo_float_fidelity := true;
          fo_n_init := 5 |}.
Proof.
  split; [|reflexivity].
  apply (fabolas_s_min_at_least_one example_subsample
           {| fo_base := example_subsample;
              fo_emukit_space := 2%nat;
              fo_to_cs := (fun h => (hp_name h, fun q : Q => Num (Float q))) <$> example_space;
              s_min := Int 1;
              s_max := Float (1 * inject_Z 4);
              fo_float_fidelity := true;
              fo_n_init := 5 |}).
  reflexivity.
Defined.

Example example_mumbo_constructed :
  FabolasWithMUMBO_init example_fraction = Ok example_mumbo.
Proof. vm_compute. reflexivity. Qed.

Example example_levels_values :
  Forall2 Qeq example_levels [1 # 10; 4 # 10; 7 # 10; 1%Q].
Proof. repeat constructor. Qed.

Example example_warm_start_fidelities :
  fmap (M := result) (fmap (M := list) last) (warm_start example_mumbo)
  = Ok [Some 1%Q; Some 2%Q; Some 3%Q; Some 4%Q; Some 1%Q].
Proof. vm_compute. reflexivity. Qed.

Example example_wrapper_values :
  snd (wrapper example_mumbo example_input 0%nat)
  = Ok ([[0%Q]; [1%Q]; [2%Q]], [[1%Q]; [1%Q]; [1%Q]]).
Proof. vm_compute. reflexivity. Qed.

Lemma mumbo_float_fidelity_levels_witness :
  exists levels : list Q,
    info_sources example_mumbo = (fun q => Num (Float q)) <$> levels /\
    Z.of_nat (length levels) = 4 /\
    last levels = Some 1%Q.
Proof.
  destruct (mumbo_float_fidelity_levels example_fraction example_mumbo
              "fraction" (1 # 10) 1 4)
    as (levels & Hsrc & Hlen & _ & Hlast & _).
  - vm_compute. reflexivity.
  - reflexivity.
  - reflexivity.
  - exists levels. repeat split; [exact Hsrc | exact Hlen | apply Hlast; lia].
Defined.



End FabolasFacts.

(** ** Facts about the command line *)

Module CliFacts.
Import Cli.

Section Facts.
Context `{Collaborators}.

Lemma option_table_eq :
  option_table =
  [("-h", help_action); ("--help", help_action);
   ("--output_dir", output_dir_action); ("--benchmark", benchmark_action);
   ("--rng", rng_action); ("--recompute_all", recompute_all_action)].
Proof. reflexivity. Qed.

Lemma option_table_parser (o : string) (a : Action) :
  (o, a) ∈ option_table -> a ∈ parser.
Proof.
  rewrite option_table_eq. unfold parser. intros Hin.
  repeat (apply elem_of_cons in Hin as [Hin|Hin];
          [injection Hin as -> ->; set_solver|]).
  inversion Hin.
Qed.

Lemma lookup_option_parser (o : string) (a : Action) :
  lookup_option o = Some a -> a ∈ parser.
Proof.
  unfold lookup_option. intros Hl.
  destruct (find _ option_table) as [[o' a']|] eqn:Hf; [|discriminate Hl].
  injection Hl as <-. apply find_some in Hf as [Hin _].
  apply (option_table_parser o'). now apply list_elem_of_In.
Qed.

Lemma option_tuples_parser (arg : string) (t : token) :
  t ∈ option_tuples arg -> exists a o e, t = TOpt a o e /\ a ∈ parser.
Proof.
  unfold option_tuples. intros Hin.
  destruct arg as [|c1 [|c2 rest]]; try (now inversion Hin).
  destruct (negb (Ascii.eqb c1 "-")); [now inversion Hin|].
  destruct (Ascii.eqb c2 "-").
  - destruct (split_eq _) as [[l r]|];
      apply list_elem_of_bind in Hin as ([o a] & Ht & Hp);
      cbn [fst snd] in Ht; destruct (starts_with _ _);
      try (now inversion Ht);
      apply list_elem_of_singleton in Ht as ->;
      (do 3 eexists; split; [reflexivity|]; eapply option_table_parser; eassumption).
  - apply list_elem_of_bind in Hin as ([o a] & Ht & Hp). cbn [fst snd] in Ht.
    destruct (String.eqb _ _).
    + apply list_elem_of_singleton in Ht as ->.
      do 3 eexists; split; [reflexivity|]; eapply option_table_parser; eassumption.
    + destruct (starts_with _ _); [|now inversion Ht].
      apply list_elem_of_singleton in Ht as ->.
      do 3 eexists; split; [reflexivity|]; eapply option_table_parser; eassumption.
Qed.

Lemma parse_optional_known (arg : string) (t : token) :
  parse_optional arg = Ok t -> known_token t.
Proof.
  unfold parse_optional. intros E.
  destruct (negb (starts_with arg "-")); [now injection E as <-|].
  destruct (lookup_option arg) as [a|] eqn:Hl.
  { injection E as <-. cbn. eauto using lookup_option_parser. }
  destruct (String.length arg =? 1)%nat; [now injection E as <-|].
  destruct (split_eq arg) as [[l r]|].
  - destruct (lookup_option l) as [a|] eqn:Hl'; cbn in E.
    { injection E as <-. cbn. eauto using lookup_option_parser. }
    destruct (option_tuples arg) as [|t1 [|t2 ts]] eqn:Ht.
    + repeat (destruct (_ : bool) in E); now injection E as <-.
    + injection E as <-.
      destruct (option_tuples_parser arg t1) as (a & o & e & -> & Ha); [|exact Ha].
      rewrite Ht. left.
    + discriminate E.
  - destruct (option_tuples arg) as [|t1 [|t2 ts]] eqn:Ht.
    + repeat (destruct (_ : bool) in E); now injection E as <-.
    + injection E as <-.
      destruct (option_tuples_parser arg t1) as (a & o & e & -> & Ha); [|exact Ha].
      rewrite Ht. left.
    + discriminate E.
Qed.


Lemma parser_cases (a : Action) :
  a ∈ parser ->
  a = help_action \/ a = output_dir_action \/ a = benchmark_action \/
  a = rng_action \/ a = recompute_all_action.
Proof.
  unfold parser. intros Hin.
  repeat (apply elem_of_cons in Hin as [->|Hin]; [tauto|]).
  inversion Hin.
Qed.

Lemma initial_namespace_eq :
  initial_namespace = namespace_of VNone VNone (VInt 0) (VBool false).
Proof. cbn. namespace_eq. Qed.





(** *** The defaults of [--rng] and [--recompute_all] *)

Lemma split_eq_spec (s l r : string) :
  split_eq s = Some (l, r) -> s = l +:+ String "=" r.
Proof.
  revert l. induction s as [|c s IH]; intros l E; cbn in E; [discriminate E|].
  destruct (Ascii.eqb_spec c "=") as [->|Hne].
  - now injection E as <- <-.
  - destruct (split_eq s) as [[l' r']|]; [|discriminate E].
    injection E as <- <-.
    change (String c s = String c (l' +:+ String "=" r')). f_equal. now apply IH.
Qed.



Lemma starts_with_cons (s p : string) (c d : ascii) :
  starts_with (String d s) (String c p) = Ascii.eqb c d && starts_with s p.
Proof. cbn [starts_with]. now destruct (Ascii.eqb c d). Qed.

Lemma starts_with_refl (s : string) : starts_with s s = true.
Proof. induction s as [|c s IH]; cbn; [reflexivity | now rewrite Ascii.eqb_refl]. Qed.

Lemma starts_with_app (l r p : string) :
  starts_with l p = true -> starts_with (l +:+ r) p = true.
Proof.
  revert l. induction p as [|c p IH]; intros l E; [reflexivity|].
  destruct l as [|d l]; [discriminate E|].
  change (starts_with (String d (l +:+ r)) (String c p) = true). cbn in *.
  destruct (Ascii.eqb c d); [now apply IH | discriminate E].
Qed.

Lemma starts_with_trans (s p q : string) :
  starts_with s p = true -> starts_with p q = true -> starts_with s q = true.
Proof.
  revert s p. induction q as [|c q IH]; intros s p Hsp Hpq; [reflexivity|].
  destruct p as [|d p]; [discriminate Hpq|].
  destruct s as [|e s]; [discriminate Hsp|]. cbn in *.
  destruct (Ascii.eqb_spec c d) as [->|]; [|discriminate Hpq].
  destruct (Ascii.eqb d e); [eauto | discriminate Hsp].
Qed.











End Facts.

Example main_example_call :
  main (H := example_cli)
       ["--output_dir"; "results"; "--benchmark"; "xgboost"; "--task_id"; "167149"]
  = Ok {| arg_benchmark := VStr "xgboost";
          arg_output_dir := VStr "results";
          arg_rng := VInt 0;
          arg_recompute_all := VBool false;
          arg_use_local := VBool false;
          arg_benchmark_params := {[ "task_id" := VStr "167149" ]} |}.
Proof. vm_compute. reflexivity. Qed.

Example main_example_missing_required :
  main (H := example_cli) ["--benchmark"; "xgboost"] = Raise (SystemExit 2).
Proof. reflexivity. Qed.

Example main_example_unknown_benchmark :
  main (H := example_cli) ["--output_dir"; "results"; "--benchmark"; "svm"]
  = Raise (SystemExit 2).
Proof. reflexivity. Qed.


End CliFacts.
(** ** The validation script, call by call: the order of a run, what a failure
    leaves behind, and what the rewritten trajectories are handed

    The exceptions of a run are those of lines 80-132: the assertion and
    whatever the search for the trajectories, the loading, the set-up of the
    benchmark or an evaluation raises.  The calls of lines 135-139, the
    bookkeeper's [__del__] and [write_validated_trajectory], are embedded as
    returning. *)

Module ValidateMore.
Import Validate ValidateFacts.

Section Facts.
Context `{Collaborators}.

Lemma evaluated_app (t1 t2 : list event) :
  evaluated (t1 ++ t2) = evaluated t1 ++ evaluated t2.
Proof. apply omap_app. Qed.

Lemma evaluated_evaluations (rng : Z) (cs : list Configuration) :
  evaluated ((fun c => EvEvaluate c rng) <$> cs) = cs.
Proof.
  unfold evaluated. induction cs as [|c cs IH]; [reflexivity|].
  cbn. now rewrite IH.
Qed.

(** The loop evaluates some of the configurations, in their order. *)
Lemma validate_loop_sublist (rng : Z) (cfgs : list Configuration) :
  forall vr b t t' r,
    validate_loop rng cfgs vr b t = (t', r) ->
    exists cs, t' = t ++ ((fun c => EvEvaluate c rng) <$> cs) /\ sublist cs cfgs.
Proof.
  induction cfgs as [|c rest IH]; intros vr b t t' r E.
  - cbn in E. injection E as <- <-. exists []. split; [now rewrite app_nil_r | constructor].
  - rewrite validate_loop_cons in E.
    destruct (vr !! str c) as [v|].
    2:{ injection E as <- <-. exists []. split; [now rewrite app_nil_r|].
        apply sublist_nil_l. }
    destruct (Qeq_bool v sentinel).
    + destruct (objective_function_test b c rng) as [b' [rd|e]].
      * apply IH in E as (cs & -> & Hsub). exists (c :: cs).
        split; [now rewrite <- app_assoc | now apply sublist_skip].
      * injection E as <- <-. exists [c]. split; [reflexivity|].
        apply sublist_skip, sublist_nil_l.
    + apply IH in E as (cs & -> & Hsub). exists cs.
      split; [reflexivity | now apply sublist_cons].
Qed.

(** An entry that differs from the sentinel goes through the loop untouched. *)
Lemma validate_loop_keeps_value (rng : Z) (k : string) (v : Q)
    (cfgs : list Configuration) :
  forall vr b t t' vr' b',
    vr !! k = Some v -> ~ (v == sentinel)%Q ->
    validate_loop rng cfgs vr b t = (t', Ok (vr', b')) ->
    vr' !! k = Some v.
Proof.
  induction cfgs as [|c rest IH]; intros vr b t t' vr' b' Hk Hv E.
  - cbn in E. now injection E as <- <- <-.
  - rewrite validate_loop_cons in E.
    destruct (vr !! str c) as [v0|] eqn:Hc; [|discriminate].
    destruct (Qeq_bool v0 sentinel) eqn:Hs; [|eauto].
    destruct (objective_function_test b c rng) as [b1 [rd|e]]; [|discriminate].
    eapply IH; [|exact Hv|exact E].
    rewrite lookup_insert_ne; [exact Hk|].
    intros Heq. rewrite Heq, Hk in Hc. injection Hc as ->.
    apply Hv. now apply Qeq_bool_iff.
Qed.

(** When the benchmark never answers with the sentinel, a loop that ends
    leaves no configuration at the sentinel. *)
Lemma validate_loop_validates (rng : Z) (Hns : never_returns_sentinel)
    (cfgs : list Configuration) :
  forall vr b t t' vr' b' c,
    In c cfgs ->
    validate_loop rng cfgs vr b t = (t', Ok (vr', b')) ->
    exists v, vr' !! str c = Some v /\ ~ (v == sentinel)%Q.
Proof.
  induction cfgs as [|c0 rest IH]; intros vr b t t' vr' b' c Hin E; [easy|].
  rewrite validate_loop_cons in E.
  destruct (vr !! str c0) as [v0|] eqn:Hc; [|discriminate].
  destruct (Qeq_bool v0 sentinel) eqn:Hs.
  - destruct (objective_function_test b c0 rng) as [b1 [rd|e]] eqn:Ho; [|discriminate].
    destruct Hin as [<-|Hin]; [|eauto].
    exists (function_value rd). split; [|eauto].
    eapply validate_loop_keeps_value; [apply lookup_insert_eq | eauto | exact E].
  - destruct Hin as [<-|Hin]; [|eauto].
    assert (~ (v0 == sentinel)%Q) as Hv.
    { intros Hq. apply Qeq_bool_iff in Hq. congruence. }
    exists v0. split; [|exact Hv].
    eapply validate_loop_keeps_value; [exact Hc | exact Hv | exact E].
Qed.



(** A run over an existing directory, call by call. *)
Lemma validate_benchmark_calls benchmark output_dir rng recompute_all use_local params :
  is_dir output_dir = true ->
  run (validate_benchmark benchmark output_dir rng recompute_all use_local params) =
  let paths := rglob output_dir "hpolib_trajectory.txt" in
  let kwargs := if not_truthy use_local
                then <["container_source" := container_source]> params
                else params in
  match load_trajectories paths with
  | Raise e => ([EvRglob output_dir; EvLoadTrajectories paths], Raise e)
  | Ok trajs =>
  match load_validated_configurations output_dir with
  | Raise e =>
      ([EvRglob output_dir; EvLoadTrajectories paths; EvLoadValidated output_dir],
       Raise e)
  | Ok already =>
  match get_benchmark_settings benchmark with
  | Raise e =>
      ([EvRglob output_dir; EvLoadTrajectories paths; EvLoadValidated output_dir;
        EvGetSettings benchmark], Raise e)
  | Ok settings =>
  match load_benchmark (import_benchmark settings) (import_from settings) use_local with
  | Raise e => (take 5 (setup_calls benchmark output_dir rng settings kwargs), Raise e)
  | Ok cls =>
  match benchmark_obj cls rng kwargs with
  | Raise e => (take 6 (setup_calls benchmark output_dir rng settings kwargs), Raise e)
  | Ok raw =>
  match Bookkeeper raw output_dir (cutoff_in_s settings) (is_surrogate settings) with
  | Raise e => (setup_calls benchmark output_dir rng settings kwargs, Raise e)
  | Ok bk =>
      let cfgs := get_unvalidated_configurations trajs in
      let vr := if negb recompute_all
                then dict_update (initial_validation_results cfgs) already
                else initial_validation_results cfgs in
      match validate_loop rng cfgs vr bk
              (setup_calls benchmark output_dir rng settings kwargs) with
      | (t, Raise e) => (t, Raise e)
      | (t, Ok final) =>
          (t ++ EvDel :: map (write_event (fst final)) (zip trajs paths), Ok 1)
      end
  end end end end end end.
Proof.
  intros Hdir. unfold run, validate_benchmark, load_phase, instantiate_phase.
  unfold bind, call, lift, ret. rewrite Hdir. cbn [py_assert app].
  destruct (load_trajectories _) as [trajs|e]; [|reflexivity].
  destruct (load_validated_configurations _) as [already|e]; [|reflexivity].
  destruct (get_benchmark_settings _) as [settings|e]; [|reflexivity].
  destruct (load_benchmark _ _ _) as [cls|e]; [|reflexivity].
  destruct (benchmark_obj _ _ _) as [raw|e]; [|reflexivity].
  destruct (Bookkeeper _ _ _ _) as [bk|e]; [|reflexivity].
  cbv zeta. unfold setup_calls.
  destruct (validate_loop _ _ _ _ _) as [t [final|e]]; [|reflexivity].
  now rewrite finish_phase_trace.
Qed.

(** X1.  A run that returns has returned 1, after calling every collaborator
    of the set-up once and in the order of the source, evaluating some of the
    trajectories' configurations with the seed it was given, calling the
    bookkeeper's [__del__] once after the last evaluation, and then rewriting
    each loaded trajectory once, paired with the path at its position in the
    search result, all with one and the same mapping. *)
Theorem validate_benchmark_completed_run benchmark output_dir rng recompute_all
    use_local params t out :
  run (validate_benchmark benchmark output_dir rng recompute_all use_local params)
    = (t, Ok out) ->
  out = 1 /\
  exists trajs settings cs vr,
    is_dir output_dir = true /\
    load_trajectories (rglob output_dir "hpolib_trajectory.txt") = Ok trajs /\
    get_benchmark_settings benchmark = Ok settings /\
    sublist cs (get_unvalidated_configurations trajs) /\
    t = setup_calls benchmark output_dir rng settings
          (if not_truthy use_local
           then <["container_source" := container_source]> params
           else params)
        ++ ((fun c => EvEvaluate c rng) <$> cs)
        ++ EvDel
        :: ((fun p => EvWriteValidated (fst p) vr (snd p))
              <$> zip trajs (rglob output_dir "hpolib_trajectory.txt")).
Proof.
  intros Hrun. destruct (is_dir output_dir) eqn:Hdir.
  2:{ rewrite run_without_directory in Hrun by exact Hdir. discriminate Hrun. }
  rewrite validate_benchmark_calls in Hrun by exact Hdir. cbv zeta in Hrun.
  destruct (load_trajectories _) as [trajs|e]; [|discriminate Hrun].
  destruct (load_validated_configurations _) as [already|e]; [|discriminate Hrun].
  destruct (get_benchmark_settings _) as [settings|e]; [|discriminate Hrun].
  destruct (load_benchmark _ _ _) as [cls|e]; [|discriminate Hrun].
  destruct (benchmark_obj _ _ _) as [raw|e]; [|discriminate Hrun].
  destruct (Bookkeeper _ _ _ _) as [bk|e]; [|discriminate Hrun].
  destruct (validate_loop _ _ _ _ _) as [t1 [final|e]] eqn:Hloop; [|discriminate Hrun].
  injection Hrun as <- <-. split; [reflexivity|].
  apply validate_loop_sublist in Hloop as (cs & -> & Hsub).
  exists trajs, settings, cs, (fst final).
  split; [reflexivity|]. split; [reflexivity|]. split; [reflexivity|].
  split; [exact Hsub|]. now rewrite <- app_assoc.
Qed.

(** X2.  Whatever the outcome of a run, the configurations that were handed
    to [objective_function_test] are configurations of the loaded
    trajectories, taken in the order [get_unvalidated_configurations] lists
    them, and every one of these calls was given the run's seed. *)
Theorem validate_benchmark_evaluation_order benchmark output_dir rng recompute_all
    use_local params t r :
  run (validate_benchmark benchmark output_dir rng recompute_all use_local params)
    = (t, r) ->
  (forall c rng', In (EvEvaluate c rng') t -> rng' = rng) /\
  (evaluated t = [] \/
   exists trajs,
     load_trajectories (rglob output_dir "hpolib_trajectory.txt") = Ok trajs /\
     sublist (evaluated t) (get_unvalidated_configurations trajs)).
Proof.
  intros Hrun. destruct (is_dir output_dir) eqn:Hdir.
  2:{ rewrite run_without_directory in Hrun by exact Hdir.
      injection Hrun as <- <-. split; [intros ? ? []|now left]. }
  rewrite validate_benchmark_calls in Hrun by exact Hdir. cbv zeta in Hrun.
  set (kwargs := if not_truthy use_local then _ else _) in Hrun.
  destruct (load_trajectories _) as [trajs|e];
    [|injection Hrun as <- <-; split; [cbn; intuition discriminate | now left]].
  destruct (load_validated_configurations _) as [already|e];
    [|injection Hrun as <- <-; split; [cbn; intuition discriminate | now left]].
  destruct (get_benchmark_settings _) as [settings|e];
    [|injection Hrun as <- <-; split; [cbn; intuition discriminate | now left]].
  destruct (load_benchmark _ _ _) as [cls|e];
    [|injection Hrun as <- <-; split; [cbn; intuition discriminate | now left]].
  destruct (benchmark_obj _ _ _) as [raw|e];
    [|injection Hrun as <- <-; split; [cbn; intuition discriminate | now left]].
  destruct (Bookkeeper _ _ _ _) as [bk|e];
    [|injection Hrun as <- <-; split; [cbn; intuition discriminate | now left]].
  destruct (validate_loop _ _ _ _ _) as [t1 rl] eqn:Hloop.
  apply validate_loop_sublist in Hloop as (cs & -> & Hsub).
  assert (forall fin,
             Forall (fun e => finish_event e = true) fin ->
             (forall c rng',
                 In (EvEvaluate c rng')
                    ((setup_calls benchmark output_dir rng settings kwargs
                      ++ ((fun c => EvEvaluate c rng) <$> cs)) ++ fin) ->
                 rng' = rng) /\
             evaluated
               ((setup_calls benchmark output_dir rng settings kwargs
                 ++ ((fun c => EvEvaluate c rng) <$> cs)) ++ fin) = cs) as G.
  { intros fin Hfin. split.
    - intros c rng' Hin. apply in_app_or in Hin as [Hin|Hin].
      + apply in_app_or in Hin as [Hin|Hin]; [cbn in Hin; intuition discriminate|].
        apply list_elem_of_In, list_elem_of_fmap in Hin as (c' & Heq & _).
        now injection Heq as _ ->.
      + rewrite Forall_forall in Hfin. apply list_elem_of_In, Hfin in Hin.
        discriminate Hin.
    - rewrite !evaluated_app, evaluated_evaluations.
      change (evaluated (setup_calls _ _ _ _ _)) with (@nil Configuration).
      cbn [app]. enough (evaluated fin = []) as -> by apply app_nil_r.
      clear -Hfin. induction Hfin as [|e fin He _ IH]; [reflexivity|].
      destruct e; try discriminate He; exact IH. }
  destruct rl as [final|e]; injection Hrun as <- <-.
  - destruct (G (EvDel :: map (write_event (fst final))
                     (zip trajs (rglob output_dir "hpolib_trajectory.txt"))))
      as [Hseed Hev].
    { constructor; [reflexivity|]. apply Forall_forall.
      intros e He. apply list_elem_of_In, in_map_iff in He as (p & <- & _).
      reflexivity. }
    split; [exact Hseed|]. right. exists trajs. split; [reflexivity|].
    replace (evaluated _) with cs by (symmetry; exact Hev). exact Hsub.
  - destruct (G [] ltac:(constructor)) as [Hseed Hev]. rewrite app_nil_r in Hseed, Hev.
    split; [exact Hseed|]. right. exists trajs. split; [reflexivity|].
    replace (evaluated _) with cs by (symmetry; exact Hev). exact Hsub.
Qed.


(** X4.  The benchmark class is only ever called with the run's seed.  When
    [use_local] is [True] it gets the benchmark parameters as they came;
    otherwise ([False] or [None]) the entry [container_source] is set to the
    configured source, replacing one the caller may have given, and every
    other parameter is passed on unchanged. *)
Theorem validate_benchmark_container_source benchmark output_dir rng recompute_all
    use_local params t r rng' kwargs :
  run (validate_benchmark benchmark output_dir rng recompute_all use_local params)
    = (t, r) ->
  In (EvInstantiate rng' kwargs) t ->
  rng' = rng /\
  (use_local = Some true -> kwargs = params) /\
  (use_local <> Some true ->
   kwargs !! "container_source" = Some container_source /\
   forall k, k <> "container_source" -> kwargs !! k = params !! k).
Proof.
  intros Hrun Hin.
  enough (rng' = rng /\
          kwargs = if not_truthy use_local
                   then <["container_source" := container_source]> params
                   else params) as [-> ->].
  { split; [reflexivity|]. split.
    - now intros ->.
    - intros Hloc. assert (not_truthy use_local = true) as ->.
      { destruct use_local as [[|]|]; [congruence|reflexivity|reflexivity]. }
      split; [apply lookup_insert_eq|].
      intros k Hk. now rewrite lookup_insert_ne. }
  destruct (is_dir output_dir) eqn:Hdir.
  2:{ rewrite run_without_directory in Hrun by exact Hdir.
      injection Hrun as <- _. destruct Hin. }
  rewrite validate_benchmark_calls in Hrun by exact Hdir. cbv zeta in Hrun.
  set (kw := if not_truthy use_local then _ else _) in *.
  assert (forall settings ev fin,
             Forall (fun e => exists c, e = EvEvaluate c rng) ev ->
             Forall (fun e => finish_event e = true) fin ->
             In (EvInstantiate rng' kwargs)
                ((setup_calls benchmark output_dir rng settings kw ++ ev) ++ fin) ->
             rng' = rng /\ kwargs = kw) as G.
  { intros settings ev fin Hev Hfin Hin'.
    apply in_app_or in Hin' as [Hin'|Hin'].
    - apply in_app_or in Hin' as [Hin'|Hin'].
      + cbn in Hin'.
        repeat (destruct Hin' as [Heq|Hin']; [try discriminate Heq|]);
          [|destruct Hin'].
        injection Heq as <- <-. now split.
      + rewrite Forall_forall in Hev.
        apply list_elem_of_In, Hev in Hin' as [c Hc]. discriminate Hc.
    - rewrite Forall_forall in Hfin. apply list_elem_of_In, Hfin in Hin'.
      discriminate Hin'. }
  destruct (load_trajectories _) as [trajs|e0];
    [|injection Hrun as <- _; cbn in Hin; intuition discriminate].
  destruct (load_validated_configurations _) as [already|e0];
    [|injection Hrun as <- _; cbn in Hin; intuition discriminate].
  destruct (get_benchmark_settings _) as [settings|e0];
    [|injection Hrun as <- _; cbn in Hin; intuition discriminate].
  destruct (load_benchmark _ _ _) as [cls|e0];
    [|injection Hrun as <- _; cbn in Hin; intuition discriminate].
  destruct (benchmark_obj _ _ _) as [raw|e0].
  2:{ injection Hrun as <- _. apply (G settings [] []); [constructor|constructor|].
      rewrite !app_nil_r. cbn in Hin |- *. intuition. }
  destruct (Bookkeeper _ _ _ _) as [bk|e0].
  2:{ injection Hrun as <- _. apply (G settings [] []); [constructor|constructor|].
      now rewrite !app_nil_r. }
  destruct (validate_loop _ _ _ _ _) as [t1 rl] eqn:Hloop.
  apply validate_loop_extends in Hloop as (ev & -> & Hev).
  destruct rl as [final|e0]; injection Hrun as <- _.
  - eapply (G settings ev); [exact Hev| |exact Hin].
    constructor; [reflexivity|]. apply Forall_forall.
    intros e He. apply list_elem_of_In, in_map_iff in He as (p & <- & _).
    reflexivity.
  - apply (G settings ev []); [exact Hev|constructor|now rewrite app_nil_r].
Qed.

(** X5.  With [recompute_all] false, every entry of the validated run history
    whose value is not [-1234] reaches the rewrites of a run that returns
    with the very value it had, whether or not a trajectory holds such a
    configuration: the benchmark's answers never replace it. *)
Theorem validate_benchmark_keeps_history benchmark output_dir rng use_local params
    already k v t out traj vr path :
  load_validated_configurations output_dir = Ok already ->
  already !! k = Some v ->
  ~ (v == sentinel)%Q ->
  run (validate_benchmark benchmark output_dir rng false use_local params)
    = (t, Ok out) ->
  In (EvWriteValidated traj vr path) t ->
  vr !! k = Some v.
Proof.
  intros Hal Hk Hv Hrun Hin.
  apply validate_benchmark_writes in Hrun as [Hno|Hrun]; [now apply Hno in Hin|].
  destruct Hrun as (trajs & already' & bk & t0 & t1 & [vr' b'] & _ & Hal' & Hloop & Hw).
  rewrite Hal in Hal'. injection Hal' as <-.
  rewrite (Hw _ _ _ Hin). cbn [fst negb] in *.
  eapply validate_loop_keeps_value; [|exact Hv|exact Hloop].
  unfold dict_update. now apply lookup_union_Some_l.
Qed.

(** X6.  When the benchmark never answers with [-1234], the mapping handed to
    the rewrites of a run that returns holds, for every configuration of the
    trajectories, a value other than [-1234]: none is left unvalidated. *)
Theorem validate_benchmark_leaves_no_sentinel benchmark output_dir rng recompute_all
    use_local params trajs c t out traj vr path :
  never_returns_sentinel ->
  load_trajectories (rglob output_dir "hpolib_trajectory.txt") = Ok trajs ->
  In c (get_unvalidated_configurations trajs) ->
  run (validate_benchmark benchmark output_dir rng recompute_all use_local params)
    = (t, Ok out) ->
  In (EvWriteValidated traj vr path) t ->
  exists v, vr !! str c = Some v /\ ~ (v == sentinel)%Q.
Proof.
  intros Hns Htr Hc Hrun Hin.
  apply validate_benchmark_writes in Hrun as [Hno|Hrun]; [now apply Hno in Hin|].
  destruct Hrun as (trajs' & already & bk & t0 & t1 & [vr' b'] & Htr' & _ & Hloop & Hw).
  rewrite Htr in Htr'. injection Htr' as <-.
  rewrite (Hw _ _ _ Hin). cbn [fst].
  eapply validate_loop_validates; [exact Hns | exact Hc | exact Hloop].
Qed.


End Facts.

(** The run of [flaky] stops at the second evaluation. *)
Example flaky_run :
  example_run_with flaky None ∅
  = (setup_calls (H := flaky) "xgboost" "results" 0
       {| import_benchmark := "xgboost"; import_from := "hpolib";
          cutoff_in_s := 1800 # 1; is_surrogate := false |}
       {[ "container_source" := "library://keggensperger/automl" ]}
     ++ [EvEvaluate ("a" : @Configuration flaky) 0; EvEvaluate ("b" : @Configuration flaky) 0],
     Raise (RuntimeError "cutoff reached")).
Proof. vm_compute. reflexivity. Qed.

Lemma validate_benchmark_completed_run_witness :
  1 = 1 /\
  exists trajs settings cs vr,
    is_dir (Collaborators := quiet) "results" = true /\
    load_trajectories (Collaborators := quiet)
      (rglob (Collaborators := quiet) "results" "hpolib_trajectory.txt") = Ok trajs /\
    get_benchmark_settings (Collaborators := quiet) "xgboost" = Ok settings /\
    sublist cs (get_unvalidated_configurations (Collaborators := quiet) trajs) /\
    fst (example_run quiet "results" false)
    = setup_calls (H := quiet) "xgboost" "results" 0 settings
        (<["container_source" := container_source (Collaborators := quiet)]> ∅)
      ++ ((fun c => EvEvaluate c 0) <$> cs)
      ++ EvDel
      :: ((fun p => EvWriteValidated (fst p) vr (snd p))
            <$> zip trajs (rglob (Collaborators := quiet) "results"
                             "hpolib_trajectory.txt")).
Proof.
  apply (validate_benchmark_completed_run (H := quiet)
           "xgboost" "results" 0 false None ∅).
  vm_compute. reflexivity.
Defined.

Lemma validate_benchmark_evaluation_order_witness :
  (forall c rng',
      In (EvEvaluate (H := flaky) c rng') (fst (example_run_with flaky None ∅)) ->
      rng' = 0) /\
  (evaluated (H := flaky) (fst (example_run_with flaky None ∅)) = [] \/
   exists trajs,
     load_trajectories (Collaborators := flaky)
       (rglob (Collaborators := flaky) "results" "hpolib_trajectory.txt") = Ok trajs /\
     sublist (evaluated (H := flaky) (fst (example_run_with flaky None ∅)))
             (get_unvalidated_configurations (Collaborators := flaky) trajs)).
Proof.
  apply (validate_benchmark_evaluation_order (H := flaky)
           "xgboost" "results" 0 false None ∅ _
           (Raise (RuntimeError "cutoff reached"))).
  vm_compute. reflexivity.
Defined.


(** The runs of [quiet], with and without parameters of the caller, and of
    [settled]. *)
Example quiet_run :
  example_run quiet "results" false
  = (setup_calls (H := quiet) "xgboost" "results" 0
       {| import_benchmark := "xgboost"; import_from := "hpolib";
          cutoff_in_s := 1800 # 1; is_surrogate := false |}
       {[ "container_source" := "library://keggensperger/automl" ]}
     ++ [EvEvaluate ("a" : @Configuration quiet) 0;
         EvEvaluate ("b" : @Configuration quiet) 0]
     ++ [EvDel;
         EvWriteValidated (["a"; "b"] : @Trajectory quiet)
           {[ "a" := 1 # 2; "b" := 1 # 2 ]} "results/run-1/hpolib_trajectory.txt";
         EvWriteValidated (["a"] : @Trajectory quiet)
           {[ "a" := 1 # 2; "b" := 1 # 2 ]} "results/run-2/hpolib_trajectory.txt"],
     Ok 1).
Proof. vm_compute. reflexivity. Qed.

Example quiet_run_with_source :
  example_run_with quiet None {[ "container_source" := "mine"; "task_id" := "7" ]}
  = (setup_calls (H := quiet) "xgboost" "results" 0
       {| import_benchmark := "xgboost"; import_from := "hpolib";
          cutoff_in_s := 1800 # 1; is_surrogate := false |}
       (<["container_source" := "library://keggensperger/automl"]>
          {[ "container_source" := "mine"; "task_id" := "7" ]})
     ++ [EvEvaluate ("a" : @Configuration quiet) 0;
         EvEvaluate ("b" : @Configuration quiet) 0]
     ++ [EvDel;
         EvWriteValidated (["a"; "b"] : @Trajectory quiet)
           {[ "a" := 1 # 2; "b" := 1 # 2 ]} "results/run-1/hpolib_trajectory.txt";
         EvWriteValidated (["a"] : @Trajectory quiet)
           {[ "a" := 1 # 2; "b" := 1 # 2 ]} "results/run-2/hpolib_trajectory.txt"],
     Ok 1).
Proof. vm_compute. reflexivity. Qed.

Example settled_run :
  example_run settled "results" false
  = (setup_calls (H := settled) "xgboost" "results" 0
       {| import_benchmark := "xgboost"; import_from := "hpolib";
          cutoff_in_s := 1800 # 1; is_surrogate := false |}
       {[ "container_source" := "library://keggensperger/automl" ]}
     ++ [EvEvaluate ("b" : @Configuration settled) 0]
     ++ [EvDel;
         EvWriteValidated (["a"; "b"] : @Trajectory settled)
           {[ "a" := 1 # 4; "b" := 1 # 2 ]} "results/run-1/hpolib_trajectory.txt";
         EvWriteValidated (["a"] : @Trajectory settled)
           {[ "a" := 1 # 4; "b" := 1 # 2 ]} "results/run-2/hpolib_trajectory.txt"],
     Ok 1).
Proof. vm_compute. reflexivity. Qed.

(** A caller's own [container_source] does not reach the benchmark. *)
Lemma validate_benchmark_container_source_witness :
  0 = 0 /\
  ((None : option bool) = Some true ->
   <["container_source" := "library://keggensperger/automl"]>
     ({[ "container_source" := "mine"; "task_id" := "7" ]} : gmap string string)
   = {[ "container_source" := "mine"; "task_id" := "7" ]}) /\
  ((None : option bool) <> Some true ->
   <["container_source" := "library://keggensperger/automl"]>
     ({[ "container_source" := "mine"; "task_id" := "7" ]} : gmap string string)
     !! "container_source" = Some "library://keggensperger/automl" /\
   forall k, k <> "container_source" ->
     <["container_source" := "library://keggensperger/automl"]>
       ({[ "container_source" := "mine"; "task_id" := "7" ]} : gmap string string)
       !! k
     = ({[ "container_source" := "mine"; "task_id" := "7" ]} : gmap string string)
         !! k).
Proof.
  eapply (validate_benchmark_container_source (H := quiet)
            "xgboost" "results" 0 false None
            ({[ "container_source" := "mine"; "task_id" := "7" ]} : gmap string string)).
  - exact quiet_run_with_source.
  - apply in_or_app. left. unfold setup_calls. do 5 right. left. reflexivity.
Defined.

Lemma validate_benchmark_keeps_history_witness :
  ({[ "a" := 1 # 4; "b" := 1 # 2 ]} : gmap string Q) !! "a" = Some (1 # 4).
Proof.
  eapply (validate_benchmark_keeps_history (H := settled)
            "xgboost" "results" 0 None ∅ {[ "a" := 1 # 4 ]} "a" (1 # 4)).
  - reflexivity.
  - reflexivity.
  - cbn. discriminate.
  - exact settled_run.
  - apply in_or_app. right. apply in_or_app. right. right. left. reflexivity.
Defined.

Lemma validate_benchmark_leaves_no_sentinel_witness :
  exists v,
    ({[ "a" := 1 # 2; "b" := 1 # 2 ]} : gmap string Q) !! "b" = Some v /\
    ~ (v == sentinel)%Q.
Proof.
  eapply (validate_benchmark_leaves_no_sentinel (H := quiet)
            "xgboost" "results" 0 false None ∅ [["a"; "b"]; ["a"]]
            ("b" : @Configuration quiet)).
  - intros b c rng b' rd E. injection E as _ <-. cbn. discriminate.
  - reflexivity.
  - cbn. auto.
  - exact quiet_run.
  - apply in_or_app. right. apply in_or_app. right. right. right. left. reflexivity.
Defined.


End ValidateMore.
(** ** More about the optimizers: fidelity indices, the wrappers, and the
    set-up of the model *)

Module FabolasMore.
Import Fabolas FabolasFacts.

(** *** Indexing and truncation *)

Lemma index_from_end {A} (l : list A) (j : Z) (x : A) :
  j < 0 -> 0 <= Z.of_nat (length l) + j ->
  l !! Z.to_nat (Z.of_nat (length l) + j) = Some x ->
  index l j = Ok x.
Proof.
  intros Hneg Hj Hx. unfold index.
  assert ((j <? 0) = true) as -> by (apply Z.ltb_lt; lia).
  assert ((Z.of_nat (length l) + j <? 0) = false) as -> by (apply Z.ltb_ge; lia).
  assert ((Z.of_nat (length l) <=? Z.of_nat (length l) + j) = false) as ->
    by (apply Z.leb_gt; lia).
  cbn. now rewrite Hx.
Qed.

Lemma index_out_of_range {A} (l : list A) (j : Z) :
  Z.of_nat (length l) <= j \/ j < - Z.of_nat (length l) ->
  index l j = Raise IndexError.
Proof.
  intros Hj. unfold index.
  destruct (Z.ltb_spec j 0) as [Hneg|Hpos].
  - assert ((Z.of_nat (length l) + j <? 0) = true) as -> by (apply Z.ltb_lt; lia).
    reflexivity.
  - assert ((Z.of_nat (length l) <=? j) = true) as -> by (apply Z.leb_le; lia).
    now rewrite orb_true_r.
Qed.

Lemma lookup_in_range {A} (l : list A) (j : Z) :
  0 <= j < Z.of_nat (length l) -> exists x, l !! Z.to_nat j = Some x.
Proof.
  intros Hj. apply lookup_lt_is_Some_2. lia.
Qed.

(** [int(s)] is 0 for every [s] strictly between -1 and 1. *)
Lemma int_of_float_small (s : Q) : (-1 < s)%Q -> (s < 1)%Q -> int_of_float s = 0.
Proof.
  intros Hlo Hhi. unfold int_of_float.
  destruct (Qle_bool 0 s) eqn:Hs.
  - apply Qle_bool_iff in Hs.
    pose proof (Qfloor_le s) as Hf. pose proof (Qfloor_resp_le _ _ Hs) as H0.
    change (Qfloor 0) with 0 in H0.
    assert (inject_Z (Qfloor s) < inject_Z 1)%Q as Hlt by (eapply Qle_lt_trans; eauto).
    rewrite <- Zlt_Qlt in Hlt. lia.
  - assert (s < 0)%Q as Hn.
    { apply Qnot_le_lt. intros Hle. apply Qle_bool_iff in Hle. congruence. }
    pose proof (Qle_ceiling s) as Hc.
    assert (Qceiling s <= Qceiling 0) as H0 by (apply Qceiling_resp_le, Qlt_le_weak, Hn).
    change (Qceiling 0) with 0 in H0.
    assert (inject_Z (-1) < inject_Z (Qceiling s))%Q as Hlt
      by (eapply Qlt_le_trans; [exact Hlo | exact Hc]).
    rewrite <- Zlt_Qlt in Hlt. lia.
Qed.





(** *** The dictionary of a configuration *)

Lemma config_values_fold_other (l : list (string * (Q -> PyVal) * Q)) (k : string) :
  forall d : gmap string PyVal,
    k ∉ (fun p => fst (fst p)) <$> l ->
    foldl (fun d p => <[fst (fst p) := snd (fst p) (snd p)]> d) d l !! k = d !! k.
Proof.
  induction l as [|p l IH]; intros d Hk; [reflexivity|].
  cbn [foldl]. rewrite fmap_cons, not_elem_of_cons in Hk. destruct Hk as [Hne Hk].
  rewrite IH by exact Hk. now rewrite lookup_insert_ne.
Qed.

Lemma config_values_fold_lookup (l : list (string * (Q -> PyVal) * Q))
    (k : string) (f : Q -> PyVal) (xi : Q) :
  forall d : gmap string PyVal,
    NoDup ((fun p => fst (fst p)) <$> l) ->
    (k, f, xi) ∈ l ->
    foldl (fun d p => <[fst (fst p) := snd (fst p) (snd p)]> d) d l !! k = Some (f xi).
Proof.
  induction l as [|p l IH]; intros d Hnd Hin; [inversion Hin|].
  rewrite fmap_cons, NoDup_cons in Hnd. destruct Hnd as [Hp Hnd].
  cbn [foldl]. apply elem_of_cons in Hin as [<-|Hin].
  - rewrite config_values_fold_other by exact Hp. cbn. apply lookup_insert_eq.
  - now apply IH.
Qed.

Lemma zip_names (to_cs : list (string * (Q -> PyVal))) :
  forall x : list Q,
    (fun p : string * (Q -> PyVal) * Q => fst (fst p)) <$> zip to_cs x
    = fst <$> take (length x) to_cs.
Proof.
  induction to_cs as [|m to_cs IH]; intros [|xi x]; cbn; try reflexivity.
  f_equal. apply IH.
Qed.

(** X8.  The dictionary a wrapper builds for a configuration: when the names
    of the mappings are distinct, the [i]-th component of the input, converted
    by the [i]-th mapping, is stored under the [i]-th name; and exactly the
    names that have a component get an entry, so surplus components and
    surplus mappings are dropped without complaint. *)
Theorem config_values_lookup (to_cs : list (string * (Q -> PyVal))) (x : list Q) :
  NoDup (fst <$> to_cs) ->
  (forall (i : nat) name f xi,
      to_cs !! i = Some (name, f) -> x !! i = Some xi ->
      config_values to_cs x !! name = Some (f xi)) /\
  (forall name,
      is_Some (config_values to_cs x !! name)
      <-> name ∈ fst <$> take (length x) to_cs).
Proof.
  intros Hnd.
  assert (NoDup ((fun p : string * (Q -> PyVal) * Q => fst (fst p)) <$> zip to_cs x))
    as Hzip.
  { rewrite zip_names. eapply sublist_NoDup; [exact Hnd|].
    apply fmap_sublist, sublist_take. }
  split.
  - intros i name f xi Hm Hx. unfold config_values.
    apply config_values_fold_lookup; [exact Hzip|].
    apply list_elem_of_lookup. exists i.
    apply lookup_zip_with_Some. eauto.
  - intros name. rewrite <- zip_names. unfold config_values. split.
    + intros Hsome.
      destruct (decide (name ∈ (fun p : string * (Q -> PyVal) * Q => fst (fst p))
                                <$> zip to_cs x)) as [Hin|Hnin]; [exact Hin|].
      rewrite config_values_fold_other, lookup_empty in Hsome by exact Hnin.
      now destruct Hsome.
    + intros Hin. apply list_elem_of_fmap in Hin as ([[k f] xi] & -> & Hin).
      erewrite config_values_fold_lookup; eauto.
Qed.

Section Facts.
Context `{Collaborators}.

(** *** The fidelity index of [FabolasWithMUMBO] *)

Lemma fidelity_emukit_to_cs_index (self : FabolasWithMUMBO) (s : Q) (v : PyVal) :
  index (info_sources self) (int_of_float s - 1) = Ok v ->
  fidelity_emukit_to_cs self s = Ok {[ hp_name (main_fidelity (mb_base self)) := v ]}.
Proof. unfold fidelity_emukit_to_cs. now intros ->. Qed.

(** X9.  [fidelity_emukit_to_cs] on a fidelity index [s], with [n] the number
    of information sources: for [1 <= int(s) <= n] it names the source at
    position [int(s) - 1]; for [-n < int(s) <= 0] the index has gone negative
    and counts from the end, so that every [s] strictly between -1 and 1
    names the last source; any other [s] is an [IndexError]. *)
Theorem mumbo_fidelity_index (self : FabolasWithMUMBO) (s : Q) :
  (1 <= int_of_float s <= Z.of_nat (length (info_sources self)) ->
   exists v,
     info_sources self !! Z.to_nat (int_of_float s - 1) = Some v /\
     fidelity_emukit_to_cs self s
     = Ok {[ hp_name (main_fidelity (mb_base self)) := v ]}) /\
  (- Z.of_nat (length (info_sources self)) < int_of_float s <= 0 ->
   exists v,
     info_sources self
       !! Z.to_nat (Z.of_nat (length (info_sources self)) + int_of_float s - 1)
     = Some v /\
     fidelity_emukit_to_cs self s
     = Ok {[ hp_name (main_fidelity (mb_base self)) := v ]}) /\
  ((-1 < s)%Q -> (s < 1)%Q -> info_sources self <> [] ->
   exists v,
     last (info_sources self) = Some v /\
     fidelity_emukit_to_cs self s
     = Ok {[ hp_name (main_fidelity (mb_base self)) := v ]}) /\
  (Z.of_nat (length (info_sources self)) < int_of_float s \/
   int_of_float s <= - Z.of_nat (length (info_sources self)) ->
   fidelity_emukit_to_cs self s = Raise IndexError).
Proof.
  set (l := info_sources self). set (n := Z.of_nat (length l)).
  assert (forall i, - n < i <= 0 ->
            exists v, l !! Z.to_nat (n + i - 1) = Some v /\ index l (i - 1) = Ok v)
    as Hend.
  { intros i Hi. destruct (lookup_in_range l (n + i - 1)) as [v Hv]; [fold n; lia|].
    exists v. split; [exact Hv|].
    apply index_from_end; [lia | fold n; lia |].
    fold n. now replace (n + (i - 1)) with (n + i - 1) by lia. }
  split; [|split; [|split]].
  - intros Hi. destruct (lookup_in_range l (int_of_float s - 1)) as [v Hv];
      [fold n; lia|].
    exists v. split; [exact Hv|].
    apply fidelity_emukit_to_cs_index, index_lookup; [lia | exact Hv].
  - intros Hi. destruct (Hend _ Hi) as (v & Hv & Hidx).
    exists v. split; [exact Hv|]. now apply fidelity_emukit_to_cs_index.
  - intros Hlo Hhi Hne.
    assert (1 <= n) as Hn.
    { unfold n. destruct l; [congruence | cbn [length]; lia]. }
    pose proof (int_of_float_small s Hlo Hhi) as H0.
    destruct (Hend 0 ltac:(lia)) as (v & Hv & Hidx).
    exists v. split.
    + rewrite last_lookup. rewrite <- Hv. f_equal. unfold n. lia.
    + apply fidelity_emukit_to_cs_index. now rewrite H0.
  - intros Hi. unfold fidelity_emukit_to_cs.
    rewrite index_out_of_range; [reflexivity | fold l n; lia].
Qed.

(** X10.  With a uniform integer main fidelity and integer budgets, the
    information sources of a constructed [FabolasWithMUMBO] are the integers
    from [min_budget] to [max_budget], both included and in this order (none
    when [max_budget < min_budget]); the fidelity index [i] stands for the
    budget [min_budget + i - 1], and the highest index, the upper bound of the
    fidelity parameter, for [max_budget]. *)
Theorem mumbo_integer_fidelity_levels (base : SingleFidelityOptimizer)
    (self : FabolasWithMUMBO) (name : string) (lower upper lo hi : Z) :
  FabolasWithMUMBO_init base = Ok self ->
  main_fidelity base = UniformIntegerHyperparameter name lower upper ->
  min_budget base = Int lo ->
  max_budget base = Int hi ->
  info_sources self = (fun z => Num (Int z)) <$> seqZ lo (hi - lo + 1) /\
  Z.of_nat (length (info_sources self)) = Z.max 0 (hi - lo + 1) /\
  (forall s : Q,
      1 <= int_of_float s <= hi - lo + 1 ->
      fidelity_emukit_to_cs self s
      = Ok {[ name := Num (Int (lo + int_of_float s - 1)) ]}) /\
  (lo <= hi ->
   bounds0 (emukit_fidelity self) = Ok (1, hi - lo + 1) /\
   fidelity_emukit_to_cs self (inject_Z (hi - lo + 1))
   = Ok {[ name := Num (Int hi) ]}).
Proof.
  intros Hinit Hfid Hlo Hhi.
  apply FabolasWithMUMBO_init_inv in Hinit as (Hbase & Hd & Hemu & _).
  unfold discretize in Hd. rewrite Hfid, Hlo, Hhi in Hd. cbn in Hd.
  injection Hd as Hsrc. rewrite <- list_fmap_compose in Hsrc.
  replace (hi + 1 - lo) with (hi - lo + 1) in Hsrc by lia.
  assert (Z.of_nat (length (info_sources self)) = Z.max 0 (hi - lo + 1)) as Hlen.
  { rewrite <- Hsrc, length_fmap, length_seqZ. lia. }
  assert (forall s : Q,
             1 <= int_of_float s <= hi - lo + 1 ->
             fidelity_emukit_to_cs self s
             = Ok {[ name := Num (Int (lo + int_of_float s - 1)) ]}) as Hmap.
  { intros s Hs.
    replace name with (hp_name (main_fidelity (mb_base self)))
      by (now rewrite Hbase, Hfid).
    apply fidelity_emukit_to_cs_index, index_lookup; [lia|].
    rewrite <- Hsrc, list_lookup_fmap, lookup_seqZ_lt by lia.
    cbn. do 3 f_equal. lia. }
  split; [now rewrite <- Hsrc|]. split; [exact Hlen|]. split; [exact Hmap|].
  intros Hle. split.
  - rewrite Hemu, bounds0_smarter by lia. do 2 f_equal. lia.
  - rewrite Hmap by (rewrite int_of_float_inject_Z; lia).
    rewrite int_of_float_inject_Z. do 4 f_equal. lia.
Qed.

(** *** The wrapper of [FabolasWithMUMBO] when it fails *)

Lemma wrapper_loop_raises (self : FabolasWithMUMBO) (inp : list (list Q)) (n : nat) :
  forall b log ys cs b' log' e,
    wrapper_loop self inp n b log ys cs = (b', log', Raise e) ->
    (wrapper_inputs self inp = Raise e /\ log' = log /\ b' = b) \/
    exists config fidelity (results : list result_dict),
      wrapper_inputs self inp = Ok (config, fidelity) /\
      (length results < n)%nat /\
      log' = log ++ ((fun res => (config, fidelity, Ok res)) <$> results)
                 ++ [(config, fidelity, Raise e)].
Proof.
  induction n as [|n IH]; intros b log ys cs b' log' e E; [discriminate E|].
  cbn [wrapper_loop] in E. unfold evaluate_body in E.
  destruct (wrapper_inputs self inp) as [[config fidelity]|e0] eqn:Hin.
  2:{ injection E as <- <- <-. now left. }
  right. destruct (objective_function b config fidelity) as [b1 [res|e0]]; cbn in E.
  - apply IH in E as [(Hbad & _)|(config' & fidelity' & results & Heq & Hlen & ->)];
      [discriminate Hbad|].
    injection Heq as <- <-.
    exists config, fidelity, (res :: results).
    split; [reflexivity|]. split; [cbn [length]; lia|].
    cbn [fmap list_fmap]. now rewrite <- !app_assoc.
  - injection E as <- <- <-. exists config, fidelity, [].
    split; [reflexivity|]. split; [cbn [length]; lia | reflexivity].
Qed.

(** X11.  A call of [FabolasWithMUMBO]'s wrapper that ends in an exception was
    given at least one row, and either failed before any call of the objective
    function, while reading the first row (no last entry, a fidelity index out
    of range, a configuration that cannot be built), or let through the
    exception of the first call of the objective function that raised, after
    fewer successful calls than rows and with no call after it. *)
Theorem mumbo_wrapper_failure (self : FabolasWithMUMBO) (inp : ndarray)
    (b b' : BenchState) (log : list objective_call) (e : exn) :
  wrapper self inp b = (b', log, Raise e) ->
  promote inp <> [] /\
  ((wrapper_inputs self (promote inp) = Raise e /\ log = [] /\ b' = b) \/
   exists config fidelity (results : list result_dict),
     wrapper_inputs self (promote inp) = Ok (config, fidelity) /\
     (length results < length (promote inp))%nat /\
     log = ((fun res => (config, fidelity, Ok res)) <$> results)
             ++ [(config, fidelity, Raise e)]).
Proof.
  unfold wrapper. intros Hw.
  destruct (wrapper_loop self (promote inp) (length (promote inp)) b [] [] [])
    as [[b1 log1] [yc|e0]] eqn:Hloop; [discriminate Hw|].
  cbn in Hw. injection Hw as <- <- <-. split.
  - intros Hnil. rewrite Hnil in Hloop. discriminate Hloop.
  - apply wrapper_loop_raises in Hloop as [?|?]; [now left | now right].
Qed.

(** *** The size of the initial design *)


(** *** [FabolasOptimizer]: the subsampling range and the wrapper *)

Lemma FabolasOptimizer_init_fields (base : SingleFidelityOptimizer)
    (self : FabolasOptimizer) :
  FabolasOptimizer_init base = Ok self ->
  fo_base self = base /\
  subsampling_range base = Ok (s_min self, s_max self, fo_float_fidelity self).
Proof.
  unfold FabolasOptimizer_init. intros E. repeat step_result E.
  injection E as <-. cbn. split; [reflexivity|]. now destruct a0 as [[lo hi] fl].
Qed.

Lemma subsampling_range_cases (base : SingleFidelityOptimizer) lo hi fl :
  subsampling_range base = Ok (lo, hi, fl) ->
  (exists name lower upper,
      main_fidelity base = UniformIntegerHyperparameter name lower upper /\
      lo = Int (Z.max lower 1) /\ hi = Int upper /\ fl = false) \/
  (exists name lower upper labels,
      main_fidelity base = UniformFloatHyperparameter name lower upper /\
      y_train (benchmark base) = Some labels /\
      lo = py_max (Float (lower * inject_Z (Z.of_nat (length labels)))) (Int 1) /\
      hi = Float (upper * inject_Z (Z.of_nat (length labels))) /\ fl = true).
Proof.
  unfold subsampling_range. intros E.
  destruct (main_fidelity base) as [name lower upper|name lower upper| | | | |];
    try discriminate E.
  - injection E as <- <- <-. left. exists name, lower, upper.
    now rewrite py_max_Int.
  - right. step_result E.
    destruct (y_train (benchmark base)) as [labels|]; [|discriminate E].
    cbn [mbind result_bind rbind] in E. step_result E.
    injection E as <- <- <-. exists name, lower, upper, labels. auto.
Qed.

(** X12.  The subsampling range of a constructed [FabolasOptimizer] is not
    checked for being a range: [s_min <= s_max] holds exactly when the lower
    bound of the fidelity is at most the upper one and [s_max], the upper
    bound itself for an integer fidelity and the upper bound times the number
    of training rows for a float one, is at least 1.  Otherwise [run] hands
    [fmin_fabolas] an [s_min] above [s_max]. *)
Theorem fabolas_subsampling_range_order (base : SingleFidelityOptimizer)
    (self : FabolasOptimizer) :
  FabolasOptimizer_init base = Ok self ->
  (forall name lower upper,
      main_fidelity base = UniformIntegerHyperparameter name lower upper ->
      s_max self = Int upper /\
      ((value (s_min self) <= value (s_max self))%Q <-> lower <= upper /\ 1 <= upper)) /\
  (forall name lower upper,
      main_fidelity base = UniformFloatHyperparameter name lower upper ->
      exists labels,
        y_train (benchmark base) = Some labels /\
        s_max self = Float (upper * inject_Z (Z.of_nat (length labels))) /\
        ((value (s_min self) <= value (s_max self))%Q <->
         (lower * inject_Z (Z.of_nat (length labels))
          <= upper * inject_Z (Z.of_nat (length labels)))%Q /\
         (1 <= upper * inject_Z (Z.of_nat (length labels)))%Q)).
Proof.
  intros Hinit. apply FabolasOptimizer_init_fields in Hinit as [_ Hrange].
  apply subsampling_range_cases in Hrange
    as [(name & lower & upper & Hfid & Hlo & Hhi & _)
       |(name & lower & upper & labels & Hfid & Hy & Hlo & Hhi & _)];
    (split; intros name' lower' upper' Hfid'; rewrite Hfid in Hfid';
     [try discriminate Hfid'|try discriminate Hfid']);
    injection Hfid' as <- <- <-.
  - split; [exact Hhi|]. rewrite Hlo, Hhi. cbn [value].
    rewrite <- Zle_Qle. lia.
  - exists labels. split; [exact Hy|]. split; [exact Hhi|].
    rewrite Hlo, Hhi, py_max_value. cbn [value].
    change (inject_Z 1) with 1%Q. apply Q.max_lub_iff.
Qed.

(** X13.  A call of [FabolasOptimizer]'s wrapper that returns has built the
    configuration from the components of [x], called the objective function
    exactly once, and returned its value and its cost.  The fidelity of the
    call is the dataset size [s] itself for an integer main fidelity, and
    [s] divided by [s_max], the upper bound times the number of training
    rows, for a float one; so [s = s_max] always asks for the fraction 1,
    whatever the upper bound of the fidelity is. *)
Theorem fabolas_wrapper_call (base : SingleFidelityOptimizer) (self : FabolasOptimizer)
    (x : list Q) (s : Q) (b b' : BenchState) (log : list objective_call) (y c : Q) :
  FabolasOptimizer_init base = Ok self ->
  FabolasOptimizer_wrapper self x s b = (b', log, Ok (y, c)) ->
  exists config fraction res,
    mk_configuration (configuration_space base) (config_values (fo_to_cs self) x)
      = Ok config /\
    objective_function b config {[ hp_name (main_fidelity base) := Num (Float fraction) ]}
      = (b', Ok res) /\
    log = [(config, {[ hp_name (main_fidelity base) := Num (Float fraction) ]}, Ok res)] /\
    y = function_value res /\ c = cost res /\
    (forall name lower upper,
        main_fidelity base = UniformIntegerHyperparameter name lower upper ->
        fraction = s) /\
    (forall name lower upper,
        main_fidelity base = UniformFloatHyperparameter name lower upper ->
        exists labels,
          y_train (benchmark base) = Some labels /\
          fraction = (s / (upper * inject_Z (Z.of_nat (length labels))))%Q /\
          ((s == value (s_max self))%Q -> (fraction == 1)%Q)).
Proof.
  intros Hinit Hw. apply FabolasOptimizer_init_fields in Hinit as [Hbase Hrange].
  unfold FabolasOptimizer_wrapper in Hw. rewrite Hbase in Hw.
  destruct (mk_configuration _ _) as [config|e] eqn:Hc; [|discriminate Hw].
  destruct (subsample_to_cs_fidel self s) as [fraction|e] eqn:Hf; [|discriminate Hw].
  cbv zeta in Hw.
  destruct (objective_function b config _) as [b1 [res|e]] eqn:Ho; [|discriminate Hw].
  cbn in Hw. injection Hw as <- <- <- <-.
  exists config, fraction, res.
  split; [reflexivity|]. split; [exact Ho|]. split; [reflexivity|].
  split; [reflexivity|]. split; [reflexivity|].
  unfold subsample_to_cs_fidel in Hf.
  apply subsampling_range_cases in Hrange
    as [(name & lower & upper & Hfid & _ & _ & Hfl)
       |(name & lower & upper & labels & Hfid & Hy & _ & Hhi & Hfl)];
    rewrite Hfl in Hf;
    (split; intros name' lower' upper' Hfid'; rewrite Hfid in Hfid';
     [try discriminate Hfid'|try discriminate Hfid']);
    injection Hfid' as <- <- <-.
  - now injection Hf as <-.
  - exists labels. split; [exact Hy|].
    destruct (Qeq_bool (value (s_max self)) 0) eqn:Hz; [discriminate Hf|].
    injection Hf as <-. rewrite Hhi. cbn [value]. split; [reflexivity|].
    intros Hs. rewrite Hs. apply Qmult_inv_r.
    intros Hq. rewrite Hhi in Hz. cbn [value] in Hz.
    apply Qeq_bool_iff in Hq. congruence.
Qed.

(** *** [_setup_model] *)

Lemma wrapper_single_row (self : FabolasWithMUMBO) (row : list Q) (b : BenchState) :
  wrapper self (Arr1 row) b =
  match wrapper_inputs self [row] with
  | Raise e => (b, [], Raise e)
  | Ok (config, fidelity) =>
      let (b', r) := objective_function b config fidelity in
      (b', [(config, fidelity, r)],
       (fun res => ([[function_value res]], [[cost res]])) <$> r)
  end.
Proof.
  unfold wrapper. cbn [promote length wrapper_loop]. unfold evaluate_body.
  destruct (wrapper_inputs self [row]) as [[config fidelity]|e]; [|reflexivity].
  destruct (objective_function b config fidelity) as [b' [res|e]]; reflexivity.
Qed.

(** The rows are evaluated one by one, each at its own inputs. *)
Lemma evaluate_rows_ok (self : FabolasWithMUMBO) (rows : list (list Q)) :
  forall b log b' log' outputs,
    evaluate_rows self rows b log = (b', log', Ok outputs) ->
    exists results : list (Configuration * gmap string PyVal * result_dict),
      Forall2 (fun row r => wrapper_inputs self [row] = Ok (fst r)) rows results /\
      log' = log ++ ((fun r => (fst r, Ok (snd r))) <$> results) /\
      outputs = (fun r => ([[function_value (snd r)]], [[cost (snd r)]])) <$> results.
Proof.
  induction rows as [|row rest IH]; intros b log b' log' outputs E.
  - cbn in E. injection E as <- <- <-. exists []. cbn.
    rewrite app_nil_r. auto.
  - cbn [evaluate_rows] in E. rewrite wrapper_single_row in E.
    destruct (wrapper_inputs self [row]) as [[config fidelity]|e] eqn:Hin;
      [|discriminate E].
    destruct (objective_function b config fidelity) as [b1 [res|e]];
      [|discriminate E].
    cbn [fmap result_fmap rbind] in E.
    destruct (evaluate_rows self rest b1 _) as [[b2 log2] [ycs|e]] eqn:Hrest;
      [|discriminate E].
    injection E as <- <- <-.
    apply IH in Hrest as (results & Hrows & -> & ->).
    exists ((config, fidelity, res) :: results).
    split; [constructor; [exact Hin | exact Hrows]|].
    cbn [fmap list_fmap fst snd]. now rewrite <- app_assoc.
Qed.

Lemma reshape_pairs_outputs
    (results : list (Configuration * gmap string PyVal * result_dict)) :
  reshape_pairs
    (flatten_outputs
       ((fun r => ([[function_value (snd r)]], [[cost (snd r)]])) <$> results))
  = Ok ((fun r => (function_value (snd r), cost (snd r))) <$> results).
Proof.
  unfold flatten_outputs.
  induction results as [|r results IH]; [reflexivity|].
  cbn [fmap list_fmap mbind list_bind concat app fst snd reshape_pairs].
  cbn [fmap list_fmap mbind list_bind] in IH. rewrite IH. reflexivity.
Qed.

Lemma FabolasWithMUMBO_init_settings (base : SingleFidelityOptimizer)
    (self : FabolasWithMUMBO) :
  FabolasWithMUMBO_init base = Ok self ->
  exists interval marginalize samples grid,
    get_mandatory_optimizer_setting (settings base) "update_interval" = Ok interval /\
    get_mandatory_optimizer_setting (settings base) "marginalize_hypers"
      = Ok marginalize /\
    get_mandatory_optimizer_setting (settings base) "num_mc_samples" = Ok samples /\
    get_mandatory_optimizer_setting (settings base) "grid_size" = Ok grid /\
    optimizer_settings self
      = {[ "update_interval" := interval; "marginalize_hypers" := marginalize ]} /\
    mumbo_settings self = {[ "num_mc_samples" := samples; "grid_size" := grid ]}.
Proof.
  unfold FabolasWithMUMBO_init. intros E.
  step_result E. step_result E.
  destruct a0 as [sources|]; [|discriminate E]. cbn in E.
  repeat step_result E. injection E as <-. cbn. eauto 10.
Qed.

(** What a [_setup_model] that returns has computed on its way. *)
Lemma setup_model_inv (self : FabolasWithMUMBO) (b b' : BenchState)
    (log : list objective_call) (loop : CostSensitiveBayesianOptimizationLoop) :
  setup_model self b = (b', log, Ok loop) ->
  exists X lo hi
         (results : list (Configuration * gmap string PyVal * result_dict))
         marginalize,
    warm_start self = Ok X /\
    bounds0 (emukit_fidelity self) = Ok (lo, hi) /\
    Forall2 (fun row r => wrapper_inputs self [row] = Ok (fst r)) X results /\
    log = (fun r => (fst r, Ok (snd r))) <$> results /\
    getitem (optimizer_settings self) "marginalize_hypers" = Ok marginalize /\
    model_objective loop
      = {| X_init := X; Y_init := (fun r => [function_value (snd r)]) <$> results;
           model_s_min := lo; model_s_max := hi |} /\
    model_cost loop
      = {| X_init := X; Y_init := (fun r => [cost (snd r)]) <$> results;
           model_s_min := lo; model_s_max := hi |} /\
    target_information_source_index (acquisition_of (acquisition loop)) = hi /\
    mumbo_model (acquisition_of (acquisition loop)) = model_objective loop /\
    acquisition loop
      = (if truthy marginalize
         then IntegratedHyperParameterAcquisition
         else Plain) (acquisition_of (acquisition loop)).
Proof.
  unfold setup_model. intros E.
  destruct (warm_start self) as [X|e]; [|discriminate E].
  destruct (bounds0 (emukit_fidelity self)) as [[lo hi]|e]; [|discriminate E].
  destruct (evaluate_rows self X b []) as [[b1 log1] [outputs|e]] eqn:Hrows;
    [|discriminate E].
  apply evaluate_rows_ok in Hrows as (results & Hres & -> & ->).
  injection E as <- <- E. cbn [mbind result_bind rbind] in E.
  rewrite reshape_pairs_outputs in E. cbn [mbind result_bind rbind] in E.
  repeat step_result E. injection E as <-.
  exists X, lo, hi, results, a.
  rewrite <- !list_fmap_compose. cbn [acquisition model_objective model_cost].
  split; [reflexivity|]. split; [reflexivity|]. split; [exact Hres|].
  split; [reflexivity|]. split; [reflexivity|].
  split; [reflexivity|]. split; [reflexivity|].
  destruct (truthy a); cbn; auto.
Qed.


(** X15.  For a constructed [FabolasWithMUMBO] whose [_setup_model] returns,
    there is at least one information source, both models are given the
    fidelity bounds 1 and [n], the number of sources, and the target
    information source of the MUMBO acquisition is the index [n], which
    [fidelity_emukit_to_cs] maps to the last information source.  The
    acquisition is integrated over the hyperparameters exactly when the
    setting [marginalize_hypers] is truthy. *)
Theorem setup_model_target (base : SingleFidelityOptimizer) (self : FabolasWithMUMBO)
    (b b' : BenchState) (log : list objective_call)
    (loop : CostSensitiveBayesianOptimizationLoop) :
  FabolasWithMUMBO_init base = Ok self ->
  setup_model self b = (b', log, Ok loop) ->
  1 <= Z.of_nat (length (info_sources self)) /\
  model_s_min (model_objective loop) = 1 /\
  model_s_max (model_objective loop) = Z.of_nat (length (info_sources self)) /\
  model_s_min (model_cost loop) = 1 /\
  model_s_max (model_cost loop) = Z.of_nat (length (info_sources self)) /\
  target_information_source_index (acquisition_of (acquisition loop))
    = Z.of_nat (length (info_sources self)) /\
  mumbo_model (acquisition_of (acquisition loop)) = model_objective loop /\
  (exists v,
      last (info_sources self) = Some v /\
      fidelity_emukit_to_cs self (inject_Z (Z.of_nat (length (info_sources self))))
      = Ok {[ hp_name (main_fidelity base) := v ]}) /\
  (exists marginalize,
      get_mandatory_optimizer_setting (settings base) "marginalize_hypers"
        = Ok marginalize /\
      acquisition loop
        = (if truthy marginalize
           then IntegratedHyperParameterAcquisition
           else Plain) (acquisition_of (acquisition loop))).
Proof.
  intros Hinit E.
  pose proof (FabolasWithMUMBO_init_settings _ _ Hinit)
    as (ui & mh & mc & gs & _ & Hmh & _ & _ & Hopt & _).
  apply FabolasWithMUMBO_init_inv in Hinit as (Hbase & _ & Hfid & _).
  apply setup_model_inv in E
    as (X & lo & hi & results & m & _ & Hb & _ & _ & Hm & Ho & Hc & Ht & Hmm & Hacq).
  set (n := Z.of_nat (length (info_sources self))) in *.
  assert (1 <= n) as Hn.
  { destruct (Z.le_gt_cases 1 n) as [|Hlt]; [assumption|].
    rewrite Hfid in Hb. unfold bounds0, SmarterInformationSourceParameter in Hb.
    cbn [domain] in Hb. unfold seqZ in Hb.
    replace (Z.to_nat n) with 0%nat in Hb by lia. discriminate Hb. }
  rewrite Hfid, bounds0_smarter in Hb by exact Hn.
  injection Hb as <- <-. replace (1 + n - 1) with n in * by lia.
  rewrite Ho, Hc. cbn [model_s_min model_s_max].
  split; [exact Hn|]. do 4 (split; [reflexivity|]).
  split; [exact Ht|]. split; [now rewrite Hmm, Ho|]. split.
  - destruct (lookup_in_range (info_sources self) (n - 1)) as [v Hv]; [fold n; lia|].
    exists v. split.
    + rewrite last_lookup, <- Hv. f_equal. unfold n. lia.
    + rewrite <- Hbase. apply fidelity_emukit_to_cs_index.
      rewrite int_of_float_inject_Z. apply index_lookup; [lia | exact Hv].
  - exists mh. split; [exact Hmh|].
    rewrite Hopt in Hm. unfold getitem in Hm.
    rewrite lookup_insert_ne, lookup_singleton_eq in Hm by discriminate.
    injection Hm as <-. exact Hacq.
Qed.

(** The warm-start design of an optimizer whose fidelity parameter counts its
    sources from 1. *)
Lemma warm_start_rows (self : FabolasWithMUMBO) (X : list (list Q)) :
  emukit_fidelity self
    = SmarterInformationSourceParameter (Z.of_nat (length (info_sources self))) 1 ->
  0 <= mb_n_init self ->
  warm_start self = Ok X ->
  1 <= Z.of_nat (length (info_sources self)) /\
  Z.of_nat (length X) = mb_n_init self /\
  forall (i : nat) row,
    X !! i = Some row ->
    exists g,
      row = g ++ [inject_Z (1 + Z.of_nat i mod Z.of_nat (length (info_sources self)))].
Proof.
  intros Hfid Hpos Hw.
  set (n := Z.of_nat (length (info_sources self))) in *.
  set (n_init := mb_n_init self) in *.
  unfold warm_start in Hw. fold n n_init in Hw.
  destruct (get_samples (mb_emukit_space self) n_init) as [grid|e] eqn:Hgrid;
    [|discriminate Hw].
  pose proof (get_samples_shape _ _ _ Hgrid) as Hrows.
  cbn [mbind result_bind rbind] in Hw. unfold floordiv in Hw.
  destruct (Z.eqb_spec n 0) as [|Hn0]; [discriminate Hw|].
  assert (1 <= n) as Hn by lia. split; [exact Hn|].
  rewrite Hfid, bounds0_smarter in Hw by exact Hn.
  unfold tile in Hw. cbn [mbind result_bind rbind fst snd] in Hw.
  assert (0 <= n_init / n) as Hq by (apply Z.div_pos; lia).
  destruct (Z.ltb_spec (n_init / n + 1) 0) as [|_]; [lia|]. cbn [rbind] in Hw.
  unfold slice_to in Hw. destruct (Z.ltb_spec n_init 0) as [|_]; [lia|].
  unfold arange in Hw. replace (1 + n - 1 + 1 - 1) with n in Hw by lia.
  set (cycle := Int <$> seqZ 1 n) in Hw.
  assert (length cycle = Z.to_nat n) as Hcycle.
  { unfold cycle. now rewrite length_fmap, length_seqZ. }
  set (tiled := concat (replicate (Z.to_nat (n_init / n + 1)) cycle)) in Hw.
  assert (Z.to_nat n_init < length tiled)%nat as Htiled.
  { unfold tiled. rewrite length_concat_replicate, Hcycle.
    pose proof (Z.mod_pos_bound n_init n ltac:(lia)) as Hmod.
    pose proof (Z.div_mod n_init n ltac:(lia)) as Hdm.
    apply Nat2Z.inj_lt. rewrite Nat2Z.inj_mul, !Z2Nat.id by lia. nia. }
  cbn [mbind result_bind rbind] in Hw. unfold concatenate_axis1 in Hw.
  set (fids := (fun s => [value s]) <$> take (Z.to_nat n_init) tiled) in Hw.
  assert (length fids = Z.to_nat n_init) as Hfids.
  { unfold fids. rewrite length_fmap, length_take. lia. }
  assert (length grid = length fids) as Hsame by lia.
  rewrite Hsame, Nat.eqb_refl in Hw. injection Hw as <-. split.
  - rewrite length_zip_with. lia.
  - intros i row Hrow.
    apply lookup_zip_with_Some in Hrow as (g & f & -> & Hg & Hf).
    exists g. f_equal.
    assert (i < Z.to_nat n_init)%nat as Hi.
    { apply lookup_lt_Some in Hf. lia. }
    unfold fids in Hf. rewrite list_lookup_fmap, lookup_take_lt in Hf by exact Hi.
    unfold tiled in Hf. rewrite lookup_concat_replicate in Hf.
    2:{ rewrite <- length_concat_replicate. fold tiled. lia. }
    rewrite Hcycle in Hf. unfold cycle in Hf.
    rewrite list_lookup_fmap, lookup_seqZ_lt in Hf.
    2:{ pose proof (Nat.mod_upper_bound i (Z.to_nat n) ltac:(lia)). lia. }
    injection Hf as <-. cbn [value]. do 2 f_equal.
    rewrite Nat2Z.inj_mod, Z2Nat.id by lia. reflexivity.
Qed.

Lemma wrapper_inputs_fidelity (self : FabolasWithMUMBO) (g : list Q) (s : Q)
    config fidelity :
  wrapper_inputs self [g ++ [s]] = Ok (config, fidelity) ->
  fidelity_emukit_to_cs self s = Ok fidelity.
Proof.
  unfold wrapper_inputs. rewrite last_snoc. intros E.
  step_result E. step_result E. now injection E as _ <-.
Qed.

(** X16.  The warm-start evaluations of a constructed [FabolasWithMUMBO] walk
    through the information sources in turn: with [n] sources and
    [n_init >= 0], a [_setup_model] that returns has called the objective
    function [n_init] times, the [i]-th call (counting from 0) at the
    fidelity [info_sources[i mod n]]. *)
Theorem setup_model_fidelity_cycle (base : SingleFidelityOptimizer)
    (self : FabolasWithMUMBO) (b b' : BenchState) (log : list objective_call)
    (loop : CostSensitiveBayesianOptimizationLoop) :
  FabolasWithMUMBO_init base = Ok self ->
  0 <= mb_n_init self ->
  setup_model self b = (b', log, Ok loop) ->
  Z.of_nat (length log) = mb_n_init self /\
  forall (i : nat) call,
    log !! i = Some call ->
    exists v,
      info_sources self !! (i mod length (info_sources self))%nat = Some v /\
      snd (fst call) = {[ hp_name (main_fidelity base) := v ]}.
Proof.
  intros Hinit Hpos E.
  apply FabolasWithMUMBO_init_inv in Hinit as (Hbase & _ & Hfid & _).
  apply setup_model_inv in E
    as (X & lo & hi & results & m & HX & _ & Hres & -> & _).
  destruct (warm_start_rows self X Hfid Hpos HX) as (Hn & Hlen & Hrows).
  set (n := Z.of_nat (length (info_sources self))) in *.
  pose proof (Forall2_length _ _ _ Hres) as Hsame. split.
  - rewrite length_fmap. lia.
  - intros i call Hcall. rewrite list_lookup_fmap in Hcall.
    destruct (results !! i) as [[[config fidelity] res]|] eqn:Hr; [|discriminate Hcall].
    injection Hcall as <-. cbn [fst snd].
    destruct (Forall2_lookup_r _ _ _ _ _ Hres Hr) as (row & Hrow & Hin).
    destruct (Hrows i row Hrow) as [g ->]. cbn [fst] in Hin.
    apply wrapper_inputs_fidelity in Hin.
    pose proof (Z.mod_pos_bound (Z.of_nat i) n ltac:(lia)) as Hmod.
    destruct (lookup_in_range (info_sources self) (Z.of_nat i mod n)) as [v Hv];
      [fold n; lia|].
    exists v. split.
    + rewrite <- Hv. f_equal. unfold n. rewrite <- Nat2Z.inj_mod. lia.
    + rewrite <- Hbase.
      rewrite (fidelity_emukit_to_cs_index self _ v) in Hin; [now injection Hin|].
      rewrite int_of_float_inject_Z. apply index_lookup; [lia|].
      now replace (1 + Z.of_nat i mod n - 1) with (Z.of_nat i mod n) by lia.
Qed.

End Facts.

(** *** The examples *)

Lemma config_values_lookup_witness :
  config_values (mb_to_cs example_mumbo) [3 # 10; 7; 2]%Q !! "depth"
  = Some (Num (Float 7)).
Proof.
  destruct (config_values_lookup (mb_to_cs example_mumbo) [3 # 10; 7; 2]%Q)
    as [Hat _].
  - apply (bool_decide_unpack _). vm_compute. exact I.
  - apply (Hat 1%nat "depth" (fun q => Num (Float q)) 7%Q); reflexivity.
Defined.

(** Fidelity index 0 is the highest level, index 5 is out of range. *)
Example example_fidelity_index :
  fidelity_emukit_to_cs example_mumbo_epochs 0 = Ok {[ "epochs" := Num (Int 4) ]} /\
  fidelity_emukit_to_cs example_mumbo_epochs 5 = Raise IndexError.
Proof. split; vm_compute; reflexivity. Qed.

Lemma mumbo_integer_fidelity_levels_witness :
  info_sources example_mumbo_epochs = [Num (Int 1); Num (Int 2); Num (Int 3); Num (Int 4)] /\
  fidelity_emukit_to_cs example_mumbo_epochs (inject_Z 4)
  = Ok {[ "epochs" := Num (Int 4) ]}.
Proof.
  destruct (mumbo_integer_fidelity_levels example_epochs example_mumbo_epochs
              "epochs" 1 4 1 4) as (Hsrc & _ & _ & Htop).
  - vm_compute. reflexivity.
  - reflexivity.
  - reflexivity.
  - reflexivity.
  - split; [exact Hsrc|]. apply Htop. lia.
Defined.

Lemma mumbo_wrapper_failure_witness :
  wrapper_inputs example_mumbo [[3 # 10; 7; 9]%Q] = Raise IndexError.
Proof.
  destruct (mumbo_wrapper_failure example_mumbo (Arr2 [[3 # 10; 7; 9]%Q])
              0%nat 0%nat [] IndexError) as [_ [(Hin & _)|Hcall]].
  - vm_compute. reflexivity.
  - exact Hin.
  - destruct Hcall as (config & fidelity & results & Hin & _). vm_compute in Hin.
    discriminate Hin.
Defined.


Lemma fabolas_subsampling_range_order_witness :
  s_min example_fabolas_tenth = Int 1 /\
  s_max example_fabolas_tenth = Float ((1 # 10) * inject_Z 4) /\
  ~ (value (s_min example_fabolas_tenth) <= value (s_max example_fabolas_tenth))%Q.
Proof.
  destruct (fabolas_subsampling_range_order example_tenth example_fabolas_tenth)
    as [_ Hfloat].
  - vm_compute. reflexivity.
  - destruct (Hfloat "subsample" 0%Q (1 # 10)%Q eq_refl)
      as (labels & Hy & Hmax & Hiff).
    injection Hy as <-.
    split; [reflexivity|]. split; [exact Hmax|].
    intros Hle. apply Hiff in Hle as [_ Hone].
    vm_compute in Hone. now apply Hone.
Defined.

Lemma fabolas_wrapper_call_witness :
  exists config res,
    objective_function (Collaborators := example_collaborators) 0%nat config
      {[ "subsample" := Num (Float (4 / (1 * inject_Z 4))) ]} = (1%nat, Ok res) /\
    function_value res = 0%Q.
Proof.
  destruct (fabolas_wrapper_call example_subsample example_fabolas
              [3 # 10; 7]%Q 4%Q 0%nat 1%nat
              (snd (fst (FabolasOptimizer_wrapper example_fabolas [3 # 10; 7]%Q 4%Q 0%nat)))
              0%Q 1%Q)
    as (config & fraction & res & _ & Hcall & _ & Hy & _ & _ & Hfloat).
  - vm_compute. reflexivity.
  - vm_compute. reflexivity.
  - destruct (Hfloat "subsample" 0%Q 1%Q eq_refl) as (labels & Hl & -> & _).
    injection Hl as <-. exists config, res. split; [exact Hcall | now rewrite <- Hy].
Defined.

Lemma returned_inv {S L A} (x : S * L * result A) :
  returned (snd x) = true -> exists b l a, x = (b, l, Ok a).
Proof. destruct x as [[b l] [a|e]]; [eauto | discriminate]. Qed.

(** [_setup_model] returns on the example. *)
Example example_setup_model_returns :
  returned (snd (setup_model example_mumbo 0%nat)) = true.
Proof. vm_compute. reflexivity. Qed.


Lemma setup_model_target_witness :
  exists loop,
    snd (setup_model example_mumbo 0%nat) = Ok loop /\
    target_information_source_index (acquisition_of (acquisition loop)) = 4 /\
    exists v,
      last (info_sources example_mumbo) = Some v /\
      fidelity_emukit_to_cs example_mumbo (inject_Z 4) = Ok {[ "fraction" := v ]}.
Proof.
  destruct (returned_inv _ example_setup_model_returns) as (b' & log & loop & E).
  destruct (setup_model_target example_fraction example_mumbo 0%nat b' log loop)
    as (_ & _ & _ & _ & _ & Htarget & _ & Hlast & _).
  - vm_compute. reflexivity.
  - exact E.
  - exists loop. split; [now rewrite E|]. split; [exact Htarget | exact Hlast].
Defined.

Lemma setup_model_fidelity_cycle_witness :
  Z.of_nat (length (snd (fst (setup_model example_mumbo 0%nat)))) = 5.
Proof.
  destruct (returned_inv _ example_setup_model_returns) as (b' & log & loop & E).
  rewrite E.
  apply (setup_model_fidelity_cycle example_fraction example_mumbo 0%nat b' log loop).
  - vm_compute. reflexivity.
  - vm_compute. discriminate.
  - exact E.
Defined.

End FabolasMore.
(** ** More about the command line: how it fails, what it requires, and the
    call it ends in *)

Module CliMore.
Import Cli CliFacts.

Section Facts.
Context `{Collaborators}.

(** *** Which argument strings stand for which option *)

Lemma lookup_option_table (o : string) (a : Action) :
  lookup_option o = Some a -> (o, a) ∈ option_table.
Proof.
  unfold lookup_option. intros Hl.
  destruct (find _ option_table) as [[o' a']|] eqn:Hf; [|discriminate Hl].
  injection Hl as <-. apply find_some in Hf as [Hin Heq].
  apply String.eqb_eq in Heq. cbn in Heq. subst o'. now apply list_elem_of_In.
Qed.

(** An abbreviation stands for an option it is a prefix of: either the
    argument string begins with the whole option string ([-h] followed by
    more), or the two share a prefix of two dashes and at least one more
    character. *)
Lemma option_tuples_selects (arg : string) (a : Action) (o : string)
    (e : option string) :
  option_tuples arg = [TOpt a o e] ->
  (o, a) ∈ option_table /\
  (starts_with arg o = true \/
   exists c p,
     starts_with arg (String "-" (String "-" (String c p))) = true /\
     starts_with o (String "-" (String "-" (String c p))) = true).
Proof.
  unfold option_tuples. intros Ht.
  destruct arg as [|c1 [|c2 rest]]; try discriminate Ht.
  destruct (Ascii.eqb_spec c1 "-") as [->|]; [|discriminate Ht]. cbn [negb] in Ht.
  destruct (Ascii.eqb_spec c2 "-") as [->|Hc2].
  - assert (exists p e',
               (option_table ≫= fun q =>
                  if starts_with (fst q) p then [TOpt (snd q) (fst q) e'] else [])
               = [TOpt a o e] /\
               starts_with (String "-" (String "-" rest)) p = true /\
               starts_with p "--" = true) as (p & e' & Hl & Hp & Hdd).
    { destruct (split_eq (String "-" (String "-" rest))) as [[l r]|] eqn:Hs.
      - exists l, (Some r). split; [exact Ht|].
        pose proof (split_eq_spec _ _ _ Hs) as Heq. cbn in Hs.
        destruct (split_eq rest) as [[l' r']|]; [|discriminate Hs].
        injection Hs as <- <-. split; [|reflexivity].
        rewrite Heq. apply starts_with_app, starts_with_refl.
      - exists (String "-" (String "-" rest)), None. split; [exact Ht|].
        split; [apply starts_with_refl | reflexivity]. }
    assert (TOpt a o e ∈ [TOpt a o e]) as Hin by left. rewrite <- Hl in Hin.
    apply list_elem_of_bind in Hin as ([o' a'] & Hta & Hoa). cbn [fst snd] in Hta.
    destruct (starts_with o' p) eqn:Hop; [|now inversion Hta].
    apply list_elem_of_singleton in Hta. injection Hta as <- <- _.
    split; [exact Hoa|]. right.
    destruct p as [|d1 [|d2 p]];
      [discriminate Hdd
      |rewrite starts_with_cons in Hdd; cbn [starts_with] in Hdd;
       rewrite andb_false_r in Hdd; discriminate Hdd|].
    rewrite !starts_with_cons, !andb_true_iff, !Ascii.eqb_eq in Hdd.
    destruct Hdd as (<- & <- & _).
    destruct p as [|d3 p]; [rewrite option_table_eq in Hl; discriminate Hl|].
    exists d3, p. split; assumption.
  - assert (TOpt a o e ∈ [TOpt a o e]) as Hin by left. rewrite <- Ht in Hin.
    apply Ascii.eqb_neq in Hc2.
    apply list_elem_of_bind in Hin as ([o' a'] & Hta & Hoa). cbn [fst snd] in Hta.
    destruct (String.eqb_spec o' (String "-" (String c2 EmptyString))) as [->|Hne].
    + apply list_elem_of_singleton in Hta. injection Hta as <- -> _.
      split; [exact Hoa|]. left.
      rewrite !starts_with_cons, !Ascii.eqb_refl. reflexivity.
    + destruct (starts_with o' _) eqn:Hop; [|now inversion Hta].
      apply list_elem_of_singleton in Hta. injection Hta as <- <- _.
      split; [exact Hoa|]. exfalso.
      rewrite option_table_eq in Hoa.
      repeat (apply elem_of_cons in Hoa as [Hoa|Hoa];
              [injection Hoa as -> _;
               rewrite !starts_with_cons in Hop;
               try (rewrite Hc2, andb_false_r in Hop; discriminate Hop)|]);
        [|inversion Hoa].
      rewrite !andb_true_iff, !Ascii.eqb_eq in Hop. destruct Hop as (_ & -> & Hrest).
      destruct rest; [now apply Hne | discriminate Hrest].
Qed.

Lemma parse_optional_selects (arg : string) (a : Action) (o : string)
    (e : option string) :
  parse_optional arg = Ok (TOpt a o e) ->
  (o, a) ∈ option_table /\
  (starts_with arg o = true \/
   exists c p,
     starts_with arg (String "-" (String "-" (String c p))) = true /\
     starts_with o (String "-" (String "-" (String c p))) = true).
Proof.
  unfold parse_optional. intros E.
  destruct (negb (starts_with arg "-")); [discriminate E|].
  destruct (lookup_option arg) as [a0|] eqn:Hl.
  { injection E as <- <- <-. split; [now apply lookup_option_table|].
    left. apply starts_with_refl. }
  destruct (String.length arg =? 1)%nat; [discriminate E|].
  assert (forall ts, option_tuples arg = ts ->
            match ts with
            | _ :: _ :: _ => usage_error
            | [t0] => Ok t0
            | [] => if looks_like_negative_number arg then Ok (TArg arg)
                    else if contains_space arg then Ok (TArg arg)
                    else Ok (TUnknown arg)
            end = Ok (TOpt a o e) ->
            (o, a) ∈ option_table /\
            (starts_with arg o = true \/
             exists c p,
               starts_with arg (String "-" (String "-" (String c p))) = true /\
               starts_with o (String "-" (String "-" (String c p))) = true))
    as Habbrev.
  { intros [|t1 [|t2 ts]] Hts Et.
    - repeat (destruct (_ : bool) in Et); discriminate Et.
    - injection Et as ->. exact (option_tuples_selects _ _ _ _ Hts).
    - discriminate Et. }
  destruct (split_eq arg) as [[l r]|] eqn:Hs; [|eauto].
  destruct (lookup_option l) as [a0|] eqn:Hl'; cbn in E; [|eauto].
  injection E as <- <- <-. split; [now apply lookup_option_table|].
  left. rewrite (split_eq_spec _ _ _ Hs). apply starts_with_app, starts_with_refl.
Qed.

(** An argument string that stands for an option whose option strings all
    begin with [--c] begins with [--c] itself. *)
Lemma parse_optional_prefix (arg : string) (a : Action) (o : string)
    (e : option string) (c : ascii) :
  parse_optional arg = Ok (TOpt a o e) ->
  (forall o', (o', a) ∈ option_table ->
              starts_with o' (String "-" (String "-" (String c EmptyString))) = true) ->
  starts_with arg (String "-" (String "-" (String c EmptyString))) = true.
Proof.
  intros E Hall. apply parse_optional_selects in E as [Hoa [Hpre|(c' & p & Harg & Ho)]].
  - eapply starts_with_trans; [exact Hpre | now apply Hall].
  - apply Hall in Hoa. eapply starts_with_trans; [exact Harg|].
    destruct o as [|d1 [|d2 [|d3 o]]];
      rewrite ?starts_with_cons in Hoa, Ho; cbn [starts_with] in Hoa, Ho;
      rewrite ?andb_false_r in Hoa; try discriminate Hoa.
    rewrite !andb_true_iff, !Ascii.eqb_eq in Hoa, Ho.
    destruct Hoa as (_ & _ & -> & _). destruct Ho as (_ & _ & -> & _).
    rewrite !starts_with_cons, !Ascii.eqb_refl. reflexivity.
Qed.

Lemma option_strings_of (o : string) (a : Action) :
  (o, a) ∈ option_table ->
  (a = help_action -> o = "-h" \/ o = "--help") /\
  (a = output_dir_action -> o = "--output_dir") /\
  (a = benchmark_action -> o = "--benchmark").
Proof.
  rewrite option_table_eq. intros Hin.
  repeat (apply elem_of_cons in Hin as [Hin|Hin];
          [injection Hin as -> ->;
           split; [|split]; intros Heq; try discriminate Heq; auto|]).
  inversion Hin.
Qed.

(** The two required options are only ever named by an argument string that
    begins with [--o], respectively [--b]. *)
Lemma parse_optional_required (arg : string) (t : token) :
  parse_optional arg = Ok t -> known_token t ->
  (names_dest "output_dir" t -> starts_with arg "--o" = true) /\
  (names_dest "benchmark" t -> starts_with arg "--b" = true).
Proof.
  intros E Hk.
  destruct t as [s| |a o e|s];
    [split; intros [] | split; intros [] | | split; intros []].
  cbn in Hk. split; intros Hd; cbn in Hd;
    apply parser_cases in Hk as [-> | [-> | [-> | [-> | ->]]]];
    try discriminate Hd;
    (eapply parse_optional_prefix; [exact E|]);
    intros o' Ho'; apply option_strings_of in Ho' as (_ & Hout & Hben).
  - now rewrite (Hout eq_refl).
  - now rewrite (Hben eq_refl).
Qed.


(** What holds of some token holds of the argument string it was. *)
Lemma classify_Exists (P : token -> Prop) (Q : string -> Prop) :
  (forall arg t, parse_optional arg = Ok t -> known_token t -> P t -> Q arg) ->
  (forall s, ~ P (TArg s)) -> ~ P TDash ->
  forall argv ts, classify argv = Ok ts -> Exists P ts -> Exists Q argv.
Proof.
  intros Hopt Harg Hdash. induction argv as [|arg rest IH]; intros ts E Hex; cbn in E.
  - injection E as <-. inversion Hex.
  - destruct (String.eqb arg "--").
    + injection E as <-. apply Exists_cons in Hex as [Hd|Hex]; [now apply Hdash in Hd|].
      apply Exists_exists in Hex as (t & Hin & Ht).
      apply list_elem_of_fmap in Hin as (s & -> & _). now apply Harg in Ht.
    + destruct (parse_optional arg) as [t|e] eqn:Ht; [|discriminate E].
      cbn in E. destruct (classify rest) as [ts'|e] eqn:Hrest; [|discriminate E].
      cbn in E. injection E as <-.
      apply Exists_cons in Hex as [Hp|Hex].
      * apply Exists_cons_hd. eapply Hopt; [exact Ht| |exact Hp].
        eapply parse_optional_known, Ht.
      * apply Exists_cons_tl. eauto.
Qed.

(** *** How parsing fails *)







(** *** The required options *)

Lemma take_store_seen (w w' : walk) (a : Action) (s : string) (next : mode) :
  take_store w a s next = Ok w' ->
  seen w' = dest a :: seen w /\ pending w' = next.
Proof.
  unfold take_store. destruct (get_value a s); [|discriminate].
  cbn. intros E. injection E as <-. auto.
Qed.

Lemma start_option_seen (w w' : walk) (a : Action) (o : string)
    (x : option string) (d : string) :
  start_option w a o x = Ok w' ->
  d ∈ seen w' \/ waits_for d w' ->
  d ∈ seen w \/ dest a = d.
Proof.
  unfold start_option, waits_for. intros E Hd.
  destruct (kind a); destruct x as [x|].
  - apply take_store_seen in E as [Hs Hp]. rewrite Hs, Hp in Hd.
    destruct Hd as [Hd|(a' & Hp' & _)]; [|discriminate Hp'].
    apply elem_of_cons in Hd as [->|]; auto.
  - injection E as <-. cbn in Hd.
    destruct Hd as [Hd|(a' & Hp' & Hd')]; [auto|]. injection Hp' as <-. auto.
  - discriminate E.
  - injection E as <-. cbn in Hd.
    destruct Hd as [Hd|(a' & Hp' & _)]; [|discriminate Hp'].
    apply elem_of_cons in Hd as [->|]; auto.
  - destruct (starts_with o "--"); [discriminate E|].
    destruct (all_h x); discriminate E.
  - discriminate E.
Qed.

(** A step that leaves the actions seen as they were and waits for
    nothing. *)
Lemma step_idle (w w' : walk) (d : string) :
  seen w' = seen w -> pending w' = Idle ->
  d ∈ seen w' \/ waits_for d w' -> d ∈ seen w.
Proof.
  unfold waits_for. intros Hs Hp [Hd|(a & Hp' & _)]; [now rewrite <- Hs|].
  rewrite Hp in Hp'. discriminate Hp'.
Qed.

Lemma step_seen (w w' : walk) (t : token) (d : string) :
  step w t = Ok w' ->
  d ∈ seen w' \/ waits_for d w' ->
  d ∈ seen w \/ waits_for d w \/ names_dest d t.
Proof.
  unfold step. intros E Hd.
  destruct (pending w) as [|a|] eqn:Hp; destruct t as [s| |a' o x|s];
    cbv beta iota in E; cbn [names_dest].
  - injection E as <-. left. now apply (step_idle w _ d) in Hd.
  - injection E as <-. left. now apply (step_idle w _ d) in Hd.
  - destruct (start_option_seen _ _ _ _ _ d E Hd); auto.
  - injection E as <-. left. now apply (step_idle w _ d) in Hd.
  - apply take_store_seen in E as [Hs Hp']. unfold waits_for in *.
    rewrite Hs, Hp' in Hd. destruct Hd as [Hd|(a0 & Hp0 & _)]; [|discriminate Hp0].
    apply elem_of_cons in Hd as [->|]; eauto.
  - injection E as <-. destruct Hd; auto.
  - discriminate E.
  - discriminate E.
  - injection E as <-. left. now apply (step_idle w _ d) in Hd.
  - injection E as <-. left. now apply (step_idle w _ d) in Hd.
  - destruct (start_option_seen _ _ _ _ _ d E Hd); auto.
  - injection E as <-. left. now apply (step_idle w _ d) in Hd.
Qed.

Lemma consume_seen (ts : list token) (d : string) :
  forall w w',
    consume w ts = Ok w' ->
    d ∈ seen w' \/ waits_for d w' ->
    d ∈ seen w \/ waits_for d w \/ Exists (names_dest d) ts.
Proof.
  induction ts as [|t rest IH]; intros w w' E Hd; cbn in E.
  - injection E as <-. destruct Hd; auto.
  - destruct (step w t) as [w1|e] eqn:Hs; [|discriminate E]. cbn in E.
    destruct (IH _ _ E Hd) as [Hseen|[Hwait|Hex]].
    + destruct (step_seen _ _ _ _ Hs (or_introl Hseen)) as [?|[?|?]];
        [now left | now right; left | right; right; now apply Exists_cons_hd].
    + destruct (step_seen _ _ _ _ Hs (or_intror Hwait)) as [?|[?|?]];
        [now left | now right; left | right; right; now apply Exists_cons_hd].
    + right. right. now apply Exists_cons_tl.
Qed.

(** X18.  The two options declared with [required=True] are required: when
    [parse_known_args] returns, some argument string begins with [--o] and
    some argument string begins with [--b] (an option may be abbreviated).
    A command line without one of them ends in a [SystemExit]. *)
Theorem parse_known_args_required (argv : list string)
    (ns : gmap string CliVal) (unknown : list string) :
  parse_known_args argv = Ok (ns, unknown) ->
  Exists (fun arg => starts_with arg "--o" = true) argv /\
  Exists (fun arg => starts_with arg "--b" = true) argv.
Proof.
  unfold parse_known_args. intros E.
  destruct (classify argv) as [ts|e0] eqn:Hc; [|discriminate E].
  cbn [mbind result_bind rbind] in E.
  destruct (consume _ ts) as [w|e0] eqn:Hw; [|discriminate E].
  cbn [mbind result_bind rbind] in E.
  assert (forallb (fun a => negb (required a) || bool_decide (dest a ∈ seen w)) parser
          = true) as Hreq.
  { destruct (pending w); try discriminate E;
      destruct (forallb _ _); try discriminate E; reflexivity. }
  cbn in Hreq. rewrite !andb_true_iff in Hreq.
  destruct Hreq as (Ho & Hb & _).
  apply bool_decide_eq_true in Ho, Hb.
  assert (forall d, d ∈ seen w -> Exists (names_dest d) ts) as Hnamed.
  { intros d Hd.
    destruct (consume_seen _ d _ _ Hw (or_introl Hd)) as [Hs|[(a & Hp & _)|Hex]];
      [inversion Hs | discriminate Hp | exact Hex]. }
  split.
  - eapply (classify_Exists (names_dest "output_dir")); [| | |exact Hc|now apply Hnamed].
    + intros arg t Ht Hk. now apply parse_optional_required.
    + intros s [].
    + intros [].
  - eapply (classify_Exists (names_dest "benchmark")); [| | |exact Hc|now apply Hnamed].
    + intros arg t Ht Hk. now apply parse_optional_required.
    + intros s [].
    + intros [].
Qed.

(** *** The call *)


(** *** The shortest command line *)

Lemma plain_argument (s : string) :
  starts_with s "-" = false ->
  String.eqb s "--" = false /\ parse_optional s = Ok (TArg s).
Proof.
  intros Hs. split.
  - destruct s as [|c s]; [reflexivity|]. cbn in Hs |- *.
    destruct (Ascii.eqb_spec "-" c) as [<-|Hne]; [discriminate Hs|].
    destruct (Ascii.eqb_spec c "-") as [->|]; [congruence | reflexivity].
  - unfold parse_optional. now rewrite Hs.
Qed.

(** X20.  The command line [--output_dir d --benchmark b], with [d] and [b]
    not beginning with a dash and nothing made of an empty list of unknown
    arguments, calls [validate_benchmark] exactly when [b] is one of the
    benchmark names, with seed 0, [recompute_all] and [use_local] false and
    no benchmark parameter; for any other [b] it exits with status 2. *)
Theorem main_minimal_command_line (d b : string) :
  starts_with d "-" = false ->
  starts_with b "-" = false ->
  transform_unknown_params_to_dict [] = Ok ∅ ->
  main ["--output_dir"; d; "--benchmark"; b] =
  if bool_decide (b ∈ get_benchmark_names)
  then Ok {| arg_benchmark := VStr b;
             arg_output_dir := VStr d;
             arg_rng := VInt 0;
             arg_recompute_all := VBool false;
             arg_use_local := VBool false;
             arg_benchmark_params := ∅ |}
  else Raise (SystemExit 2).
Proof.
  intros Hd Hb Ht.
  destruct (plain_argument d Hd) as [Hd1 Hd2].
  destruct (plain_argument b Hb) as [Hb1 Hb2].
  assert (classify ["--output_dir"; d; "--benchmark"; b]
          = Ok [TOpt output_dir_action "--output_dir" None; TArg d;
                TOpt benchmark_action "--benchmark" None; TArg b]) as Hc.
  { cbn [classify]. rewrite Hd1, Hb1, Hd2, Hb2. reflexivity. }
  unfold main, parse_known_args. rewrite Hc.
  cbn [mbind result_bind rbind consume step pending start_option kind
       output_dir_action benchmark_action take_store get_value type_int choices].
  destruct (bool_decide (b ∈ get_benchmark_names)); [|reflexivity].
  cbn [mbind result_bind rbind consume step pending start_option kind
       output_dir_action benchmark_action take_store get_value type_int choices
       seen extras namespace dest fst snd].
  assert (forallb (fun a => negb (required a)
                            || bool_decide (dest a ∈ ["benchmark"; "output_dir"]))
                  parser = true) as -> by (vm_compute; reflexivity).
  cbn [mbind result_bind rbind fst snd].
  rewrite Ht. cbn [mbind result_bind rbind]. unfold merge_keywords.
  rewrite bool_decide_eq_true_2 by apply map_disjoint_empty_r.
  cbn [mbind result_bind rbind]. rewrite (right_id_L ∅ (∪)).
  unfold bind_signature. rewrite initial_namespace_eq. unfold namespace_of.
  vm_compute. reflexivity.
Qed.

End Facts.

(** *** The examples *)


Lemma parse_known_args_required_witness :
  Exists (fun arg => starts_with arg "--o" = true)
         ["--bench"; "xgboost"; "--out=results"; "--rng"; "3"] /\
  Exists (fun arg => starts_with arg "--b" = true)
         ["--bench"; "xgboost"; "--out=results"; "--rng"; "3"].
Proof.
  apply (parse_known_args_required (H := example_cli)
           ["--bench"; "xgboost"; "--out=results"; "--rng"; "3"]
           (namespace_of (VStr "results") (VStr "xgboost") (VInt 3) (VBool false)) []).
  vm_compute. reflexivity.
Defined.


Lemma main_minimal_command_line_witness :
  main (H := example_cli) ["--output_dir"; "results"; "--benchmark"; "xgboost"]
  = Ok {| arg_benchmark := VStr "xgboost";
          arg_output_dir := VStr "results";
          arg_rng := VInt 0;
          arg_recompute_all := VBool false;
          arg_use_local := VBool false;
          arg_benchmark_params := ∅ |}.
Proof.
  apply (main_minimal_command_line (H := example_cli) "results" "xgboost");
    reflexivity.
Defined.

End CliMore.
